(** * Aurora Tabular Modeller: the document, the tree and the commit

    A shallow embedding of [aurora_tabular_modeller/main.py].  The program
    loads a JSON document ([json.load]), shows part of it as a tree of
    items, lets the user edit the text of one item and writes the change
    back into the document ([update_model_value]), and saves the document
    with [json.dump(..., indent=4)].

    Modelling choices.
    - A JSON document as Python sees it after [json.load]: [None], [bool],
      [int], [str], [list] and [dict].  Numbers with a fraction or an
      exponent (Python [float]) are outside the embedding.
    - A Python [str] is a Rocq [string]: a sequence of code points below
      256.  The character classes used below ([str.isdigit], [str.strip],
      [str.isprintable]) are the Unicode ones restricted to that range.
    - An [int] is a [Z].  The limit CPython puts on the number of digits
      when it converts between [int] and [str], and its recursion limit,
      are not modelled.
    - A [dict] is an association list: insertion order is kept, as Python
      keeps it; lookups and stores use the first pair with the key.
    - [json.load] builds a fresh container for every array and object, so
      the document is a tree without sharing.  The in-place store
      [model[last_key] = ...] through a chain of references is therefore
      the same as rebuilding the document along the chain ([store]).
    - The Qt widgets are reduced to what the code reads and writes: the
      text of the tree items, their parent links, and the message boxes.
      A slot that raises is modelled up to the exception: what Qt does
      with it is not part of the program.
    - The operating system is an input: the file chosen in the dialog,
      the bytes on the disk, and whether a write goes through. *)

From Stdlib Require Import ZArith List String Ascii Bool Lia.
From Stdlib Require Decimal DecimalString DecimalZ.
Import ListNotations.

Local Open Scope string_scope.
Local Open Scope nat_scope.

(** ** Python values *)

Unset Elimination Schemes.

(** What [json.load] builds. *)
Inductive value : Type :=
| VNone
| VBool (b : bool)
| VInt (n : Z)
| VStr (s : string)
| VList (items : list value)
| VDict (pairs : list (string * value)).

Set Elimination Schemes.

(** Induction on a value, with the hypothesis for every item of a list and
    for every value of a dict. *)
Fixpoint value_ind (P : value -> Prop)
  (none : P VNone)
  (boolean : forall b, P (VBool b))
  (integer : forall n, P (VInt n))
  (text : forall s, P (VStr s))
  (sequence : forall items, Forall P items -> P (VList items))
  (mapping : forall pairs, Forall (fun kv => P (snd kv)) pairs -> P (VDict pairs))
  (v : value) {struct v} : P v :=
  let rec := value_ind P none boolean integer text sequence mapping in
  match v with
  | VNone => none
  | VBool b => boolean b
  | VInt n => integer n
  | VStr s => text s
  | VList items =>
      sequence items
        ((fix all (l : list value) : Forall P l :=
            match l with
            | [] => Forall_nil P
            | x :: l' => Forall_cons x (rec x) (all l')
            end) items)
  | VDict pairs =>
      mapping pairs
        ((fix all (l : list (string * value)) : Forall (fun kv => P (snd kv)) l :=
            match l with
            | [] => Forall_nil _
            | kv :: l' => Forall_cons kv (rec (snd kv)) (all l')
            end) pairs)
  end.

(** The exceptions the embedded code can raise. *)
Inductive exn : Type :=
| KeyError
| IndexError
| TypeError
| ValueError
| AttributeError.

(** The result of an expression that may raise. *)
Inductive result (A : Type) : Type :=
| Ok (a : A)
| Raise (e : exn).

Arguments Ok {A} a.
Arguments Raise {A} e.

Definition bind {A B : Type} (r : result A) (k : A -> result B) : result B :=
  match r with
  | Ok a => k a
  | Raise e => Raise e
  end.

Notation "x <- r ;; k" := (bind r (fun x => k))
  (at level 61, r at next level, right associativity).

(** A loop that builds a list and stops at the first exception. *)
Fixpoint mapM {A B : Type} (f : A -> result B) (l : list A) : result (list B) :=
  match l with
  | [] => Ok []
  | a :: l' => b <- f a ;; bs <- mapM f l' ;; Ok (b :: bs)
  end.

(** ** The Python built-ins the program calls *)

Module Py.

Definition code (c : ascii) : nat := nat_of_ascii c.

(** The double quote character. *)
Definition dquote : ascii := ascii_of_nat 34.

(** [str.isspace] on one character (Unicode White_Space and the
    bidirectional types WS, B, S), below 256. *)
Definition is_space (c : ascii) : bool :=
  let n := code c in
  ((9 <=? n) && (n <=? 13)) || ((28 <=? n) && (n <=? 32))
  || (n =? 133) || (n =? 160).

Definition is_ascii_digit (c : ascii) : bool :=
  let n := code c in (48 <=? n) && (n <=? 57).

(** A character with the Unicode property Digit: the ten ASCII digits and
    the superscripts two, three and one. *)
Definition is_digit_char (c : ascii) : bool :=
  let n := code c in
  is_ascii_digit c || (n =? 178) || (n =? 179) || (n =? 185).

Fixpoint all_chars (p : ascii -> bool) (s : string) : bool :=
  match s with
  | EmptyString => true
  | String c s' => p c && all_chars p s'
  end.

(** [s.isdigit()]: every character is a digit and there is at least one. *)
Definition isdigit (s : string) : bool :=
  match s with
  | EmptyString => false
  | _ => all_chars is_digit_char s
  end.

(** The text without the leading, resp. trailing, characters of a class. *)
Fixpoint lskip (p : ascii -> bool) (s : string) : string :=
  match s with
  | String c s' => if p c then lskip p s' else s
  | EmptyString => EmptyString
  end.

Fixpoint rskip (p : ascii -> bool) (s : string) : string :=
  match s with
  | EmptyString => EmptyString
  | String c s' =>
      match rskip p s' with
      | EmptyString => if p c then EmptyString else String c EmptyString
      | r => String c r
      end
  end.

(** [s.strip()] *)
Definition strip (s : string) : string := rskip is_space (lskip is_space s).

Fixpoint drop (n : nat) (s : string) : string :=
  match n, s with
  | S n', String _ s' => drop n' s'
  | _, _ => s
  end.

(** [sub in s] on strings. *)
Fixpoint str_contains (sub s : string) : bool :=
  prefix sub s ||
  match s with
  | EmptyString => false
  | String _ s' => str_contains sub s'
  end.

(** The text before and after the first occurrence of [sep], if any:
    [s.split(sep, 1)]. *)
Fixpoint split_once (sep s : string) : option (string * string) :=
  if prefix sep s then Some (EmptyString, drop (String.length sep) s)
  else
    match s with
    | EmptyString => None
    | String c s' =>
        match split_once sep s' with
        | Some (a, b) => Some (String c a, b)
        | None => None
        end
    end.

(** [s.split(sep)[0]] *)
Definition split_head (sep s : string) : string :=
  match split_once sep s with
  | Some (a, _) => a
  | None => s
  end.

Definition digit_val (c : ascii) : Z := Z.of_nat (code c - 48).

(** The digits of [int(s)] after the sign: decimal digits, with single
    underscores allowed between two digits.  [acc] is the value read so
    far, [prev] tells whether the previous character was a digit. *)
Fixpoint int_digits (s : string) (acc : Z) (prev : bool) : option Z :=
  match s with
  | EmptyString => if prev then Some acc else None
  | String c s' =>
      if is_ascii_digit c then int_digits s' (10 * acc + digit_val c)%Z true
      else if (c =? "_")%char then
        if prev then int_digits s' acc false else None
      else None
  end.

(** The whitespace [int] skips around the number: the ASCII whitespace of
    C, and the spaces above 127, which [int] first turns into blanks.  The
    separators 28 to 31 are whitespace for [str.strip] but not here. *)
Definition is_int_space (c : ascii) : bool :=
  let n := code c in
  ((9 <=? n) && (n <=? 13)) || (n =? 32) || (n =? 133) || (n =? 160).

(** [int(s)] on a string; [None] is [ValueError]. *)
Definition int_of_str (s : string) : option Z :=
  match rskip is_int_space (lskip is_int_space s) with
  | String "-" s' => option_map Z.opp (int_digits s' 0%Z false)
  | String "+" s' => int_digits s' 0%Z false
  | s' => int_digits s' 0%Z false
  end.

(** [repr(n)] and [str(n)] of an [int]. *)
Definition str_of_int (n : Z) : string :=
  DecimalString.NilZero.string_of_int (Z.to_int n).

Definition hex_digit (n : nat) : ascii :=
  if n <? 10 then ascii_of_nat (48 + n) else ascii_of_nat (87 + n).

(** [str.isprintable] on one character, below 256. *)
Definition is_printable (c : ascii) : bool :=
  let n := code c in
  ((32 <=? n) && (n <=? 126)) || ((161 <=? n) && negb (n =? 173)).

Fixpoint repr_chars (quote : ascii) (s : string) : string :=
  match s with
  | EmptyString => EmptyString
  | String c s' =>
      let rest := repr_chars quote s' in
      if (c =? quote)%char || (c =? "\")%char then String "\" (String c rest)
      else if code c =? 9 then String "\" (String "t" rest)
      else if code c =? 10 then String "\" (String "n" rest)
      else if code c =? 13 then String "\" (String "r" rest)
      else if is_printable c then String c rest
      else String "\" (String "x" (String (hex_digit (code c / 16))
                                     (String (hex_digit (code c mod 16)) rest)))
  end.

Definition has_char (c : ascii) (s : string) : bool :=
  negb (all_chars (fun d => negb (d =? c)%char) s).

(** [repr(s)] of a [str]: single quotes, unless the text has a single
    quote and no double quote. *)
Definition repr_str (s : string) : string :=
  let quote : ascii :=
    if has_char "'" s && negb (has_char dquote s) then dquote else "'"%char in
  String quote (repr_chars quote s ++ String quote EmptyString).

Fixpoint join (sep : string) (l : list string) : string :=
  match l with
  | [] => EmptyString
  | [x] => x
  | x :: l' => x ++ sep ++ join sep l'
  end.

(** [repr(v)] *)
Fixpoint repr (v : value) : string :=
  match v with
  | VNone => "None"
  | VBool true => "True"
  | VBool false => "False"
  | VInt n => str_of_int n
  | VStr s => repr_str s
  | VList items => "[" ++ join ", " (map repr items) ++ "]"
  | VDict pairs =>
      "{" ++ join ", " (map (fun kv => repr_str (fst kv) ++ ": " ++ repr (snd kv)) pairs)
          ++ "}"
  end.

(** [str(v)], what an f-string writes for [{v}]. *)
Definition str (v : value) : string :=
  match v with
  | VStr s => s
  | _ => repr v
  end.

(** [d.get(k)] on the pairs of a dict. *)
Fixpoint dict_get (k : string) (pairs : list (string * value)) : option value :=
  match pairs with
  | [] => None
  | (k', v) :: rest => if String.eqb k k' then Some v else dict_get k rest
  end.

(** [d[k] = v] on the pairs of a dict: an existing key keeps its place, a
    new key goes last. *)
Fixpoint dict_set (k : string) (v : value) (pairs : list (string * value))
  : list (string * value) :=
  match pairs with
  | [] => [(k, v)]
  | (k', v') :: rest =>
      if String.eqb k k' then (k, v) :: rest else (k', v') :: dict_set k v rest
  end.

Definition is_str (k : string) (v : value) : bool :=
  match v with
  | VStr s => String.eqb s k
  | _ => false
  end.

(** [key in model] for a string [key]; [None] is the [TypeError] of a
    value that is not iterable. *)
Definition contains (key : string) (model : value) : option bool :=
  match model with
  | VDict pairs =>
      Some (match dict_get key pairs with Some _ => true | None => false end)
  | VList items => Some (existsb (is_str key) items)
  | VStr s => Some (str_contains key s)
  | _ => None
  end.

(** [model[key]] for a string [key]. *)
Definition getitem (model : value) (key : string) : result value :=
  match model with
  | VDict pairs =>
      match dict_get key pairs with
      | Some v => Ok v
      | None => Raise KeyError
      end
  | _ => Raise TypeError
  end.

(** [model[i]] for a non-negative integer [i]. *)
Definition getindex (model : value) (i : nat) : result value :=
  match model with
  | VList items =>
      match nth_error items i with
      | Some v => Ok v
      | None => Raise IndexError
      end
  | VStr s =>
      match String.get i s with
      | Some c => Ok (VStr (String c EmptyString))
      | None => Raise IndexError
      end
  | VDict _ => Raise KeyError
  | _ => Raise TypeError
  end.

(** [isinstance(v, int)]: [bool] is a subclass of [int]. *)
Definition isinstance_int (v : value) : bool :=
  match v with
  | VInt _ | VBool _ => true
  | _ => false
  end.

(** [for item in items]: the values a loop over [items] visits. *)
Definition iter (items : value) : result (list value) :=
  match items with
  | VList l => Ok l
  | VDict pairs => Ok (map (fun kv => VStr (fst kv)) pairs)
  | VStr s => Ok (map (fun c => VStr (String c EmptyString)) (list_ascii_of_string s))
  | _ => Raise TypeError
  end.

(** [d.get(k, default)] as a method call: only a dict has it. *)
Definition get_default (d : value) (k : string) (default : value) : result value :=
  match d with
  | VDict pairs =>
      Ok (match dict_get k pairs with Some v => v | None => default end)
  | _ => Raise AttributeError
  end.

End Py.

(** ** The tree widget *)

Unset Elimination Schemes.

(** A [QTreeWidgetItem]: its text in column 0 and its children. *)
Inductive item : Type :=
| Item (text : string) (children : list item).

Set Elimination Schemes.

(** [item.text(0)] *)
Definition item_text (it : item) : string :=
  match it with Item text _ => text end.

Definition item_children (it : item) : list item :=
  match it with Item _ children => children end.

(** An item of the widget is named by the child indices on the way from it
    up to the top level: its own index first, the index of its top-level
    ancestor last.  The tail of a handle is the handle of the parent. *)
Definition handle : Type := list nat.

(** The list with [f] applied to its element [i]; the list itself when it
    has no such element. *)
Fixpoint update_nth {A : Type} (i : nat) (f : A -> A) (l : list A) : list A :=
  match l, i with
  | [], _ => []
  | a :: l', O => f a :: l'
  | a :: l', S i' => a :: update_nth i' f l'
  end.

(** The item reached from the top-level items [tops] by the indices
    [down], outermost first. *)
Fixpoint item_down (tops : list item) (down : list nat) : option item :=
  match down with
  | [] => None
  | i :: down' =>
      match nth_error tops i with
      | None => None
      | Some it =>
          match down' with
          | [] => Some it
          | _ => item_down (item_children it) down'
          end
      end
  end.

(** The item a handle names. *)
Definition item_at (tops : list item) (h : handle) : option item :=
  item_down tops (rev h).

(** The items after the text of the item reached by [down] has been set. *)
Fixpoint setText_down (tops : list item) (down : list nat) (text : string)
  : list item :=
  match down with
  | [] => tops
  | i :: down' =>
      update_nth i
        (fun it =>
           match down' with
           | [] => Item text (item_children it)
           | _ => Item (item_text it) (setText_down (item_children it) down' text)
           end)
        tops
  end.

(** [item.setText(0, text)] for the item [h] names. *)
Definition setText (tops : list item) (h : handle) (text : string) : list item :=
  setText_down tops (rev h) text.

(** ** The window *)

(** What [on_tree_item_click] stores for the commit. *)
Record selection : Type := {
  current_key : string;
  current_item : handle;
  current_path : list string
}.

(** The state of the main window the slots read and write. *)
Record window : Type := {
  bim_data : value;
  file_path : string;
  tree : list item;
  current : option selection;
  (** the row of the detail form: its label and the text of its line edit *)
  form_layout : option (string * string)
}.

(** How a slot ends: it returns, it returns after a [QMessageBox.critical],
    or an exception leaves it. *)
Inductive outcome : Type :=
| Returned (w : window)
| Reported (message : string) (w : window)
| Raised (e : exn).

(** *** load_tree and add_sublevel *)

(** [QTreeWidgetItem(parent, [f"{k}: {v}"])] *)
Definition leaf (k : string) (v : value) : item :=
  Item (k ++ ": " ++ Py.str v) [].

(** The body of the loop of [add_sublevel] for one [item]: the node of the
    item and one leaf for each of its pairs.  A label that is not a [str]
    is refused by Qt with a [TypeError]. *)
Definition item_node (it : value) : result item :=
  name <- Py.get_default it "name" (VStr "Unnamed") ;;
  match name, it with
  | VStr label, VDict pairs =>
      Ok (Item label (map (fun kv => leaf (fst kv) (snd kv)) pairs))
  | VStr _, _ => Raise AttributeError
  | _, _ => Raise TypeError
  end.

(** The node [add_sublevel] adds under the [Model] node. *)
Definition add_sublevel (key : string) (items : value) : result item :=
  elems <- Py.iter items ;;
  nodes <- mapM item_node elems ;;
  Ok (Item key nodes).

(** The collections [load_tree] shows, in its order. *)
Definition sublevels : list string :=
  ["dataSources"; "tables"; "relationships"; "perspectives"; "annotations";
   "translations"].

(** [self.add_sublevel(model_node, key, self.bim_data.get("model", {}).get(key, []))] *)
Definition sublevel_of (bim : value) (key : string) : result item :=
  model <- Py.get_default bim "model" (VDict []) ;;
  items <- Py.get_default model key (VList []) ;;
  add_sublevel key items.

(** The top-level items of the tree after [load_tree]. *)
Definition load_tree (bim : value) : result (list item) :=
  name <- Py.get_default bim "name" (VStr EmptyString) ;;
  level <- Py.get_default bim "compatibilityLevel" (VStr EmptyString) ;;
  subs <- mapM (sublevel_of bim) sublevels ;;
  Ok [Item "Model" (leaf "name" name :: leaf "compatibilityLevel" level :: subs)].

(** *** get_json_path *)

(** The loop of [get_json_path]: while the item has a parent, put the text
    before the first [": "] of its label in front of the path and go to
    the parent. *)
Fixpoint get_json_path_loop (tops : list item) (item : handle)
  (path : list string) : option (list string) :=
  match item with
  | _ :: ((_ :: _) as up) =>
      match item_at tops item with
      | Some it => get_json_path_loop tops up (Py.split_head ": " (item_text it) :: path)
      | None => None
      end
  | _ => Some path
  end.

(** [get_json_path(item)]; an item is truthy, so the loop runs while the
    item has a parent.  [None] when the handle names no item. *)
Definition get_json_path (tops : list item) (item : handle) : option (list string) :=
  get_json_path_loop tops item [].

(** *** on_tree_item_click *)

(** A click on an item that exists; [None] when the handle names no item
    of the tree.  A text with [": "] makes the item the current one, with
    its key and its path, and puts one row into the form; any other text
    only clears the form. *)
Definition on_tree_item_click (w : window) (item : handle) : option window :=
  match item_at (tree w) item with
  | None => None
  | Some it =>
      match Py.split_once ": " (item_text it), get_json_path (tree w) item with
      | Some (key, value), Some path =>
          Some {| bim_data := bim_data w;
                  file_path := file_path w;
                  tree := tree w;
                  current := Some {| current_key := Py.strip key;
                                     current_item := item;
                                     current_path := path |};
                  form_layout := Some (Py.strip key, Py.strip value) |}
      | Some _, None => None
      | None, _ =>
          Some {| bim_data := bim_data w;
                  file_path := file_path w;
                  tree := tree w;
                  current := current w;
                  form_layout := None |}
      end
  end.

(** *** update_model_value *)

(** One subscript taken by the loop of [update_model_value]. *)
Inductive step : Type :=
| SKey (key : string)
| SIdx (index : nat).

(** How the loop over [current_path[:-1]] ends: at a value [model], reached
    from the document by [steps]; in the [else] branch, which shows the
    message box and returns; or by an exception. *)
Inductive walk : Type :=
| Reached (model : value) (steps : list step)
| Unable
| Failed (e : exn).

(** The loop [for key in self.current_path[:-1]]: a digit string indexes
    [model] with [int(key)], a key that is [in model] subscripts it, any
    other key ends the commit with the message box. *)
Fixpoint traverse (model : value) (keys : list string) (steps : list step) : walk :=
  match keys with
  | [] => Reached model steps
  | key :: keys' =>
      if Py.isdigit key then
        match Py.int_of_str key with
        | None => Failed ValueError
        | Some n =>
            match Py.getindex model (Z.to_nat n) with
            | Ok model' => traverse model' keys' (steps ++ [SIdx (Z.to_nat n)])
            | Raise e => Failed e
            end
        end
      else
        match Py.contains key model with
        | None => Failed TypeError
        | Some false => Unable
        | Some true =>
            match Py.getitem model key with
            | Ok model' => traverse model' keys' (steps ++ [SKey key])
            | Raise e => Failed e
            end
        end
  end.

(** The document after the value reached by [steps] has been changed in
    place by [f]. *)
Fixpoint store (root : value) (steps : list step) (f : value -> value) : value :=
  match steps with
  | [] => f root
  | SKey k :: steps' =>
      match root with
      | VDict pairs =>
          match Py.dict_get k pairs with
          | Some v => VDict (Py.dict_set k (store v steps' f) pairs)
          | None => root
          end
      | _ => root
      end
  | SIdx i :: steps' =>
      match root with
      | VList items => VList (update_nth i (fun v => store v steps' f) items)
      | _ => root
      end
  end.

(** [model[last_key] = v] on a dict. *)
Definition setitem (last_key : string) (v : value) (model : value) : value :=
  match model with
  | VDict pairs => VDict (Py.dict_set last_key v pairs)
  | _ => model
  end.

(** The value stored for the text [text] over the old value [old]:
    [int(text)] when the old value is an [int] and the text parses, the
    text otherwise. *)
Definition coerce (old : value) (text : string) : value :=
  if Py.isinstance_int old then
    match Py.int_of_str text with
    | Some n => VInt n
    | None => VStr text
    end
  else VStr text.

(** [path[-1]] *)
Definition last_key_of (path : list string) : result string :=
  match path with
  | [] => Raise IndexError
  | k :: path' => Ok (last path' k)
  end.

(** The window with another document and with the text of the item [h]
    set. *)
Definition with_data_and_text (w : window) (bim : value) (h : handle)
  (text : string) : window :=
  {| bim_data := bim;
     file_path := file_path w;
     tree := setText (tree w) h text;
     current := current w;
     form_layout := form_layout w |}.

(** [update_model_value(value)], the slot of [editingFinished], with the
    text of the line edit. *)
Definition update_model_value (w : window) (text : string) : outcome :=
  match current w with
  | None => Raised AttributeError
  | Some sel =>
      match Py.getitem (bim_data w) "model" with
      | Raise e => Raised e
      | Ok model =>
          match traverse model (removelast (current_path sel)) [SKey "model"] with
          | Failed e => Raised e
          | Unable =>
              Reported ("Unable to update the path: "
                          ++ Py.str (VList (map VStr (current_path sel)))) w
          | Reached model steps =>
              match last_key_of (current_path sel) with
              | Raise e => Raised e
              | Ok last_key =>
                  let label := current_key sel ++ ": " ++ text in
                  match Py.contains last_key model with
                  | None => Raised TypeError
                  | Some false =>
                      Returned (with_data_and_text w (bim_data w) (current_item sel) label)
                  | Some true =>
                      match Py.getitem model last_key with
                      | Raise e => Raised e
                      | Ok old =>
                          Returned
                            (with_data_and_text w
                               (store (bim_data w) steps
                                  (setitem last_key (coerce old text)))
                               (current_item sel) label)
                      end
                  end
              end
          end
      end
  end.

(** ** Worked documents *)

(** A document with one table, named [Sales]. *)
Definition sales_doc : value :=
  VDict [("name", VStr "SemanticModel");
         ("compatibilityLevel", VInt 1200);
         ("model",
          VDict [("culture", VStr "en-US");
                 ("tables",
                  VList [VDict [("name", VStr "Sales"); ("rows", VInt 42)]])])].

(** The window after [self.file_path = path], [self.bim_data = bim] and
    [self.load_tree()]. *)
Definition window_of (bim : value) (path : string) : result window :=
  tops <- load_tree bim ;;
  Ok {| bim_data := bim; file_path := path; tree := tops;
        current := None; form_layout := None |}.

(** ** Locations of the document *)

(** The value of the document at a location: keys index mappings, integers
    index sequences, scalars have no parts. *)
Fixpoint value_at (root : value) (loc : list step) : option value :=
  match loc with
  | [] => Some root
  | SKey k :: loc' =>
      match root with
      | VDict pairs =>
          match Py.dict_get k pairs with
          | Some v => value_at v loc'
          | None => None
          end
      | _ => None
      end
  | SIdx i :: loc' =>
      match root with
      | VList items =>
          match nth_error items i with
          | Some v => value_at v loc'
          | None => None
          end
      | _ => None
      end
  end.

(** The lookup [update_model_value] performs for a path: from
    [bim_data["model"]] through [path[:-1]] as the loop does, then
    [model[last_key]] behind the test [last_key in model].  It gives the
    value read and the location it was read from; [None] when the lookup
    does not get to a value. *)
Definition get (bim : value) (path : list string) : option (value * list step) :=
  match Py.getitem bim "model" with
  | Raise _ => None
  | Ok model =>
      match traverse model (removelast path) [SKey "model"], last_key_of path with
      | Reached model steps, Ok last_key =>
          match Py.contains last_key model, Py.getitem model last_key with
          | Some true, Ok v => Some (v, (steps ++ [SKey last_key])%list)
          | _, _ => None
          end
      | _, _ => None
      end
  end.

(** [l1] is on the way to [l2]. *)
Definition prefix_of (l1 l2 : list step) : Prop := exists r, l2 = (l1 ++ r)%list.

(** The keys of a mapping, in their order. *)
Definition keys_of (v : value) : list string :=
  match v with
  | VDict pairs => map fst pairs
  | _ => []
  end.

(** Is the value neither a sequence nor a mapping? *)
Definition is_scalar (v : value) : bool :=
  match v with
  | VList _ | VDict _ => false
  | _ => true
  end.

(** ** The loop of update_model_value *)

(** The value is not a string. *)
Definition not_str (v : value) : Prop :=
  match v with
  | VStr _ => False
  | _ => True
  end.

(** The container the loop of [update_model_value] ends at for a path. *)
Definition container_of (bim : value) (path : list string) : walk :=
  match Py.getitem bim "model" with
  | Raise e => Failed e
  | Ok model => traverse model (removelast path) [SKey "model"]
  end.

(** ** Sessions on worked documents *)

(** Load the document, then click the item [h]. *)
Definition select (bim : value) (h : handle) : option window :=
  match window_of bim "model.bim" with
  | Ok w => on_tree_item_click w h
  | Raise _ => None
  end.

(** A document whose only table is named by a digit string that is its
    index in [tables]. *)
Definition indexed_doc : value :=
  VDict [("name", VStr "SemanticModel");
         ("compatibilityLevel", VInt 1200);
         ("model",
          VDict [("tables",
                  VList [VDict [("name", VStr "0"); ("rows", VInt 42);
                                ("isHidden", VBool true)]])])].

(** A document whose only table is named by a year. *)
Definition year_doc : value :=
  VDict [("name", VStr "SemanticModel");
         ("compatibilityLevel", VInt 1200);
         ("model",
          VDict [("tables",
                  VList [VDict [("name", VStr "2024"); ("rows", VInt 42)]])])].

(** A document whose only data source is named ["1"]. *)
Definition source_doc : value :=
  VDict [("name", VStr "SemanticModel");
         ("compatibilityLevel", VInt 1200);
         ("model",
          VDict [("dataSources",
                  VList [VDict [("name", VStr "1"); ("type", VStr "structured")]])])].

(** The window of a session that got to one, and its selection. *)
Definition the_window (o : option window) : window :=
  match o with
  | Some w => w
  | None =>
      {| bim_data := VNone; file_path := EmptyString; tree := [];
         current := None; form_layout := None |}
  end.

Definition the_selection (w : window) : selection :=
  match current w with
  | Some sel => sel
  | None => {| current_key := EmptyString; current_item := []; current_path := [] |}
  end.

(** The windows after a click on the leaves [rows: 42] and
    [isHidden: True] of [indexed_doc], and on the leaf
    [name: SemanticModel] of [sales_doc]. *)
Definition rows_window : window :=
  Eval vm_compute in the_window (select indexed_doc [1; 0; 3; 0]).

Definition hidden_window : window :=
  Eval vm_compute in the_window (select indexed_doc [2; 0; 3; 0]).

Definition root_name_window : window :=
  Eval vm_compute in the_window (select sales_doc [0; 0]).

(** ** json.dump(..., indent=4) and json.load *)

Module Json.

Definition newline : ascii := ascii_of_nat 10.

Fixpoint spaces (n : nat) : string :=
  match n with
  | O => EmptyString
  | S n' => String " " (spaces n')
  end.

(** ['\n' + _indent * _current_indent_level], with an indent of four
    spaces. *)
Definition newline_indent (level : nat) : string :=
  String newline (spaces (4 * level)).

(** ['\\u{0:04x}'.format(n)] without the backslash and the [u]. *)
Definition hex4 (n : nat) : string :=
  String (Py.hex_digit (n / 4096))
    (String (Py.hex_digit ((n / 256) mod 16))
       (String (Py.hex_digit ((n / 16) mod 16))
          (String (Py.hex_digit (n mod 16)) EmptyString))).

(** The replacement of one character by [encode_basestring_ascii]: the
    backslash, the double quote and every character outside [' '..'~'] are
    escaped. *)
Definition escape_char (c : ascii) : string :=
  let n := Py.code c in
  if (c =? "\")%char then "\\"
  else if (c =? Py.dquote)%char then String "\" (String Py.dquote EmptyString)
  else if n =? 8 then "\b"
  else if n =? 12 then "\f"
  else if n =? 10 then "\n"
  else if n =? 13 then "\r"
  else if n =? 9 then "\t"
  else if (32 <=? n) && (n <=? 126) then String c EmptyString
  else "\u" ++ hex4 n.

Fixpoint escape (s : string) : string :=
  match s with
  | EmptyString => EmptyString
  | String c s' => escape_char c ++ escape s'
  end.

Definition encode_basestring_ascii (s : string) : string :=
  String Py.dquote (escape s ++ String Py.dquote EmptyString).

(** The text [json.dump(v, file, indent=4)] writes for [v] at nesting
    depth [level]: the item separator is [","] followed by the newline and
    the indent, the key separator is [": "], empty containers are written
    without a newline. *)
Fixpoint iterencode (v : value) (level : nat) : string :=
  match v with
  | VNone => "null"
  | VBool true => "true"
  | VBool false => "false"
  | VInt n => Py.str_of_int n
  | VStr s => encode_basestring_ascii s
  | VList [] => "[]"
  | VList items =>
      "[" ++ newline_indent (S level)
          ++ Py.join ("," ++ newline_indent (S level))
               (map (fun x => iterencode x (S level)) items)
          ++ newline_indent level ++ "]"
  | VDict [] => "{}"
  | VDict pairs =>
      "{" ++ newline_indent (S level)
          ++ Py.join ("," ++ newline_indent (S level))
               (map (fun kv => encode_basestring_ascii (fst kv) ++ ": "
                                 ++ iterencode (snd kv) (S level)) pairs)
          ++ newline_indent level ++ "}"
  end.

(** [json.dumps(v, indent=4)] *)
Definition dumps (v : value) : string := iterencode v 0.

(** JSON whitespace: space, tab, line feed, carriage return. *)
Definition is_ws (c : ascii) : bool :=
  let n := Py.code c in (n =? 32) || (n =? 9) || (n =? 10) || (n =? 13).

Fixpoint skip_ws (s : string) : string :=
  match s with
  | String c s' => if is_ws c then skip_ws s' else s
  | EmptyString => EmptyString
  end.

Definition hex_val (c : ascii) : option nat :=
  let n := Py.code c in
  if (48 <=? n) && (n <=? 57) then Some (n - 48)
  else if (97 <=? n) && (n <=? 102) then Some (n - 87)
  else if (65 <=? n) && (n <=? 70) then Some (n - 55)
  else None.

(** The characters a backslash may be followed by, other than [u]. *)
Definition unescape (e : ascii) : option ascii :=
  if (e =? Py.dquote)%char then Some Py.dquote
  else if (e =? "\")%char then Some "\"%char
  else if (e =? "/")%char then Some "/"%char
  else if (e =? "b")%char then Some (ascii_of_nat 8)
  else if (e =? "f")%char then Some (ascii_of_nat 12)
  else if (e =? "n")%char then Some (ascii_of_nat 10)
  else if (e =? "r")%char then Some (ascii_of_nat 13)
  else if (e =? "t")%char then Some (ascii_of_nat 9)
  else None.

Definition cons_char (c : ascii) (r : option (string * string))
  : option (string * string) :=
  match r with
  | Some (str, rest) => Some (String c str, rest)
  | None => None
  end.

(** [scanstring] in strict mode, from the character after the opening
    quote: the text of the string and what follows its closing quote.
    [None] is a [JSONDecodeError], or a [\u] escape above 255, which is
    outside the embedding. *)
Fixpoint scanstring (s : string) : option (string * string) :=
  match s with
  | EmptyString => None
  | String c s' =>
      if (c =? Py.dquote)%char then Some (EmptyString, s')
      else if (c =? "\")%char then
        match s' with
        | EmptyString => None
        | String e s'' =>
            if (e =? "u")%char then
              match s'' with
              | String h1 (String h2 (String h3 (String h4 t))) =>
                  match hex_val h1, hex_val h2, hex_val h3, hex_val h4 with
                  | Some a, Some b, Some c, Some d =>
                      let uni := ((a * 16 + b) * 16 + c) * 16 + d in
                      if uni <? 256 then cons_char (ascii_of_nat uni) (scanstring t)
                      else None
                  | _, _, _, _ => None
                  end
              | _ => None
              end
            else
              match unescape e with
              | Some ch => cons_char ch (scanstring s'')
              | None => None
              end
        end
      else if Py.code c <? 32 then None
      else cons_char c (scanstring s')
  end.

Fixpoint span_digits (s : string) : string * string :=
  match s with
  | String c s' =>
      if Py.is_ascii_digit c then
        let (ds, rest) := span_digits s' in (String c ds, rest)
      else (EmptyString, s)
  | EmptyString => (EmptyString, EmptyString)
  end.

Fixpoint digits_value (ds : string) (acc : Z) : Z :=
  match ds with
  | EmptyString => acc
  | String c ds' => digits_value ds' (10 * acc + Py.digit_val c)%Z
  end.

Definition is_sign (c : ascii) : bool := (c =? "+")%char || (c =? "-")%char.

Definition is_exp (c : ascii) : bool := (c =? "e")%char || (c =? "E")%char.

(** Does a fraction [\.[0-9]+] or an exponent [[eE][-+]?[0-9]+] follow?
    Then the number is a [float]. *)
Definition float_follows (s : string) : bool :=
  match s with
  | String c (String d s') =>
      if (c =? ".")%char then Py.is_ascii_digit d
      else if is_exp c then
        Py.is_ascii_digit d
        || (is_sign d && match s' with
                         | String d' _ => Py.is_ascii_digit d'
                         | EmptyString => false
                         end)
      else false
  | _ => false
  end.

(** The integer part [0|[1-9][0-9]*] at the head of [s]. *)
Definition match_natural (s : string) : option (Z * string) :=
  match s with
  | String c s' =>
      if (c =? "0")%char then Some (0%Z, s')
      else if Py.is_ascii_digit c then
        let (ds, rest) := span_digits s' in
        Some (digits_value (String c ds) 0%Z, rest)
      else None
  | EmptyString => None
  end.

(** [NUMBER_RE] at the head of [s], for an [int]; [None] when no number
    starts here, or when the number is a [float]. *)
Definition match_number (s : string) : option (Z * string) :=
  let signed :=
    match s with
    | String "-" s' => option_map (fun nr => (Z.opp (fst nr), snd nr)) (match_natural s')
    | _ => match_natural s
    end in
  match signed with
  | Some (n, rest) => if float_follows rest then None else Some (n, rest)
  | None => None
  end.

(** [scan_once], with the loops of [JSONArray] and [JSONObject].  The
    array loop starts at the first value; the object loop starts after the
    opening quote of a key.  [fuel] bounds the depth of the calls. *)
Fixpoint scan_once (fuel : nat) (s : string) : option (value * string) :=
  match fuel with
  | O => None
  | S fuel' =>
      match s with
      | EmptyString => None
      | String c s' =>
          if (c =? Py.dquote)%char then
            match scanstring s' with
            | Some (str, rest) => Some (VStr str, rest)
            | None => None
            end
          else if (c =? "{")%char then
            match skip_ws s' with
            | String d r =>
                if (d =? "}")%char then Some (VDict [], r)
                else if (d =? Py.dquote)%char then
                  match object_loop fuel' r with
                  | Some (pairs, rest) =>
                      Some (VDict (fold_left
                                     (fun dict kv => Py.dict_set (fst kv) (snd kv) dict)
                                     pairs []), rest)
                  | None => None
                  end
                else None
            | EmptyString => None
            end
          else if (c =? "[")%char then
            match skip_ws s' with
            | String d r =>
                if (d =? "]")%char then Some (VList [], r)
                else
                  match array_loop fuel' (String d r) with
                  | Some (values, rest) => Some (VList values, rest)
                  | None => None
                  end
            | EmptyString => None
            end
          else if prefix "null" s then Some (VNone, Py.drop 4 s)
          else if prefix "true" s then Some (VBool true, Py.drop 4 s)
          else if prefix "false" s then Some (VBool false, Py.drop 5 s)
          else
            match match_number s with
            | Some (n, rest) => Some (VInt n, rest)
            | None => None
            end
      end
  end

with array_loop (fuel : nat) (s : string) : option (list value * string) :=
  match fuel with
  | O => None
  | S fuel' =>
      match scan_once fuel' s with
      | None => None
      | Some (v, r) =>
          match skip_ws r with
          | String d r' =>
              if (d =? "]")%char then Some ([v], r')
              else if (d =? ",")%char then
                match array_loop fuel' (skip_ws r') with
                | Some (values, rest) => Some (v :: values, rest)
                | None => None
                end
              else None
          | EmptyString => None
          end
      end
  end

with object_loop (fuel : nat) (s : string)
  : option (list (string * value) * string) :=
  match fuel with
  | O => None
  | S fuel' =>
      match scanstring s with
      | None => None
      | Some (key, r) =>
          match skip_ws r with
          | String ":" r1 =>
              match scan_once fuel' (skip_ws r1) with
              | None => None
              | Some (v, r2) =>
                  match skip_ws r2 with
                  | String d r3 =>
                      if (d =? "}")%char then Some ([(key, v)], r3)
                      else if (d =? ",")%char then
                        match skip_ws r3 with
                        | String q r4 =>
                            if (q =? Py.dquote)%char then
                              match object_loop fuel' r4 with
                              | Some (pairs, rest) => Some ((key, v) :: pairs, rest)
                              | None => None
                              end
                            else None
                        | EmptyString => None
                        end
                      else None
                  | EmptyString => None
                  end
              end
          | _ => None
          end
      end
  end.

(** [json.loads(s)]: one value, with whitespace around it and nothing
    else. *)
Definition loads (s : string) : option value :=
  match scan_once (S (String.length s)) (skip_ws s) with
  | Some (v, rest) =>
      match skip_ws rest with
      | EmptyString => Some v
      | _ => None
      end
  | None => None
  end.

End Json.

(** ** Files *)

(** The files of the machine: the bytes stored under each path. *)
Definition disk : Type := list (string * string).

(** The bytes under a path, and the disk after a file has been written in
    full. *)
Fixpoint read_file (d : disk) (path : string) : option string :=
  match d with
  | [] => None
  | (p, bytes) :: d' => if String.eqb path p then Some bytes else read_file d' path
  end.

Fixpoint write_file (d : disk) (path bytes : string) : disk :=
  match d with
  | [] => [(path, bytes)]
  | (p, old) :: d' =>
      if String.eqb path p then (p, bytes) :: d' else (p, old) :: write_file d' path bytes
  end.

(** What the operating system answers to [open(path, 'w')] and the writes
    that follow: everything is written; [open] raises; or a write raises
    after [n] characters have gone to the file. *)
Inductive io : Type :=
| Written
| Refused (message : string)
| Interrupted (message : string) (n : nat).

(** The [utf-8] codec on text below 256: one byte for a character below
    128, two bytes otherwise. *)
Fixpoint utf8_encode (s : string) : string :=
  match s with
  | EmptyString => EmptyString
  | String c s' =>
      let n := Py.code c in
      if n <? 128 then String c (utf8_encode s')
      else String (ascii_of_nat (192 + n / 64))
             (String (ascii_of_nat (128 + n mod 64)) (utf8_encode s'))
  end.

(** [None] is a [UnicodeDecodeError], or a character above 255, which is
    outside the embedding. *)
Fixpoint utf8_decode (bytes : string) : option string :=
  match bytes with
  | EmptyString => Some EmptyString
  | String b rest =>
      let n := Py.code b in
      if n <? 128 then option_map (String b) (utf8_decode rest)
      else if (n =? 194) || (n =? 195) then
        match rest with
        | String b' rest' =>
            let m := Py.code b' in
            if (128 <=? m) && (m <? 192) then
              option_map (String (ascii_of_nat ((n - 192) * 64 + (m - 128))))
                (utf8_decode rest')
            else None
        | EmptyString => None
        end
      else None
  end.

Definition bom : string :=
  String (ascii_of_nat 239) (String (ascii_of_nat 187) (String (ascii_of_nat 191) EmptyString)).

(** The [utf-8-sig] codec on reading: a leading byte-order mark is
    dropped. *)
Definition utf8_sig_decode (bytes : string) : option string :=
  utf8_decode (if prefix bom bytes then Py.drop 3 bytes else bytes).

(** Text mode on reading: [\r\n] and [\r] become [\n]. *)
Fixpoint universal_newlines (s : string) : string :=
  match s with
  | EmptyString => EmptyString
  | String c s' =>
      if Py.code c =? 13 then
        match s' with
        | String c' s'' =>
            if Py.code c' =? 10 then String Json.newline (universal_newlines s'')
            else String Json.newline (universal_newlines s')
        | EmptyString => String Json.newline EmptyString
        end
      else String c (universal_newlines s')
  end.

(** What [file.read()] gives for a file opened with ['r'] and
    [encoding='utf-8-sig']. *)
Definition read_text (bytes : string) : option string :=
  option_map universal_newlines (utf8_sig_decode bytes).

(** The bytes [json.dump(v, file, indent=4)] leaves in a file opened with
    ['w'] and [encoding='utf-8'], where the line separator is [\n]. *)
Definition json_dump (v : value) : string := utf8_encode (Json.dumps v).

(** [json.load(file)], which is [json.loads(file.read())]. *)
Definition json_load (bytes : string) : option value :=
  match read_text bytes with
  | Some text => Json.loads text
  | None => None
  end.

(** [os.path.basename] with [/] as the separator. *)
Fixpoint basename (path : string) : string :=
  match path with
  | EmptyString => EmptyString
  | String _ path' => if Py.has_char "/" path then basename path' else path
  end.

(** *** save_bim_file *)

(** How [save_bim_file] ends: with the information box or with the error
    box.  The window is the one it started with. *)
Inductive saved : Type :=
| Saved (message : string) (w : window)
| NotSaved (message : string) (w : window).

(** The bytes [json.dump(self.bim_data, file, indent=4)] sends to the
    file. *)
Definition dumped (w : window) : string := json_dump (bim_data w).

(** [save_bim_file()], the slot of the save action, with the answer of the
    operating system; the lines it prints are left out. *)
Definition save_bim_file (w : window) (answer : io) (d : disk) : saved * disk :=
  match file_path w with
  | EmptyString => (NotSaved "No file path specified for saving." w, d)
  | _ =>
      match answer with
      | Written =>
          (Saved (basename (file_path w) ++ " saved successfully.") w,
           write_file d (file_path w) (dumped w))
      | Refused message => (NotSaved ("Failed to save file: " ++ message) w, d)
      | Interrupted message n =>
          (NotSaved ("Failed to save file: " ++ message) w,
           write_file d (file_path w) (substring 0 n (dumped w)))
      end
  end.

Definition window_after (r : saved) : window :=
  match r with
  | Saved _ w => w
  | NotSaved _ w => w
  end.

(** *** load_bim_file *)

(** Why [load_bim_file] closes the window: no file was chosen, the text is
    not JSON, or another exception was raised. *)
Inductive closing : Type :=
| NoFileSelected
| ParseFailed
| Unexpected.

(** How [load_bim_file] ends: with the document and its tree, or with a
    message box and [self.close()]. *)
Inductive loaded : Type :=
| Opened (message : string) (w : window)
| Closed (why : closing).

(** [load_bim_file()] with the file the dialog gives and the files of the
    machine. *)
Definition load_bim_file (selected_file : string) (d : disk) : loaded :=
  match selected_file with
  | EmptyString => Closed NoFileSelected
  | _ =>
      match read_file d selected_file with
      | None => Closed Unexpected
      | Some bytes =>
          match read_text bytes with
          | None => Closed Unexpected
          | Some text =>
              match Json.loads text with
              | None => Closed ParseFailed
              | Some bim =>
                  match window_of bim selected_file with
                  | Ok w => Opened (basename selected_file ++ " loaded successfully.") w
                  | Raise _ => Closed Unexpected
                  end
              end
          end
      end
  end.

(** ** Sessions *)

(** What the user does after the load. *)
Inductive event : Type :=
| Click (item : handle)
| Commit (text : string)
| Save (answer : io).

(** One event; [None] when an exception leaves the slot, or when the
    clicked item does not exist. *)
Definition handle_event (st : window * disk) (e : event) : option (window * disk) :=
  let (w, d) := st in
  match e with
  | Click item => option_map (fun w' => (w', d)) (on_tree_item_click w item)
  | Commit text =>
      match update_model_value w text with
      | Returned w' => Some (w', d)
      | Reported _ w' => Some (w', d)
      | Raised _ => None
      end
  | Save answer =>
      let (r, d') := save_bim_file w answer d in Some (window_after r, d')
  end.

(** The events of a session, one after the other. *)
Fixpoint run (st : window * disk) (events : list event) : option (window * disk) :=
  match events with
  | [] => Some st
  | e :: events' =>
      match handle_event st e with
      | Some st' => run st' events'
      | None => None
      end
  end.

(** Keys are unique in every mapping of the document, as they are in a
    Python [dict]. *)
Fixpoint distinct (keys : list string) : bool :=
  match keys with
  | [] => true
  | k :: keys' => negb (existsb (String.eqb k) keys') && distinct keys'
  end.

Fixpoint unique_keys (v : value) : bool :=
  match v with
  | VList items => forallb unique_keys items
  | VDict pairs =>
      distinct (map fst pairs) && forallb (fun kv => unique_keys (snd kv)) pairs
  | _ => true
  end.

(** The window after the commit of ["7"] on the leaf [rows: 42] of
    [indexed_doc]. *)
Definition rows7_window : window :=
  Eval vm_compute in
    match update_model_value rows_window "7" with
    | Returned w => w
    | _ => rows_window
    end.

(** The depth of calls [scan_once] needs for the text of a value: one call
    for the value, and for a container one turn of the loop for each
    element, with the calls the element needs. *)
Fixpoint need (v : value) : nat :=
  match v with
  | VList items => S (fold_right (fun x n => S (need x + n)) 0 items)
  | VDict pairs => S (fold_right (fun kv n => S (need (snd kv) + n)) 0 pairs)
  | _ => 1
  end.

(** What follows a value in the text of a dump: nothing, the comma of the
    item separator, or the newline before a closing bracket. *)
Definition delimited (rest : string) : bool :=
  match rest with
  | EmptyString => true
  | String c _ => (c =? ",")%char || (c =? Json.newline)%char
  end.

(** ** The text of a dump, for the round trip *)

(** Does the text start with a decimal digit? *)
Definition digit_head (s : string) : bool :=
  match s with
  | String c _ => Py.is_ascii_digit c
  | EmptyString => false
  end.

(** The text of an integer starts with a digit or with the minus sign. *)
Definition number_head (s : string) : bool :=
  match s with
  | String c _ => Py.is_ascii_digit c || (c =? "-")%char
  | EmptyString => false
  end.

(** A character a value can start with: not whitespace and not a closing
    bracket. *)
Definition opens_value (s : string) : bool :=
  match s with
  | String c _ => negb (Json.is_ws c) && negb (c =? "]")%char && negb (c =? "}")%char
  | EmptyString => false
  end.

(** The text of [v] at any depth, followed by a delimiter, is read back as
    [v] with the rest left over, given the calls [v] needs. *)
Definition reads_back (v : value) : Prop :=
  forall level fuel rest,
    need v <= fuel ->
    delimited rest = true ->
    Json.scan_once fuel (Json.iterencode v level ++ rest) = Some (v, rest).

(** The turns of the array loop and of the object loop, with the calls of
    the elements. *)
Definition need_items (items : list value) : nat :=
  fold_right (fun x n => S (need x + n)) 0 items.

Definition need_pairs (pairs : list (string * value)) : nat :=
  fold_right (fun kv n => S (need (snd kv) + n)) 0 pairs.

(** The item separator at a depth, and the text of one pair of a dict. *)
Definition item_sep (level : nat) : string := "," ++ Json.newline_indent level.

Definition encode_pair (level : nat) (kv : string * value) : string :=
  Json.encode_basestring_ascii (fst kv) ++ ": " ++ Json.iterencode (snd kv) level.

(** What follows the text of a pair in the text of a dict: the closing
    brace on its own line, or the separator and the pairs left. *)
Definition after_pair (level outer : nat) (rest : string)
  (pairs : list (string * value)) : string :=
  match pairs with
  | [] => Json.newline_indent outer ++ String "}" rest
  | _ =>
      item_sep level ++ Py.join (item_sep level) (map (encode_pair level) pairs)
        ++ Json.newline_indent outer ++ String "}" rest
  end.

(** The text of a pair after the opening quote of its key. *)
Definition pair_after_quote (level : nat) (kv : string * value) (tail : string)
  : string :=
  Json.escape (fst kv)
    ++ String Py.dquote (": " ++ Json.iterencode (snd kv) level ++ tail).

(** [k] is not a key of [pairs]. *)
Definition fresh (k : string) (pairs : list (string * value)) : bool :=
  negb (existsb (String.eqb k) (map fst pairs)).

(** A character of a dump: the newline or a printable ASCII character. *)
Definition plain (c : ascii) : bool :=
  let n := Py.code c in (n =? 10) || ((32 <=? n) && (n <=? 126)).

(** Is the value a mapping? *)
Definition is_dict (v : value) : bool :=
  match v with
  | VDict _ => true
  | _ => false
  end.

(** A document whose only table is named ["0"] and holds a list, a null
    and a string beside its name. *)
Definition columns_doc : value :=
  VDict [("name", VStr "SemanticModel");
         ("compatibilityLevel", VInt 1200);
         ("model",
          VDict [("tables",
                  VList [VDict [("name", VStr "0");
                                ("columns", VList [VStr "Id"; VStr "Amount"]);
                                ("description", VNone);
                                ("note", VStr "net")]])])].

(** The windows after a click on the leaves [columns: ['Id', 'Amount']],
    [description: None] and [note: net] of [columns_doc]. *)
Definition columns_window : window :=
  Eval vm_compute in the_window (select columns_doc [1; 0; 3; 0]).

Definition description_window : window :=
  Eval vm_compute in the_window (select columns_doc [2; 0; 3; 0]).

Definition note_window : window :=
  Eval vm_compute in the_window (select columns_doc [3; 0; 3; 0]).

(** Is the value an [int] that is not a [bool], or a [str]? *)
Definition int_or_str (v : value) : bool :=
  match v with
  | VInt _ | VStr _ => true
  | _ => false
  end.

(** The value under a key, or a default: what [d.get(k, default)] gives on
    the pairs of a dict. *)
Definition or_default (o : option value) (default : value) : value :=
  match o with
  | Some v => v
  | None => default
  end.

(** A mapping whose [name], when it has one, is a string. *)
Definition named_dict (v : value) : bool :=
  match v with
  | VDict pairs =>
      match Py.dict_get "name" pairs with
      | Some (VStr _) | None => true
      | Some _ => false
      end
  | _ => false
  end.

(** A collection [add_sublevel] can show: a loop over it visits mappings
    with string names only. *)
Definition shown_ok (items : value) : bool :=
  match Py.iter items with
  | Ok elems => forallb named_dict elems
  | Raise _ => false
  end.

(** The documents [load_tree] builds a tree for: a mapping whose [model],
    when it has one, is a mapping whose six collections, when it has them,
    can be shown. *)
Definition loadable (bim : value) : bool :=
  match bim with
  | VDict pairs =>
      match or_default (Py.dict_get "model" pairs) (VDict []) with
      | VDict mpairs =>
          forallb
            (fun coll => shown_ok (or_default (Py.dict_get coll mpairs) (VList [])))
            sublevels
      | _ => false
      end
  | _ => false
  end.

(** The label [add_sublevel] gives the node of an item. *)
Definition label_of (pairs : list (string * value)) : value :=
  or_default (Py.dict_get "name" pairs) (VStr "Unnamed").

(** Is the path one segment that is the key of a collection [load_tree]
    shows? *)
Definition single_collection (path : list string) : bool :=
  match path with
  | [k] => existsb (String.eqb k) sublevels
  | _ => false
  end.

(** The shape [load_tree] gives the tree, and every commit keeps: one
    top-level item; its first two children are the leaves of [name] and of
    [compatibilityLevel]; its other children are the nodes of the six
    collections. *)
Definition tree_ok (tops : list item) : Prop :=
  exists m v1 c1 v2 c2 groups,
    tops = [Item m (Item ("name: " ++ v1) c1
                      :: Item ("compatibilityLevel: " ++ v2) c2
                      :: groups)]
    /\ map item_text groups = sublevels.

(** The key a commit writes into the label of a child of the top-level
    item: the two leaves are the only children a click selects. *)
Definition top_key (h : handle) (key : string) : Prop :=
  forall i t,
    h = [i; t] ->
    (i = 0 /\ key = "name") \/ (i = 1 /\ key = "compatibilityLevel").

(** The selections a click makes in such a tree. *)
Definition sel_ok (sel : selection) : Prop :=
  single_collection (current_path sel) = false
  /\ top_key (current_item sel) (current_key sel).

(** What holds of the window from the load on, whatever the user does. *)
Definition window_ok (w : window) : Prop :=
  loadable (bim_data w) = true
  /\ unique_keys (bim_data w) = true
  /\ tree_ok (tree w)
  /\ match current w with
     | Some sel => sel_ok sel
     | None => True
     end.

(** A machine whose only file holds the dump of [indexed_doc]. *)
Definition indexed_disk : disk := [("model.bim", json_dump indexed_doc)].

(** The window [load_bim_file] opens on that machine. *)
Definition opened_window : window :=
  Eval vm_compute in
    match load_bim_file "model.bim" indexed_disk with
    | Opened _ w => w
    | Closed _ => the_window None
    end.

(** A document with two tables: the first is named by the index of the
    second. *)
Definition swapped_doc : value :=
  VDict [("name", VStr "SemanticModel");
         ("compatibilityLevel", VInt 1200);
         ("model",
          VDict [("tables",
                  VList [VDict [("name", VStr "1"); ("rows", VInt 42)];
                         VDict [("name", VStr "Sales"); ("rows", VInt 7)]])])].

(** A document whose only table is named by a superscript digit. *)
Definition squared_doc : value :=
  VDict [("name", VStr "SemanticModel");
         ("compatibilityLevel", VInt 1200);
         ("model",
          VDict [("tables",
                  VList [VDict [("name", VStr (String (ascii_of_nat 178) EmptyString));
                                ("rows", VInt 42)]])])].

(** The window after the load of a document, and the windows after the
    load of [sales_doc], [source_doc], [swapped_doc] and [squared_doc]. *)
Definition fresh_window (bim : value) : window :=
  match window_of bim "model.bim" with
  | Ok w => w
  | Raise _ => the_window None
  end.

Definition sales_window : window := Eval vm_compute in fresh_window sales_doc.

Definition source_window : window := Eval vm_compute in fresh_window source_doc.

Definition swapped_window : window := Eval vm_compute in fresh_window swapped_doc.

Definition squared_window : window := Eval vm_compute in fresh_window squared_doc.

(** A machine whose only file holds a JSON array. *)
Definition array_disk : disk := [("model.bim", "[1, 2]")].

Example strip_ex : Py.strip "  a b  " = "a b".
Proof. reflexivity. Qed.

Example split_ex : Py.split_once ": " "name: Sales: x" = Some ("name", "Sales: x").
Proof. reflexivity. Qed.

Example int_ex :
  (Py.int_of_str " -1_000 ", Py.int_of_str "7", Py.int_of_str "abc",
   Py.int_of_str "1__0", Py.int_of_str "+", Py.int_of_str "007")
  = (Some (-1000)%Z, Some 7%Z, None, None, None, Some 7%Z).
Proof. reflexivity. Qed.

Example repr_ex :
  Py.str (VList [VStr "a b"; VInt (-3); VDict [("k", VBool true); ("n", VNone)]])
  = "['a b', -3, {'k': True, 'n': None}]".
Proof. reflexivity. Qed.

(** ** Dicts and lists *)

Lemma dict_get_set_same (k : string) (v : value) (pairs : list (string * value)) :
  Py.dict_get k (Py.dict_set k v pairs) = Some v.
Proof.
  induction pairs as [| [k' v'] rest IH]; simpl.
  - now rewrite String.eqb_refl.
  - destruct (String.eqb k k') eqn:E; simpl; rewrite ?String.eqb_refl, ?E; auto.
Qed.

Lemma dict_get_set_other (k k' : string) (v : value) (pairs : list (string * value)) :
  k <> k' -> Py.dict_get k' (Py.dict_set k v pairs) = Py.dict_get k' pairs.
Proof.
  intros Hne.
  assert (Hkk : String.eqb k' k = false) by (apply String.eqb_neq; congruence).
  induction pairs as [| [k0 v0] rest IH]; simpl.
  - now rewrite Hkk.
  - destruct (String.eqb k k0) eqn:E; simpl.
    + apply String.eqb_eq in E; subst k0. now rewrite Hkk.
    + now rewrite IH.
Qed.

Lemma nth_error_update_nth_same {A : Type} (f : A -> A) (l : list A) (i : nat) :
  nth_error (update_nth i f l) i = option_map f (nth_error l i).
Proof.
  revert i; induction l as [| a l IH]; intros [| i]; simpl; auto.
Qed.

Lemma nth_error_update_nth_other {A : Type} (f : A -> A) (l : list A) (i j : nat) :
  i <> j -> nth_error (update_nth i f l) j = nth_error l j.
Proof.
  revert i j; induction l as [| a l IH]; intros [| i] [| j] Hne; simpl;
    try reflexivity; try congruence.
  apply IH; congruence.
Qed.

(** ** Reading and storing at a location *)

Lemma value_at_app (root : value) (l1 l2 : list step) :
  value_at root (l1 ++ l2)%list =
  match value_at root l1 with
  | Some v => value_at v l2
  | None => None
  end.
Proof.
  revert root; induction l1 as [| [k | i] l1 IH]; intros root; simpl; auto.
  - destruct root; auto. destruct (Py.dict_get k pairs); auto.
  - destruct root; auto. destruct (nth_error items i); auto.
Qed.

Lemma value_at_store_same (loc : list step) (f : value -> value) :
  forall root v,
    value_at root loc = Some v ->
    value_at (store root loc f) loc = Some (f v).
Proof.
  induction loc as [| [k | i] loc IH]; intros root v H; simpl in *.
  - congruence.
  - destruct root; try discriminate.
    destruct (Py.dict_get k pairs) as [v0 |] eqn:E; try discriminate.
    rewrite dict_get_set_same. eauto.
  - destruct root; try discriminate.
    destruct (nth_error items i) as [v0 |] eqn:E; try discriminate.
    rewrite nth_error_update_nth_same, E. simpl. eauto.
Qed.

(** A store that puts a scalar in the place of a scalar is not seen from
    any location that is not on the way to the place. *)
Lemma value_at_store_frame (loc : list step) (f : value -> value) :
  forall root old loc',
    value_at root loc = Some old ->
    is_scalar old = true ->
    is_scalar (f old) = true ->
    ~ prefix_of loc' loc ->
    value_at (store root loc f) loc' = value_at root loc'.
Proof.
  induction loc as [| [k | i] loc IH]; intros root old loc' Hat Hold Hnew Hpre;
    simpl in *.
  - assert (root = old) by congruence. subst root.
    destruct loc' as [| s loc'].
    + exfalso. apply Hpre. now exists [].
    + revert Hold Hnew.
      destruct s; simpl; destruct (f old); destruct old; simpl; congruence.
  - destruct root; try discriminate.
    destruct (Py.dict_get k pairs) as [v0 |] eqn:E; try discriminate.
    destruct loc' as [| [k' | i'] loc']; simpl; auto.
    + exfalso. apply Hpre. now eexists.
    + destruct (string_dec k k') as [<- | Hne].
      * rewrite dict_get_set_same, E.
        apply IH with (old := old); auto.
        intros [r Hr]. apply Hpre. exists r. now rewrite Hr.
      * now rewrite dict_get_set_other.
  - destruct root; try discriminate.
    destruct (nth_error items i) as [v0 |] eqn:E; try discriminate.
    destruct loc' as [| [k' | i'] loc']; simpl; auto.
    + exfalso. apply Hpre. now eexists.
    + destruct (Nat.eq_dec i i') as [<- | Hne].
      * rewrite nth_error_update_nth_same, E. simpl.
        apply IH with (old := old); auto.
        intros [r Hr]. apply Hpre. exists r. now rewrite Hr.
      * now rewrite nth_error_update_nth_other.
Qed.

Lemma dict_set_keys (k : string) (v v0 : value) (pairs : list (string * value)) :
  Py.dict_get k pairs = Some v0 ->
  map fst (Py.dict_set k v pairs) = map fst pairs.
Proof.
  induction pairs as [| [k' v'] rest IH]; simpl; [discriminate |].
  destruct (String.eqb k k') eqn:E; simpl.
  - apply String.eqb_eq in E. now subst.
  - intros H. now rewrite IH.
Qed.

(** A store that puts a scalar in the place of a scalar keeps the keys of
    every mapping, in their order. *)
Lemma keys_at_store (loc : list step) (f : value -> value) :
  forall root old p,
    value_at root loc = Some old ->
    is_scalar old = true ->
    is_scalar (f old) = true ->
    option_map keys_of (value_at (store root loc f) p)
    = option_map keys_of (value_at root p).
Proof.
  induction loc as [| [k | i] loc IH]; intros root old p Hat Hold Hnew;
    simpl in *.
  - assert (root = old) by congruence. subst root.
    revert Hold Hnew.
    destruct p as [| [k | i] p]; simpl; destruct (f old); destruct old; simpl;
      congruence.
  - destruct root; try discriminate.
    destruct (Py.dict_get k pairs) as [v0 |] eqn:E; try discriminate.
    destruct p as [| [k' | i'] p]; simpl; auto.
    + now rewrite (dict_set_keys _ _ _ _ E).
    + destruct (string_dec k k') as [<- | Hne].
      * rewrite dict_get_set_same, E. now apply IH with (old := old).
      * now rewrite dict_get_set_other.
  - destruct root; try discriminate.
    destruct (nth_error items i) as [v0 |] eqn:E; try discriminate.
    destruct p as [| [k' | i'] p]; simpl; auto.
    destruct (Nat.eq_dec i i') as [<- | Hne].
    + rewrite nth_error_update_nth_same, E. simpl. now apply IH with (old := old).
    + now rewrite nth_error_update_nth_other.
Qed.

Lemma store_app (l1 l2 : list step) (f : value -> value) :
  forall root, store root (l1 ++ l2)%list f = store root l1 (fun v => store v l2 f).
Proof.
  induction l1 as [| [k | i] l1 IH]; intros root; simpl; auto.
  - destruct root; auto. destruct (Py.dict_get k pairs); auto. now rewrite IH.
  - destruct root; auto. f_equal.
    induction items as [| a items IHi] in i |- *; destruct i; simpl; auto.
    + now rewrite IH.
    + now rewrite IHi.
Qed.

Lemma update_nth_agree {A : Type} (f g : A -> A) (l : list A) (i : nat) (a : A) :
  nth_error l i = Some a -> f a = g a -> update_nth i f l = update_nth i g l.
Proof.
  revert i; induction l as [| b l IH]; intros [| i] Hnth Hfg; simpl in *;
    try discriminate.
  - congruence.
  - f_equal; eauto.
Qed.

(** Two changes that agree on the value at the location give the same
    document. *)
Lemma store_agree (loc : list step) (f g : value -> value) :
  forall root v,
    value_at root loc = Some v -> f v = g v -> store root loc f = store root loc g.
Proof.
  induction loc as [| [k | i] loc IH]; intros root v Hat Hfg; simpl in *.
  - congruence.
  - destruct root; auto.
    destruct (Py.dict_get k pairs) as [v0 |]; try discriminate.
    now rewrite (IH v0 v).
  - destruct root; auto.
    destruct (nth_error items i) as [v0 |] eqn:E; try discriminate.
    f_equal. apply update_nth_agree with (a := v0); eauto.
Qed.

(** From a string the loop only gets to strings: [s[i]] is a string and
    [s[key]] raises. *)
Lemma traverse_from_str (keys : list string) :
  forall s steps m steps',
    traverse (VStr s) keys steps = Reached m steps' -> exists s', m = VStr s'.
Proof.
  induction keys as [| key keys IH]; intros s steps m steps' H; simpl in H.
  - injection H as <- _. eauto.
  - destruct (Py.isdigit key).
    + destruct (Py.int_of_str key); try discriminate.
      simpl in H. destruct (String.get (Z.to_nat z) s); try discriminate.
      eauto.
    + simpl in H. destruct (Py.str_contains key s); discriminate.
Qed.

(** The steps the loop records lead from the document to the value the
    loop ends at. *)
Lemma traverse_value_at (keys : list string) :
  forall root model steps m steps',
    value_at root steps = Some model ->
    traverse model keys steps = Reached m steps' ->
    not_str m ->
    value_at root steps' = Some m.
Proof.
  induction keys as [| key keys IH]; intros root model steps m steps' Hat H Hm;
    simpl in H.
  - injection H as <- <-. exact Hat.
  - destruct model.
    + destruct (Py.isdigit key); [destruct (Py.int_of_str key) |]; discriminate.
    + destruct (Py.isdigit key); [destruct (Py.int_of_str key) |]; discriminate.
    + destruct (Py.isdigit key); [destruct (Py.int_of_str key) |]; discriminate.
    + change (traverse (VStr s) (key :: keys) steps = Reached m steps') in H.
      apply traverse_from_str in H. destruct H as [s' ->]. contradiction.
    + destruct (Py.isdigit key).
      * destruct (Py.int_of_str key) as [n |]; try discriminate.
        simpl in H.
        destruct (nth_error items (Z.to_nat n)) as [v |] eqn:E; try discriminate.
        apply IH with (root := root) in H; auto.
        rewrite value_at_app, Hat. simpl. now rewrite E.
      * simpl in H. destruct (existsb (Py.is_str key) items); discriminate.
    + destruct (Py.isdigit key).
      * destruct (Py.int_of_str key); discriminate.
      * simpl in H.
        destruct (Py.dict_get key pairs) as [v |] eqn:E; try discriminate.
        apply IH with (root := root) in H; auto.
        rewrite value_at_app, Hat. simpl. now rewrite E.
Qed.

(** The loop only adds steps after the ones it starts with. *)
Lemma traverse_steps (keys : list string) :
  forall model steps m steps',
    traverse model keys steps = Reached m steps' ->
    exists more, steps' = (steps ++ more)%list.
Proof.
  induction keys as [| key keys IH]; intros model steps m steps' H; simpl in H.
  - injection H as _ <-. exists []. now rewrite app_nil_r.
  - destruct (Py.isdigit key).
    + destruct (Py.int_of_str key) as [n |]; try discriminate.
      destruct (Py.getindex model (Z.to_nat n)); try discriminate.
      apply IH in H. destruct H as [more ->].
      rewrite <- app_assoc. eauto.
    + destruct (Py.contains key model) as [[|] |]; try discriminate.
      destruct (Py.getitem model key); try discriminate.
      apply IH in H. destruct H as [more ->].
      rewrite <- app_assoc. eauto.
Qed.

Lemma getitem_ok (model : value) (key : string) (v : value) :
  Py.getitem model key = Ok v ->
  exists pairs, model = VDict pairs /\ Py.dict_get key pairs = Some v.
Proof.
  destruct model; simpl; try discriminate.
  destruct (Py.dict_get key pairs) eqn:E; try discriminate.
  intros H; injection H as ->. eauto.
Qed.

(** The value [get] reads is the value of the document at the location
    [get] gives. *)
Lemma get_value_at (bim : value) (path : list string) (v : value) (loc : list step) :
  get bim path = Some (v, loc) -> value_at bim loc = Some v.
Proof.
  unfold get. intros H.
  destruct (Py.getitem bim "model") as [model |] eqn:Em; try discriminate.
  destruct (traverse model (removelast path) [SKey "model"])
    as [c steps | |] eqn:Et; try discriminate.
  destruct (last_key_of path) as [last_key |]; try discriminate.
  destruct (Py.contains last_key c) as [[|] |]; try discriminate.
  destruct (Py.getitem c last_key) as [v' |] eqn:Eg; try discriminate.
  injection H as -> <-.
  apply getitem_ok in Em. destruct Em as [pairs [-> Em]].
  apply getitem_ok in Eg. destruct Eg as [cpairs [-> Eg]].
  apply traverse_value_at with (root := VDict pairs) in Et; simpl; auto.
  - rewrite value_at_app, Et. simpl. now rewrite Eg.
  - now rewrite Em.
Qed.

(** A commit on a path that [get] resolves returns, with the coerced value
    stored at the location and the label of the item rewritten. *)
Lemma commit_resolved (w : window) (sel : selection) (old : value)
  (loc : list step) (text : string) :
  current w = Some sel ->
  get (bim_data w) (current_path sel) = Some (old, loc) ->
  update_model_value w text =
  Returned (with_data_and_text w
              (store (bim_data w) loc (fun _ => coerce old text))
              (current_item sel) (current_key sel ++ ": " ++ text)).
Proof.
  intros Hsel H. unfold update_model_value. rewrite Hsel.
  unfold get in H.
  destruct (Py.getitem (bim_data w) "model") as [model |] eqn:Em; try discriminate.
  destruct (traverse model (removelast (current_path sel)) [SKey "model"])
    as [c steps | |] eqn:Et; try discriminate.
  destruct (last_key_of (current_path sel)) as [last_key |]; try discriminate.
  destruct (Py.contains last_key c) as [[|] |]; try discriminate.
  destruct (Py.getitem c last_key) as [v' |] eqn:Eg; try discriminate.
  injection H as -> <-.
  do 2 f_equal.
  rewrite store_app.
  apply getitem_ok in Em. destruct Em as [pairs [Hb Em]].
  apply getitem_ok in Eg. destruct Eg as [cpairs [-> Eg]].
  apply store_agree with (v := VDict cpairs).
  - apply traverse_value_at with (root := bim_data w) in Et; simpl; auto.
    rewrite Hb. simpl. now rewrite Em.
  - simpl. now rewrite Eg.
Qed.

(** ** Labels *)

Lemma item_down_setText (down : list nat) (text : string) :
  forall tops it,
    item_down tops down = Some it ->
    item_down (setText_down tops down text) down
    = Some (Item text (item_children it)).
Proof.
  induction down as [| i down IH]; intros tops it H; simpl in *.
  - discriminate.
  - rewrite nth_error_update_nth_same.
    destruct (nth_error tops i) as [it0 |]; try discriminate. simpl.
    destruct down as [| j down].
    + now injection H as ->.
    + simpl item_children. now apply IH.
Qed.

Lemma item_at_setText (tops : list item) (h : handle) (text : string) (it : item) :
  item_at tops h = Some it ->
  item_at (setText tops h text) h = Some (Item text (item_children it)).
Proof. apply item_down_setText. Qed.

Example rows_window_selected :
  select indexed_doc [1; 0; 3; 0] = Some rows_window
  /\ current_path (the_selection rows_window) = ["tables"; "0"; "rows"]
  /\ form_layout rows_window = Some ("rows", "42").
Proof. repeat split. Qed.

Example hidden_window_selected :
  select indexed_doc [2; 0; 3; 0] = Some hidden_window
  /\ current_path (the_selection hidden_window) = ["tables"; "0"; "isHidden"]
  /\ form_layout hidden_window = Some ("isHidden", "True").
Proof. repeat split. Qed.

Example root_name_window_selected :
  select sales_doc [0; 0] = Some root_name_window
  /\ current_path (the_selection root_name_window) = ["name"]
  /\ form_layout root_name_window = Some ("name", "SemanticModel").
Proof. repeat split. Qed.

(** ** Commits the loop refuses or leaves by an exception *)

Lemma no_str_among_dicts (key : string) (items : list value) :
  forallb is_dict items = true -> existsb (Py.is_str key) items = false.
Proof.
  induction items as [| x items IH]; simpl; auto.
  intros H. apply andb_prop in H. destruct H as [Hx Hitems].
  rewrite IH by assumption. destruct x; try discriminate; reflexivity.
Qed.

(** In a document whose collection [coll] is a sequence of mappings, the
    commit on a leaf of an item whose label is not a digit string ends in
    the error box, with the window as it was. *)
Lemma named_item_commit_is_refused (w : window) (sel : selection)
  (coll label key text : string) (pairs mpairs : list (string * value))
  (items : list value) :
  current w = Some sel ->
  current_path sel = [coll; label; key] ->
  Py.isdigit coll = false ->
  Py.isdigit label = false ->
  bim_data w = VDict pairs ->
  Py.dict_get "model" pairs = Some (VDict mpairs) ->
  Py.dict_get coll mpairs = Some (VList items) ->
  forallb is_dict items = true ->
  update_model_value w text
  = Reported ("Unable to update the path: "
                ++ Py.str (VList [VStr coll; VStr label; VStr key])) w.
Proof.
  intros Hsel Hpath Hcoll Hlabel Hb Hm Hc Hitems.
  unfold update_model_value. rewrite Hsel, Hpath, Hb.
  cbn [Py.getitem removelast traverse map]. rewrite Hm.
  cbn [traverse]. rewrite Hcoll. cbn [Py.contains Py.getitem]. rewrite Hc.
  rewrite Hlabel. cbn [Py.contains].
  now rewrite no_str_among_dicts.
Qed.

(** In the same documents, the commit on a leaf of an item whose label is
    a digit string that reads as a number not below the length of the
    collection is left by an [IndexError]. *)
Lemma numbered_item_commit_raises (w : window) (sel : selection)
  (coll label key text : string) (pairs mpairs : list (string * value))
  (items : list value) (n : Z) :
  current w = Some sel ->
  current_path sel = [coll; label; key] ->
  Py.isdigit coll = false ->
  Py.isdigit label = true ->
  Py.int_of_str label = Some n ->
  List.length items <= Z.to_nat n ->
  bim_data w = VDict pairs ->
  Py.dict_get "model" pairs = Some (VDict mpairs) ->
  Py.dict_get coll mpairs = Some (VList items) ->
  update_model_value w text = Raised IndexError.
Proof.
  intros Hsel Hpath Hcoll Hlabel Hint Hlen Hb Hm Hc.
  unfold update_model_value. rewrite Hsel, Hpath, Hb.
  cbn [Py.getitem removelast traverse map]. rewrite Hm.
  cbn [traverse]. rewrite Hcoll. cbn [Py.contains Py.getitem]. rewrite Hc.
  rewrite Hlabel, Hint. cbn [Py.getindex].
  apply nth_error_None in Hlen. now rewrite Hlen.
Qed.

(** ** The claims about paths and commits *)

(** C1 (path resolution consistency), evaluated on [sales_doc].  The leaf
    [name: Sales] of the table named [Sales] shows the value stored at
    [model.tables[0].name], but the path [get_json_path] builds for it goes
    through the table's name instead of its index, and the lookup of
    [update_model_value] does not get to any value along it. *)
Theorem named_item_path_does_not_resolve :
  exists tops,
    load_tree sales_doc = Ok tops
    /\ option_map item_text (item_at tops [0; 0; 3; 0]) = Some "name: Sales"
    /\ value_at sales_doc [SKey "model"; SKey "tables"; SIdx 0; SKey "name"]
       = Some (VStr "Sales")
    /\ get_json_path tops [0; 0; 3; 0] = Some ["tables"; "Sales"; "name"]
    /\ get sales_doc ["tables"; "Sales"; "name"] = None.
Proof. eexists. repeat split. Qed.

(** C2 (edit-name scenario), evaluated on [sales_doc].  After a click on
    the leaf [name: Sales] the commit of [Sales2] ends in the error box:
    the document still holds [Sales] and the leaf still reads
    [name: Sales]. *)
Theorem edit_name_scenario_is_refused :
  exists w,
    select sales_doc [0; 0; 3; 0] = Some w
    /\ form_layout w = Some ("name", "Sales")
    /\ update_model_value w "Sales2"
       = Reported "Unable to update the path: ['tables', 'Sales', 'name']" w
    /\ bim_data w = sales_doc
    /\ option_map item_text (item_at (tree w) [0; 0; 3; 0]) = Some "name: Sales".
Proof. eexists. repeat split. Qed.

(** C3 (type-preserving commit).  When the path of the selected leaf
    resolves to the integer 42, the commit of ["7"] returns and leaves the
    integer 7 at the location of the leaf, and the commit of ["abc"]
    returns and leaves the string ["abc"] there.  In both cases the
    document has the value it had at every location that is not on the way
    to the leaf, and every mapping has the keys it had, in their order. *)
Theorem type_preserving_commit (w : window) (sel : selection) (loc : list step) :
  current w = Some sel ->
  get (bim_data w) (current_path sel) = Some (VInt 42, loc) ->
  (exists w7,
      update_model_value w "7" = Returned w7
      /\ value_at (bim_data w7) loc = Some (VInt 7)
      /\ (forall loc', ~ prefix_of loc' loc ->
                       value_at (bim_data w7) loc' = value_at (bim_data w) loc')
      /\ (forall p, option_map keys_of (value_at (bim_data w7) p)
                    = option_map keys_of (value_at (bim_data w) p)))
  /\ (exists wabc,
         update_model_value w "abc" = Returned wabc
         /\ value_at (bim_data wabc) loc = Some (VStr "abc")
         /\ (forall loc', ~ prefix_of loc' loc ->
                          value_at (bim_data wabc) loc' = value_at (bim_data w) loc')
         /\ (forall p, option_map keys_of (value_at (bim_data wabc) p)
                       = option_map keys_of (value_at (bim_data w) p))).
Proof.
  intros Hsel Hget.
  pose proof (get_value_at _ _ _ _ Hget) as Hat.
  split; eexists;
    (split; [exact (commit_resolved w sel (VInt 42) loc _ Hsel Hget) |]);
    simpl; repeat split.
  - now rewrite (value_at_store_same _ _ _ _ Hat).
  - intros loc' Hpre. now apply value_at_store_frame with (old := VInt 42).
  - intros p. now apply keys_at_store with (old := VInt 42).
  - now rewrite (value_at_store_same _ _ _ _ Hat).
  - intros loc' Hpre. now apply value_at_store_frame with (old := VInt 42).
  - intros p. now apply keys_at_store with (old := VInt 42).
Qed.

Lemma type_preserving_commit_witness :
  (exists w7,
      update_model_value rows_window "7" = Returned w7
      /\ value_at (bim_data w7) [SKey "model"; SKey "tables"; SIdx 0; SKey "rows"]
         = Some (VInt 7)
      /\ (forall loc',
             ~ prefix_of loc' [SKey "model"; SKey "tables"; SIdx 0; SKey "rows"] ->
             value_at (bim_data w7) loc' = value_at (bim_data rows_window) loc')
      /\ (forall p, option_map keys_of (value_at (bim_data w7) p)
                    = option_map keys_of (value_at (bim_data rows_window) p)))
  /\ (exists wabc,
         update_model_value rows_window "abc" = Returned wabc
         /\ value_at (bim_data wabc) [SKey "model"; SKey "tables"; SIdx 0; SKey "rows"]
            = Some (VStr "abc")
         /\ (forall loc',
                ~ prefix_of loc' [SKey "model"; SKey "tables"; SIdx 0; SKey "rows"] ->
                value_at (bim_data wabc) loc' = value_at (bim_data rows_window) loc')
         /\ (forall p, option_map keys_of (value_at (bim_data wabc) p)
                       = option_map keys_of (value_at (bim_data rows_window) p))).
Proof.
  apply (type_preserving_commit rows_window (the_selection rows_window)
           [SKey "model"; SKey "tables"; SIdx 0; SKey "rows"]); reflexivity.
Defined.

(** C5 (commit atomicity on intermediate path failure), evaluated on
    [year_doc].  The intermediate segment ["2024"] of the path of the leaf
    [rows: 42] does not resolve in [tables], which has one element; the
    commit ends with an [IndexError] that nothing catches, not with the
    error box. *)
Theorem unresolved_index_segment_raises :
  exists w,
    select year_doc [1; 0; 3; 0] = Some w
    /\ current_path (the_selection w) = ["tables"; "2024"; "rows"]
    /\ value_at (bim_data w) [SKey "model"; SKey "tables"; SIdx 2024] = None
    /\ update_model_value w "7" = Raised IndexError.
Proof. eexists. repeat split. Qed.

(** C6 (out-of-range index segments), evaluated on [source_doc].  The
    index segment ["1"] is out of bounds for [dataSources], which has one
    element: the commit ends with an [IndexError] that nothing catches. *)
Theorem out_of_range_index_raises :
  exists w,
    select source_doc [1; 0; 2; 0] = Some w
    /\ current_path (the_selection w) = ["dataSources"; "1"; "type"]
    /\ container_of (bim_data w) ["dataSources"; "1"; "type"] = Failed IndexError
    /\ update_model_value w "sql" = Raised IndexError.
Proof. eexists. repeat split. Qed.

(** C7 (absent final segment).  When the loop over the intermediate
    segments ends at a container that does not hold the final segment, the
    commit returns with the document as it was and with the label of the
    selected item set to the key, [": "] and the new text. *)
Theorem absent_final_segment_changes_label_only (w : window) (sel : selection)
  (model : value) (steps : list step) (last_key text : string) (it : item) :
  current w = Some sel ->
  container_of (bim_data w) (current_path sel) = Reached model steps ->
  last_key_of (current_path sel) = Ok last_key ->
  Py.contains last_key model = Some false ->
  item_at (tree w) (current_item sel) = Some it ->
  exists w',
    update_model_value w text = Returned w'
    /\ bim_data w' = bim_data w
    /\ item_at (tree w') (current_item sel)
       = Some (Item (current_key sel ++ ": " ++ text) (item_children it)).
Proof.
  intros Hsel Hc Hlast Hin Hit.
  unfold update_model_value, container_of in *. rewrite Hsel.
  destruct (Py.getitem (bim_data w) "model") as [m |]; try discriminate.
  rewrite Hc, Hlast, Hin.
  eexists. split; [reflexivity |]. simpl. split; [reflexivity |].
  now apply item_at_setText.
Qed.

Lemma absent_final_segment_changes_label_only_witness :
  exists w',
    update_model_value root_name_window "Renamed" = Returned w'
    /\ bim_data w' = bim_data root_name_window
    /\ item_at (tree w') [0; 0] = Some (Item "name: Renamed" []).
Proof.
  apply (absent_final_segment_changes_label_only root_name_window
           (the_selection root_name_window)
           (VDict [("culture", VStr "en-US");
                   ("tables",
                    VList [VDict [("name", VStr "Sales"); ("rows", VInt 42)]])])
           [SKey "model"] "name" "Renamed" (Item "name: SemanticModel" []));
    reflexivity.
Defined.

(** C9 (booleans are coerced like integers).  When the path of the selected
    leaf resolves to a boolean, the commit returns; the location then holds
    the integer read from the text when the text parses as an integer, and
    the text itself otherwise; it never holds a boolean. *)
Theorem boolean_commit_is_coerced (w : window) (sel : selection) (b : bool)
  (loc : list step) (text : string) :
  current w = Some sel ->
  get (bim_data w) (current_path sel) = Some (VBool b, loc) ->
  exists w',
    update_model_value w text = Returned w'
    /\ value_at (bim_data w') loc
       = Some (match Py.int_of_str text with
               | Some n => VInt n
               | None => VStr text
               end)
    /\ forall b', value_at (bim_data w') loc <> Some (VBool b').
Proof.
  intros Hsel Hget.
  pose proof (get_value_at _ _ _ _ Hget) as Hat.
  eexists. split; [exact (commit_resolved w sel (VBool b) loc text Hsel Hget) |].
  simpl. rewrite (value_at_store_same _ _ _ _ Hat).
  unfold coerce. simpl.
  split; [reflexivity |].
  intros b'. destruct (Py.int_of_str text); discriminate.
Qed.

Lemma boolean_commit_is_coerced_witness :
  exists w',
    update_model_value hidden_window "7" = Returned w'
    /\ value_at (bim_data w') [SKey "model"; SKey "tables"; SIdx 0; SKey "isHidden"]
       = Some (VInt 7)
    /\ forall b',
        value_at (bim_data w') [SKey "model"; SKey "tables"; SIdx 0; SKey "isHidden"]
        <> Some (VBool b').
Proof.
  apply (boolean_commit_is_coerced hidden_window (the_selection hidden_window)
           true [SKey "model"; SKey "tables"; SIdx 0; SKey "isHidden"] "7");
    reflexivity.
Defined.

(** C10 (commits start at [model]).  A commit that returns leaves every
    root-level field other than [model] as it was, [name] and
    [compatibilityLevel] among them.  A commit on a path of one segment
    [k], the path of the root-level leaves, looks [k] up in
    [bim_data["model"]]: when [model] has the key its field gets the
    coerced value, otherwise the document stays as it is; the label of the
    selected item is rewritten in both cases. *)
Theorem commit_starts_at_model :
  (forall w text w' k,
      update_model_value w text = Returned w' ->
      k <> "model" ->
      value_at (bim_data w') [SKey k] = value_at (bim_data w) [SKey k])
  /\ (forall w sel k text pairs mpairs,
         current w = Some sel ->
         current_path sel = [k] ->
         bim_data w = VDict pairs ->
         Py.dict_get "model" pairs = Some (VDict mpairs) ->
         update_model_value w text
         = Returned
             (with_data_and_text w
                (match Py.dict_get k mpairs with
                 | Some old =>
                     VDict (Py.dict_set "model"
                              (VDict (Py.dict_set k (coerce old text) mpairs)) pairs)
                 | None => bim_data w
                 end)
                (current_item sel) (current_key sel ++ ": " ++ text))).
Proof.
  split.
  - intros w text w' k H Hk. unfold update_model_value in H.
    destruct (current w) as [sel |]; try discriminate.
    destruct (Py.getitem (bim_data w) "model") as [model |] eqn:Em; try discriminate.
    destruct (traverse model (removelast (current_path sel)) [SKey "model"])
      as [c steps | |] eqn:Et; try discriminate.
    destruct (last_key_of (current_path sel)) as [last_key |]; try discriminate.
    destruct (Py.contains last_key c) as [[|] |]; try discriminate.
    + destruct (Py.getitem c last_key) as [old |]; try discriminate.
      injection H as <-. simpl bim_data.
      apply traverse_steps in Et. destruct Et as [more ->].
      apply getitem_ok in Em. destruct Em as [pairs [-> Em]].
      simpl. rewrite Em. simpl.
      rewrite dict_get_set_other; auto.
    + injection H as <-. reflexivity.
  - intros w sel k text pairs mpairs Hsel Hpath Hb Hm.
    unfold update_model_value. rewrite Hsel, Hpath, Hb. simpl. rewrite Hm. simpl.
    destruct (Py.dict_get k mpairs) as [old |]; simpl.
    + reflexivity.
    + now rewrite <- Hb.
Qed.

Lemma commit_starts_at_model_witness :
  value_at (bim_data rows7_window) [SKey "name"]
  = value_at (bim_data rows_window) [SKey "name"]
  /\ update_model_value root_name_window "Renamed"
     = Returned
         (with_data_and_text root_name_window (bim_data root_name_window)
            [0; 0] "name: Renamed").
Proof.
  split.
  - apply (proj1 commit_starts_at_model rows_window "7" rows7_window "name");
      [reflexivity | discriminate].
  - apply (proj2 commit_starts_at_model root_name_window
             (the_selection root_name_window) "name" "Renamed"
             [("name", VStr "SemanticModel");
              ("compatibilityLevel", VInt 1200);
              ("model",
               VDict [("culture", VStr "en-US");
                      ("tables",
                       VList [VDict [("name", VStr "Sales"); ("rows", VInt 42)]])])]
             [("culture", VStr "en-US");
              ("tables",
               VList [VDict [("name", VStr "Sales"); ("rows", VInt 42)]])]);
      reflexivity.
Defined.

(** ** Saving *)

Lemma read_write_file (d : disk) (path bytes : string) :
  read_file (write_file d path bytes) path = Some bytes.
Proof.
  induction d as [| [p old] d IH]; simpl.
  - now rewrite String.eqb_refl.
  - destruct (String.eqb path p) eqn:E; simpl; now rewrite E.
Qed.

Lemma click_file_path (w w' : window) (item : handle) :
  on_tree_item_click w item = Some w' -> file_path w' = file_path w.
Proof.
  unfold on_tree_item_click. intros H.
  destruct (item_at (tree w) item); try discriminate.
  destruct (Py.split_once ": " (item_text i)) as [[key v] |];
    [destruct (get_json_path (tree w) item) |];
    try discriminate; injection H as <-; reflexivity.
Qed.

Lemma commit_file_path (w : window) (text : string) :
  match update_model_value w text with
  | Returned w' => file_path w' = file_path w
  | Reported _ w' => w' = w
  | Raised _ => True
  end.
Proof.
  unfold update_model_value.
  destruct (current w) as [sel |]; auto.
  destruct (Py.getitem (bim_data w) "model") as [model |]; auto.
  destruct (traverse model (removelast (current_path sel)) [SKey "model"]); auto.
  destruct (last_key_of (current_path sel)); auto.
  destruct (Py.contains a model0) as [[|] |]; auto.
  destruct (Py.getitem model0 a); auto.
Qed.

Lemma save_window (w : window) (answer : io) (d : disk) :
  window_after (fst (save_bim_file w answer d)) = w.
Proof.
  unfold save_bim_file. destruct (file_path w), answer; reflexivity.
Qed.

(** No event changes the path of the file. *)
Lemma run_file_path (events : list event) :
  forall w d w' d',
    run (w, d) events = Some (w', d') -> file_path w' = file_path w.
Proof.
  induction events as [| e events IH]; intros w d w' d' H; simpl in H.
  - now injection H as <- _.
  - destruct e as [item | text | answer]; simpl in H.
    + destruct (on_tree_item_click w item) as [w1 |] eqn:E; try discriminate.
      simpl in H. apply IH in H. rewrite H. eapply click_file_path; eauto.
    + pose proof (commit_file_path w text) as Hc.
      destruct (update_model_value w text) as [w1 | m w1 |]; try discriminate;
        apply IH in H; rewrite H; auto. now subst.
    + pose proof (save_window w answer d) as Hs.
      destruct (save_bim_file w answer d) as [r d1]. simpl in *.
      apply IH in H. now rewrite H, Hs.
Qed.

(** C8 (a failed save keeps the document).  A save that the operating
    system refuses or interrupts ends with the error box and the window as
    it was, document included.  Whatever the user does next, a later save
    that goes through ends with the information box and leaves in the file
    the dump of the document as it then is. *)
Theorem failed_save_keeps_document (w : window) (d : disk) (answer : io)
  (events : list event) (w2 : window) (d2 : disk) :
  answer <> Written ->
  file_path w <> EmptyString ->
  run (w, snd (save_bim_file w answer d)) events = Some (w2, d2) ->
  (exists message, fst (save_bim_file w answer d) = NotSaved message w)
  /\ handle_event (w, d) (Save answer) = Some (w, snd (save_bim_file w answer d))
  /\ exists message d3,
      save_bim_file w2 Written d2 = (Saved message w2, d3)
      /\ read_file d3 (file_path w) = Some (json_dump (bim_data w2)).
Proof.
  intros Hanswer Hpath Hrun.
  apply run_file_path in Hrun as Hsame.
  repeat split.
  - unfold save_bim_file.
    destruct (file_path w); [congruence |].
    destruct answer; [congruence | |]; eexists; reflexivity.
  - simpl. pose proof (save_window w answer d) as Hs.
    destruct (save_bim_file w answer d) as [r d1]. simpl in *. now rewrite Hs.
  - unfold save_bim_file. rewrite Hsame.
    destruct (file_path w) eqn:E; [congruence |].
    do 2 eexists. split; [reflexivity |].
    apply read_write_file.
Qed.

Lemma failed_save_keeps_document_witness :
  (exists message,
      fst (save_bim_file rows_window (Refused "Permission denied") [])
      = NotSaved message rows_window)
  /\ handle_event (rows_window, []) (Save (Refused "Permission denied"))
     = Some (rows_window, snd (save_bim_file rows_window (Refused "Permission denied") []))
  /\ exists message d3,
      save_bim_file rows7_window Written [] = (Saved message rows7_window, d3)
      /\ read_file d3 (file_path rows_window)
         = Some (json_dump (bim_data rows7_window)).
Proof.
  apply (failed_save_keeps_document rows_window [] (Refused "Permission denied")
           [Commit "7"] rows7_window []);
    [discriminate | discriminate | reflexivity].
Defined.

(** * The round trip through json.dump and json.load *)

(** ** Strings *)

Lemma append_assoc (a b c : string) : (a ++ b) ++ c = a ++ (b ++ c).
Proof. induction a as [| x a IH]; simpl; congruence. Qed.

Lemma append_nil_r (a : string) : a ++ EmptyString = a.
Proof. induction a as [| x a IH]; simpl; congruence. Qed.

Lemma length_append (a b : string) :
  String.length (a ++ b) = String.length a + String.length b.
Proof. induction a as [| x a IH]; simpl; congruence. Qed.

(** ** Strings of a dump are read back *)

Lemma scanstring_escape_char (c : ascii) (tail : string) :
  Json.scanstring (Json.escape_char c ++ tail)
  = Json.cons_char c (Json.scanstring tail).
Proof.
  destruct c as [b0 b1 b2 b3 b4 b5 b6 b7].
  destruct b0, b1, b2, b3, b4, b5, b6, b7; reflexivity.
Qed.

Lemma scanstring_escape (s rest : string) :
  Json.scanstring (Json.escape s ++ String Py.dquote rest) = Some (s, rest).
Proof.
  induction s as [| c s IH]; simpl.
  - reflexivity.
  - now rewrite append_assoc, scanstring_escape_char, IH.
Qed.

(** ** Integers of a dump are read back *)

Lemma span_digits_all (ds rest : string) :
  Py.all_chars Py.is_ascii_digit ds = true ->
  digit_head rest = false ->
  Json.span_digits (ds ++ rest) = (ds, rest).
Proof.
  intros Hds Hrest.
  induction ds as [| c ds IH]; simpl in *.
  - destruct rest as [| c rest]; simpl in *; [reflexivity | now rewrite Hrest].
  - apply andb_prop in Hds. destruct Hds as [Hc Hds].
    now rewrite Hc, IH.
Qed.

Lemma digits_of_uint (u : Decimal.uint) :
  Py.all_chars Py.is_ascii_digit (DecimalString.NilEmpty.string_of_uint u) = true.
Proof. induction u; simpl; auto. Qed.

Lemma digits_value_acc (u : Decimal.uint) (acc : positive) :
  Json.digits_value (DecimalString.NilEmpty.string_of_uint u) (Z.pos acc) = Z.pos (Pos.of_uint_acc u acc).
Proof.
  revert acc; induction u; intros acc;
    cbn [DecimalString.NilEmpty.string_of_uint Json.digits_value Pos.of_uint_acc];
    try reflexivity;
    rewrite <- IHu; f_equal;
    match goal with
    | |- context [Py.digit_val ?c] =>
        let v := eval vm_compute in (Py.digit_val c) in
        change (Py.digit_val c) with v
    end; lia.
Qed.

Lemma digits_value_of (u : Decimal.uint) :
  Json.digits_value (DecimalString.NilEmpty.string_of_uint u) 0%Z = Z.of_N (Pos.of_uint u).
Proof.
  induction u;
    cbn [DecimalString.NilEmpty.string_of_uint Json.digits_value Pos.of_uint];
    try reflexivity; try assumption;
    apply (digits_value_acc u).
Qed.

Lemma nzhead_not_D0 (u v : Decimal.uint) : Decimal.nzhead u <> Decimal.D0 v.
Proof. induction u; simpl; try discriminate. assumption. Qed.

(** The digits of a positive number do not start with a zero. *)
Lemma to_uint_head (p : positive) :
  exists c t,
    DecimalString.NilEmpty.string_of_uint (Pos.to_uint p) = String c t
    /\ Py.is_ascii_digit c = true /\ (c =? "0")%char = false.
Proof.
  pose proof (DecimalPos.Unsigned.to_of (Pos.to_uint p)) as Hn.
  rewrite DecimalPos.Unsigned.of_to in Hn. simpl in Hn.
  pose proof (nzhead_not_D0 (Pos.to_uint p)) as Hz.
  pose proof (DecimalPos.Unsigned.to_uint_nonzero p) as Hnz.
  unfold Decimal.unorm in Hn.
  destruct (Decimal.nzhead (Pos.to_uint p)) eqn:E;
    try (rewrite Hn; simpl; do 2 eexists; repeat split; reflexivity).
  - congruence.
  - exfalso. now apply (Hz u).
Qed.

Lemma match_natural_pos (p : positive) (rest : string) :
  digit_head rest = false ->
  Json.match_natural (DecimalString.NilEmpty.string_of_uint (Pos.to_uint p) ++ rest)
  = Some (Z.pos p, rest).
Proof.
  intros Hrest.
  destruct (to_uint_head p) as [c [t [E [Hd Hz]]]].
  pose proof (digits_value_of (Pos.to_uint p)) as Hv.
  pose proof (digits_of_uint (Pos.to_uint p)) as Hall.
  rewrite DecimalPos.Unsigned.of_to in Hv.
  rewrite E in *.
  apply andb_prop in Hall. destruct Hall as [_ Hall].
  unfold Json.match_natural. cbn [append].
  rewrite Hz, Hd, (span_digits_all t rest Hall Hrest), Hv.
  reflexivity.
Qed.

Lemma delimited_no_digit (rest : string) :
  delimited rest = true -> digit_head rest = false.
Proof.
  destruct rest as [| c rest]; simpl; auto.
  destruct c as [b0 b1 b2 b3 b4 b5 b6 b7].
  destruct b0, b1, b2, b3, b4, b5, b6, b7; cbv; congruence.
Qed.

Lemma delimited_no_float (rest : string) :
  delimited rest = true -> Json.float_follows rest = false.
Proof.
  destruct rest as [| c rest]; simpl; auto.
  destruct c as [b0 b1 b2 b3 b4 b5 b6 b7].
  destruct b0, b1, b2, b3, b4, b5, b6, b7; intros H; cbv in H;
    try discriminate H; destruct rest; reflexivity.
Qed.

Lemma str_of_int_pos (p : positive) :
  Py.str_of_int (Z.pos p) = DecimalString.NilEmpty.string_of_uint (Pos.to_uint p).
Proof.
  unfold Py.str_of_int. simpl.
  pose proof (DecimalPos.Unsigned.to_uint_nonnil p).
  destruct (Pos.to_uint p); simpl; congruence.
Qed.

Lemma str_of_int_neg (p : positive) :
  Py.str_of_int (Z.neg p)
  = String "-" (DecimalString.NilEmpty.string_of_uint (Pos.to_uint p)).
Proof.
  unfold Py.str_of_int. simpl.
  pose proof (DecimalPos.Unsigned.to_uint_nonnil p).
  destruct (Pos.to_uint p); simpl; congruence.
Qed.

Lemma match_number_str_of_int (n : Z) (rest : string) :
  delimited rest = true ->
  Json.match_number (Py.str_of_int n ++ rest) = Some (n, rest).
Proof.
  intros Hrest.
  pose proof (delimited_no_digit rest Hrest) as Hd.
  pose proof (delimited_no_float rest Hrest) as Hf.
  unfold Json.match_number.
  destruct n as [| p | p].
  - simpl. now rewrite Hf.
  - rewrite str_of_int_pos.
    pose proof (match_natural_pos p rest Hd) as Hm.
    destruct (to_uint_head p) as [c [t [E [Hc Hz]]]].
    rewrite E in *. cbn [append] in *.
    assert (Hcase :
              match String c (t ++ rest) with
              | String "-" s' =>
                  option_map (fun nr => (Z.opp (fst nr), snd nr)) (Json.match_natural s')
              | _ => Json.match_natural (String c (t ++ rest))
              end = Json.match_natural (String c (t ++ rest))).
    { destruct c as [b0 b1 b2 b3 b4 b5 b6 b7].
      destruct b0, b1, b2, b3, b4, b5, b6, b7; try reflexivity; discriminate. }
    rewrite Hcase, Hm. now rewrite Hf.
  - rewrite str_of_int_neg. cbn [append].
    rewrite (match_natural_pos p rest Hd). simpl. now rewrite Hf.
Qed.

Lemma str_of_int_head (n : Z) (rest : string) :
  number_head (Py.str_of_int n ++ rest) = true.
Proof.
  destruct n as [| p | p]; try reflexivity.
  rewrite str_of_int_pos.
  destruct (to_uint_head p) as [c [t [E [Hc Hz]]]].
  rewrite E. simpl. now rewrite Hc.
Qed.

Lemma scan_once_number (fuel : nat) (s : string) :
  number_head s = true ->
  Json.scan_once (S fuel) s
  = match Json.match_number s with
    | Some (n, rest) => Some (VInt n, rest)
    | None => None
    end.
Proof.
  destruct s as [| c s]; [discriminate |].
  destruct c as [b0 b1 b2 b3 b4 b5 b6 b7].
  destruct b0, b1, b2, b3, b4, b5, b6, b7; try discriminate; intros _; reflexivity.
Qed.

(** ** Whitespace and the first character of a value *)

Lemma skip_ws_spaces (n : nat) (s : string) :
  Json.skip_ws (Json.spaces n ++ s) = Json.skip_ws s.
Proof. induction n as [| n IH]; simpl; auto. Qed.

Lemma skip_ws_newline_indent (level : nat) (s : string) :
  Json.skip_ws (Json.newline_indent level ++ s) = Json.skip_ws s.
Proof. unfold Json.newline_indent. simpl. apply skip_ws_spaces. Qed.

Lemma number_head_opens (s : string) : number_head s = true -> opens_value s = true.
Proof.
  destruct s as [| c s]; [discriminate |].
  destruct c as [b0 b1 b2 b3 b4 b5 b6 b7].
  destruct b0, b1, b2, b3, b4, b5, b6, b7; try discriminate; reflexivity.
Qed.

Lemma iterencode_opens (v : value) (level : nat) (rest : string) :
  opens_value (Json.iterencode v level ++ rest) = true.
Proof.
  destruct v as [| [|] | n | s | [| x items] | [| kv pairs]]; try reflexivity.
  apply number_head_opens, str_of_int_head.
Qed.

Lemma skip_ws_opens (s : string) : opens_value s = true -> Json.skip_ws s = s.
Proof.
  destruct s as [| c s]; [discriminate |]. simpl.
  destruct (Json.is_ws c); [discriminate | reflexivity].
Qed.

(** ** The round trip of a value *)

Lemma array_loop_items (level outer : nat) (rest : string) (items : list value) :
  Forall reads_back items ->
  forall x fuel,
    reads_back x ->
    need_items (x :: items) <= fuel ->
    Json.array_loop fuel
      (Py.join (item_sep level) (map (fun y => Json.iterencode y level) (x :: items))
         ++ Json.newline_indent outer ++ String "]" rest)
    = Some (x :: items, rest).
Proof.
  induction 1 as [| y items Hy Hitems IH]; intros x fuel Hx Hfuel;
    (destruct fuel as [| fuel]; [simpl in Hfuel; lia |]); simpl in Hfuel.
  - cbn [map Py.join Json.array_loop].
    rewrite Hx; [| lia | reflexivity].
    rewrite skip_ws_newline_indent. reflexivity.
  - change (map (fun y0 => Json.iterencode y0 level) (x :: y :: items))
      with (Json.iterencode x level
              :: map (fun y0 => Json.iterencode y0 level) (y :: items)).
    set (tail := map (fun y0 => Json.iterencode y0 level) (y :: items)) in *.
    assert (Hjoin :
              Py.join (item_sep level) (Json.iterencode x level :: tail)
              = Json.iterencode x level ++ item_sep level
                  ++ Py.join (item_sep level) tail)
      by reflexivity.
    rewrite Hjoin, !append_assoc.
    cbn [Json.array_loop].
    rewrite Hx; [| lia | reflexivity].
    unfold item_sep at 1. cbn [append Json.skip_ws].
    change (Json.is_ws ",") with false. cbv iota.
    change ("," =? "]")%char with false. change ("," =? ",")%char with true.
    cbv iota.
    rewrite skip_ws_newline_indent, skip_ws_opens.
    + unfold tail. rewrite IH; [reflexivity | assumption | simpl; lia].
    + unfold tail. cbn [map Py.join].
      destruct (map (fun y0 => Json.iterencode y0 level) items);
        rewrite ?append_assoc; apply iterencode_opens.
Qed.

Lemma encode_pair_quote (level : nat) (kv : string * value) (tail : string) :
  encode_pair level kv ++ tail = String Py.dquote (pair_after_quote level kv tail).
Proof.
  unfold encode_pair, pair_after_quote, Json.encode_basestring_ascii.
  repeat (rewrite append_assoc || (progress cbn [append])).
  reflexivity.
Qed.

Lemma join_pairs (level outer : nat) (rest : string) (kv : string * value)
  (pairs : list (string * value)) :
  Py.join (item_sep level) (map (encode_pair level) (kv :: pairs))
    ++ Json.newline_indent outer ++ String "}" rest
  = encode_pair level kv ++ after_pair level outer rest pairs.
Proof.
  destruct pairs as [| kv' pairs]; cbn [map Py.join after_pair].
  - reflexivity.
  - now rewrite !append_assoc.
Qed.

Lemma delimited_after_pair (level outer : nat) (rest : string)
  (pairs : list (string * value)) :
  delimited (after_pair level outer rest pairs) = true.
Proof. destruct pairs; reflexivity. Qed.

Lemma skip_ws_key_separator (s : string) :
  Json.skip_ws (": " ++ s) = String ":" (String " " s).
Proof. reflexivity. Qed.

Lemma skip_ws_space (s : string) : Json.skip_ws (String " " s) = Json.skip_ws s.
Proof. reflexivity. Qed.

Lemma skip_ws_item_sep (level : nat) (s : string) :
  Json.skip_ws (item_sep level ++ s)
  = String "," (Json.newline_indent level ++ s).
Proof. reflexivity. Qed.

Lemma skip_ws_quote (s : string) :
  Json.skip_ws (String Py.dquote s) = String Py.dquote s.
Proof. reflexivity. Qed.

Lemma object_loop_pairs (level outer : nat) (rest : string)
  (pairs : list (string * value)) :
  Forall (fun kv => reads_back (snd kv)) pairs ->
  forall kv fuel,
    reads_back (snd kv) ->
    need_pairs (kv :: pairs) <= fuel ->
    Json.object_loop fuel
      (pair_after_quote level kv (after_pair level outer rest pairs))
    = Some (kv :: pairs, rest).
Proof.
  induction 1 as [| kv' pairs Hkv' Hpairs IH]; intros [k v] fuel Hv Hfuel;
    (destruct fuel as [| fuel]; [simpl in Hfuel; lia |]); simpl in Hfuel, Hv;
    unfold pair_after_quote; cbn [fst snd Json.object_loop];
    rewrite scanstring_escape, skip_ws_key_separator; cbv iota;
    rewrite skip_ws_space, skip_ws_opens by apply iterencode_opens;
    (rewrite Hv; [| lia | apply delimited_after_pair]).
  - cbn [after_pair]. rewrite skip_ws_newline_indent. reflexivity.
  - cbn [after_pair].
    rewrite skip_ws_item_sep.
    change ("," =? "}")%char with false. change ("," =? ",")%char with true.
    cbv iota.
    rewrite skip_ws_newline_indent, join_pairs, encode_pair_quote, skip_ws_quote.
    change (Py.dquote =? Py.dquote)%char with true. cbv iota.
    rewrite IH; [reflexivity | assumption | simpl; lia].
Qed.

(** ** Building the dict from the pairs read *)

Lemma dict_set_fresh (k : string) (v : value) (acc : list (string * value)) :
  fresh k acc = true -> Py.dict_set k v acc = (acc ++ [(k, v)])%list.
Proof.
  unfold fresh. induction acc as [| [k' v'] acc IH]; simpl; auto.
  destruct (String.eqb k k'); simpl; [discriminate |].
  intros H. now rewrite IH.
Qed.

Lemma fresh_snoc (k k' : string) (v : value) (acc : list (string * value)) :
  fresh k acc = true -> String.eqb k' k = false ->
  fresh k (acc ++ [(k', v)])%list = true.
Proof.
  unfold fresh. intros H Hk.
  rewrite map_app, existsb_app. simpl.
  rewrite String.eqb_sym, Hk.
  apply negb_true_iff in H. rewrite H. reflexivity.
Qed.

Lemma dict_of_pairs (pairs : list (string * value)) :
  forall acc,
    distinct (map fst pairs) = true ->
    forallb (fun kv => fresh (fst kv) acc) pairs = true ->
    fold_left (fun dict kv => Py.dict_set (fst kv) (snd kv) dict) pairs acc
    = (acc ++ pairs)%list.
Proof.
  induction pairs as [| [k v] pairs IH]; intros acc Hd Hf; simpl in *.
  - now rewrite app_nil_r.
  - apply andb_prop in Hd. destruct Hd as [Hk Hd].
    apply andb_prop in Hf. destruct Hf as [Hkf Hf].
    rewrite dict_set_fresh by assumption.
    rewrite IH; auto.
    + now rewrite <- app_assoc.
    + apply forallb_forall. intros [k' v'] Hin.
      rewrite forallb_forall in Hf. specialize (Hf _ Hin). simpl in *.
      apply fresh_snoc; auto.
      apply negb_true_iff in Hk.
      destruct (String.eqb k k') eqn:E; auto.
      exfalso. rewrite <- not_true_iff_false in Hk. apply Hk.
      apply existsb_exists. exists k'. split; auto.
      apply in_map_iff. now exists (k', v').
Qed.

Lemma dict_of_distinct_pairs (pairs : list (string * value)) :
  distinct (map fst pairs) = true ->
  fold_left (fun dict kv => Py.dict_set (fst kv) (snd kv) dict) pairs [] = pairs.
Proof.
  intros Hd. rewrite dict_of_pairs; auto.
  apply forallb_forall. reflexivity.
Qed.

(** ** Every document is read back *)

Lemma scan_once_array (fuel : nat) (s : string) :
  Json.scan_once (S fuel) (String "[" s)
  = match Json.skip_ws s with
    | String d r =>
        if (d =? "]")%char then Some (VList [], r)
        else
          match Json.array_loop fuel (String d r) with
          | Some (values, rest) => Some (VList values, rest)
          | None => None
          end
    | EmptyString => None
    end.
Proof. reflexivity. Qed.

Lemma scan_once_object (fuel : nat) (s : string) :
  Json.scan_once (S fuel) (String "{" s)
  = match Json.skip_ws s with
    | String d r =>
        if (d =? "}")%char then Some (VDict [], r)
        else if (d =? Py.dquote)%char then
          match Json.object_loop fuel r with
          | Some (pairs, rest) =>
              Some (VDict (fold_left
                             (fun dict kv => Py.dict_set (fst kv) (snd kv) dict)
                             pairs []), rest)
          | None => None
          end
        else None
    | EmptyString => None
    end.
Proof. reflexivity. Qed.

Lemma scan_once_string (fuel : nat) (s : string) :
  Json.scan_once (S fuel) (String Py.dquote s)
  = match Json.scanstring s with
    | Some (str, rest) => Some (VStr str, rest)
    | None => None
    end.
Proof. reflexivity. Qed.

Lemma iterencode_list (x : value) (items : list value) (level : nat) :
  Json.iterencode (VList (x :: items)) level
  = String "["
      (Json.newline_indent (S level)
         ++ Py.join (item_sep (S level))
              (map (fun y => Json.iterencode y (S level)) (x :: items))
         ++ Json.newline_indent level ++ "]").
Proof. reflexivity. Qed.

Lemma iterencode_dict (kv : string * value) (pairs : list (string * value))
  (level : nat) :
  Json.iterencode (VDict (kv :: pairs)) level
  = String "{"
      (Json.newline_indent (S level)
         ++ Py.join (item_sep (S level)) (map (encode_pair (S level)) (kv :: pairs))
         ++ Json.newline_indent level ++ "}").
Proof. reflexivity. Qed.

Lemma opens_not_bracket (s : string) :
  opens_value s = true ->
  exists d r, s = String d r /\ (d =? "]")%char = false.
Proof.
  destruct s as [| d r]; [discriminate |]. simpl. intros H.
  exists d, r. split; auto.
  destruct (d =? "]")%char; auto.
  now rewrite andb_false_r in H.
Qed.

Lemma forall_reads_back (A : Type) (f : A -> value) (l : list A) :
  Forall (fun a => unique_keys (f a) = true -> reads_back (f a)) l ->
  forallb (fun a => unique_keys (f a)) l = true ->
  Forall (fun a => reads_back (f a)) l.
Proof.
  induction 1 as [| a l Ha Hl IH]; simpl; intros H; constructor;
    apply andb_prop in H; destruct H; auto.
Qed.

Lemma reads_back_all (v : value) : unique_keys v = true -> reads_back v.
Proof.
  induction v as [| b | n | s | items IH | pairs IH] using value_ind;
    intros Hu level fuel rest Hfuel Hrest;
    (destruct fuel as [| fuel]; [simpl in Hfuel; lia |]).
  - destruct rest; reflexivity.
  - destruct b, rest; reflexivity.
  - change (Json.iterencode (VInt n) level) with (Py.str_of_int n).
    rewrite scan_once_number by apply str_of_int_head.
    now rewrite match_number_str_of_int.
  - unfold Json.iterencode, Json.encode_basestring_ascii. cbn [append].
    rewrite scan_once_string, append_assoc. cbn [append].
    now rewrite scanstring_escape.
  - destruct items as [| x items]; [reflexivity |].
    apply (forall_reads_back value (fun x => x)) in IH; [| exact Hu].
    inversion IH as [| x' items' Hx Hitems]; subst.
    rewrite iterencode_list. cbn [append].
    rewrite scan_once_array, !append_assoc, skip_ws_newline_indent.
    cbn [append].
    set (Y := Py.join (item_sep (S level))
                (map (fun y => Json.iterencode y (S level)) (x :: items))
                ++ Json.newline_indent level ++ String "]" rest).
    assert (Ho : opens_value Y = true).
    { unfold Y. cbn [map Py.join].
      destruct (map (fun y => Json.iterencode y (S level)) items);
        rewrite ?append_assoc; apply iterencode_opens. }
    assert (Hloop : Json.array_loop fuel Y = Some (x :: items, rest)).
    { apply array_loop_items; auto.
      simpl in Hfuel. unfold need_items. simpl. lia. }
    rewrite skip_ws_opens by exact Ho.
    destruct (opens_not_bracket Y Ho) as [d [r [E Hd]]].
    rewrite E in *. now rewrite Hd, Hloop.
  - destruct pairs as [| kv pairs]; [reflexivity |].
    simpl in Hu. apply andb_prop in Hu. destruct Hu as [Hkeys Hu].
    apply (forall_reads_back (string * value) snd) in IH; [| exact Hu].
    inversion IH as [| kv' pairs' Hkv Hpairs]; subst.
    rewrite iterencode_dict. cbn [append].
    rewrite scan_once_object, !append_assoc, skip_ws_newline_indent.
    cbn [append].
    rewrite join_pairs, encode_pair_quote, skip_ws_quote.
    change (Py.dquote =? "}")%char with false.
    change (Py.dquote =? Py.dquote)%char with true. cbv iota.
    rewrite object_loop_pairs; auto.
    + now rewrite dict_of_distinct_pairs.
    + simpl in Hfuel. unfold need_pairs. simpl. lia.
Qed.

(** ** The text of a value is long enough for the calls it needs *)

Lemma length_newline_indent (level : nat) :
  1 <= String.length (Json.newline_indent level).
Proof. unfold Json.newline_indent. simpl. lia. Qed.

Lemma length_item_sep (level : nat) : 1 <= String.length (item_sep level).
Proof. unfold item_sep. simpl. lia. Qed.

Lemma need_join (A : Type) (f : A -> value) (enc : A -> string) (sep : string)
  (l : list A) :
  1 <= String.length sep ->
  Forall (fun a => need (f a) <= String.length (enc a)) l ->
  fold_right (fun a n => S (need (f a) + n)) 0 l
  <= String.length (Py.join sep (map enc l)) + 1.
Proof.
  intros Hsep. induction 1 as [| a l Ha Hl IH]; simpl; [lia |].
  destruct l as [| b l]; simpl in *; [lia |].
  rewrite !length_append.
  destruct (map enc l); simpl in *; rewrite ?length_append in *; lia.
Qed.

Lemma length_str_of_int (n : Z) : 1 <= String.length (Py.str_of_int n).
Proof.
  pose proof (str_of_int_head n EmptyString) as H.
  rewrite append_nil_r in H.
  destruct (Py.str_of_int n); [discriminate | simpl; lia].
Qed.

Lemma need_length (v : value) :
  forall level, need v <= String.length (Json.iterencode v level).
Proof.
  induction v as [| b | n | s | items IH | pairs IH] using value_ind; intros level.
  - simpl. lia.
  - destruct b; simpl; lia.
  - apply length_str_of_int.
  - simpl. lia.
  - destruct items as [| x items]; [simpl; lia |].
    rewrite iterencode_list.
    pose proof (need_join value (fun y => y) (fun y => Json.iterencode y (S level))
                  (item_sep (S level)) (x :: items)
                  (length_item_sep (S level))) as Hj.
    pose proof (length_newline_indent level).
    pose proof (length_newline_indent (S level)).
    cbn [String.length]. rewrite !length_append.
    change (need (VList (x :: items)))
      with (S (fold_right (fun a n => S (need a + n)) 0 (x :: items))).
    assert (Hall : Forall (fun a => need a <= String.length (Json.iterencode a (S level)))
                     (x :: items)).
    { eapply Forall_impl; [| exact IH]. intros a Ha. apply Ha. }
    specialize (Hj Hall). lia.
  - destruct pairs as [| kv pairs]; [simpl; lia |].
    rewrite iterencode_dict.
    pose proof (need_join (string * value) snd (encode_pair (S level))
                  (item_sep (S level)) (kv :: pairs)
                  (length_item_sep (S level))) as Hj.
    pose proof (length_newline_indent level).
    pose proof (length_newline_indent (S level)).
    cbn [String.length]. rewrite !length_append.
    change (need (VDict (kv :: pairs)))
      with (S (fold_right (fun a n => S (need (snd a) + n)) 0 (kv :: pairs))).
    assert (Hall : Forall (fun a => need (snd a) <= String.length (encode_pair (S level) a))
                     (kv :: pairs)).
    { eapply Forall_impl; [| exact IH]. intros a Ha. simpl in Ha.
      unfold encode_pair. rewrite !length_append. specialize (Ha (S level)). lia. }
    specialize (Hj Hall). lia.
Qed.

(** The text of a dump is read back as the document. *)
Lemma loads_of_dumps (d : value) :
  unique_keys d = true -> Json.loads (Json.dumps d) = Some d.
Proof.
  intros Hu. unfold Json.loads, Json.dumps.
  pose proof (iterencode_opens d 0 EmptyString) as Ho.
  rewrite append_nil_r in Ho.
  rewrite skip_ws_opens by exact Ho.
  pose proof (reads_back_all d Hu 0 (S (String.length (Json.iterencode d 0)))
                EmptyString) as Hr.
  rewrite append_nil_r in Hr.
  rewrite Hr; [reflexivity | | reflexivity].
  pose proof (need_length d 0). lia.
Qed.

(** ** The text of a dump is plain ASCII *)

Lemma all_chars_append (p : ascii -> bool) (a b : string) :
  Py.all_chars p (a ++ b) = Py.all_chars p a && Py.all_chars p b.
Proof.
  induction a as [| c a IH]; simpl; auto. now rewrite IH, andb_assoc.
Qed.

Lemma all_chars_weaken (p q : ascii -> bool) (s : string) :
  (forall c, p c = true -> q c = true) ->
  Py.all_chars p s = true -> Py.all_chars q s = true.
Proof.
  intros Hpq. induction s as [| c s IH]; simpl; auto.
  intros H. apply andb_prop in H. destruct H as [Hc Hs].
  now rewrite (Hpq c Hc), IH.
Qed.

Lemma digit_plain (c : ascii) : Py.is_ascii_digit c = true -> plain c = true.
Proof.
  destruct c as [b0 b1 b2 b3 b4 b5 b6 b7].
  destruct b0, b1, b2, b3, b4, b5, b6, b7; try discriminate; reflexivity.
Qed.

Lemma plain_escape_char (c : ascii) : Py.all_chars plain (Json.escape_char c) = true.
Proof.
  destruct c as [b0 b1 b2 b3 b4 b5 b6 b7].
  destruct b0, b1, b2, b3, b4, b5, b6, b7; reflexivity.
Qed.

Lemma plain_escape (s : string) : Py.all_chars plain (Json.escape s) = true.
Proof.
  induction s as [| c s IH]; simpl; auto.
  now rewrite all_chars_append, plain_escape_char, IH.
Qed.

Lemma plain_basestring (s : string) :
  Py.all_chars plain (Json.encode_basestring_ascii s) = true.
Proof.
  unfold Json.encode_basestring_ascii. cbn [Py.all_chars].
  now rewrite all_chars_append, plain_escape.
Qed.

Lemma plain_str_of_int (n : Z) : Py.all_chars plain (Py.str_of_int n) = true.
Proof.
  destruct n as [| p | p]; [reflexivity | |].
  - rewrite str_of_int_pos.
    apply all_chars_weaken with (p := Py.is_ascii_digit);
      [exact digit_plain | apply digits_of_uint].
  - rewrite str_of_int_neg. cbn [Py.all_chars].
    change (plain "-") with true. cbn [andb].
    apply all_chars_weaken with (p := Py.is_ascii_digit);
      [exact digit_plain | apply digits_of_uint].
Qed.

Lemma plain_spaces (n : nat) : Py.all_chars plain (Json.spaces n) = true.
Proof. induction n; simpl; auto. Qed.

Lemma plain_newline_indent (level : nat) :
  Py.all_chars plain (Json.newline_indent level) = true.
Proof. unfold Json.newline_indent. cbn [Py.all_chars]. apply plain_spaces. Qed.

Lemma plain_join (sep : string) (l : list string) :
  Py.all_chars plain sep = true ->
  Forall (fun s => Py.all_chars plain s = true) l ->
  Py.all_chars plain (Py.join sep l) = true.
Proof.
  intros Hsep. induction 1 as [| s l Hs Hl IH]; [reflexivity |].
  destruct l as [| s' l]; [exact Hs |].
  change (Py.join sep (s :: s' :: l)) with (s ++ sep ++ Py.join sep (s' :: l)).
  now rewrite !all_chars_append, Hs, Hsep, IH.
Qed.

Lemma plain_item_sep (level : nat) : Py.all_chars plain (item_sep level) = true.
Proof. unfold item_sep. cbn [append Py.all_chars]. apply plain_newline_indent. Qed.

Lemma plain_iterencode (v : value) :
  forall level, Py.all_chars plain (Json.iterencode v level) = true.
Proof.
  induction v as [| b | n | s | items IH | pairs IH] using value_ind; intros level.
  - reflexivity.
  - destruct b; reflexivity.
  - apply plain_str_of_int.
  - apply plain_basestring.
  - destruct items as [| x items]; [reflexivity |].
    rewrite iterencode_list. cbn [Py.all_chars].
    rewrite !all_chars_append, plain_newline_indent, plain_newline_indent.
    rewrite plain_join; [reflexivity | apply plain_item_sep |].
    apply Forall_map. eapply Forall_impl; [| exact IH]. intros a Ha. apply Ha.
  - destruct pairs as [| kv pairs]; [reflexivity |].
    rewrite iterencode_dict. cbn [Py.all_chars].
    rewrite !all_chars_append, plain_newline_indent, plain_newline_indent.
    rewrite plain_join; [reflexivity | apply plain_item_sep |].
    apply Forall_map. eapply Forall_impl; [| exact IH]. intros a Ha.
    unfold encode_pair. simpl in Ha.
    now rewrite !all_chars_append, plain_basestring, Ha.
Qed.

(** ** Plain text goes through the file as it is *)

Lemma plain_cases (c : ascii) :
  plain c = true ->
  (Py.code c <? 128) = true /\ (Py.code c =? 13) = false.
Proof.
  destruct c as [b0 b1 b2 b3 b4 b5 b6 b7].
  destruct b0, b1, b2, b3, b4, b5, b6, b7; try discriminate; repeat split.
Qed.

Lemma utf8_encode_plain (s : string) :
  Py.all_chars plain s = true -> utf8_encode s = s.
Proof.
  induction s as [| c s IH]; simpl; auto.
  intros H. apply andb_prop in H. destruct H as [Hc Hs].
  destruct (plain_cases c Hc) as [Hlt _].
  now rewrite Hlt, IH.
Qed.

Lemma utf8_decode_plain (s : string) :
  Py.all_chars plain s = true -> utf8_decode s = Some s.
Proof.
  induction s as [| c s IH]; simpl; auto.
  intros H. apply andb_prop in H. destruct H as [Hc Hs].
  destruct (plain_cases c Hc) as [Hlt _].
  now rewrite Hlt, IH.
Qed.

Lemma no_bom_plain (s : string) :
  Py.all_chars plain s = true -> prefix bom s = false.
Proof.
  destruct s as [| c s]; [reflexivity |].
  cbn [Py.all_chars]. intros H. apply andb_prop in H. destruct H as [Hc _].
  revert Hc. destruct c as [b0 b1 b2 b3 b4 b5 b6 b7].
  destruct b0, b1, b2, b3, b4, b5, b6, b7; try discriminate; reflexivity.
Qed.

Lemma universal_newlines_plain (s : string) :
  Py.all_chars plain s = true -> universal_newlines s = s.
Proof.
  induction s as [| c s IH]; simpl; auto.
  intros H. apply andb_prop in H. destruct H as [Hc Hs].
  destruct (plain_cases c Hc) as [_ Hcr].
  now rewrite Hcr, IH.
Qed.

(** The bytes of a dump are read as the text of the dump. *)
Lemma read_text_of_dump (d : value) :
  read_text (json_dump d) = Some (Json.dumps d).
Proof.
  pose proof (plain_iterencode d 0) as Hplain.
  unfold read_text, json_dump, utf8_sig_decode, Json.dumps.
  rewrite utf8_encode_plain, no_bom_plain, utf8_decode_plain by exact Hplain.
  cbn [option_map]. now rewrite universal_newlines_plain.
Qed.

(** The bytes of a dump are loaded as the document. *)
Lemma load_of_dump (d : value) :
  unique_keys d = true -> json_load (json_dump d) = Some d.
Proof.
  intros Hu. unfold json_load.
  rewrite read_text_of_dump. now apply loads_of_dumps.
Qed.

(** A document that has been saved is loaded again as it was, with the
    tree [load_tree] builds for it. *)
Lemma load_after_save (w : window) (d : disk) (tops : list item) :
  unique_keys (bim_data w) = true ->
  file_path w <> EmptyString ->
  load_tree (bim_data w) = Ok tops ->
  load_bim_file (file_path w) (snd (save_bim_file w Written d))
  = Opened (basename (file_path w) ++ " loaded successfully.")
      {| bim_data := bim_data w; file_path := file_path w; tree := tops;
         current := None; form_layout := None |}.
Proof.
  intros Hu Hpath Htree.
  unfold load_bim_file, save_bim_file.
  destruct (file_path w) as [| c p] eqn:E; [congruence |].
  cbn [snd]. rewrite read_write_file.
  unfold dumped. rewrite read_text_of_dump, loads_of_dumps by exact Hu.
  unfold window_of. rewrite Htree. reflexivity.
Qed.

(** C4 (round trip).  For every document whose mappings have unique keys,
    as the mappings of a Python [dict] have, [json.loads] of the text
    [json.dumps(..., indent=4)] gives for the document is the document
    again: the same keys in the same order, the same nesting, the same
    scalars of the same types.  The same holds through the file:
    [json.load] of the bytes [json.dump] writes is the document. *)
Theorem dump_load_round_trip (d : value) :
  unique_keys d = true ->
  Json.loads (Json.dumps d) = Some d /\ json_load (json_dump d) = Some d.
Proof.
  intros Hu. split; [now apply loads_of_dumps | now apply load_of_dump].
Qed.

Lemma dump_load_round_trip_witness :
  Json.loads (Json.dumps sales_doc) = Some sales_doc
  /\ json_load (json_dump sales_doc) = Some sales_doc.
Proof. apply (dump_load_round_trip sales_doc). reflexivity. Defined.

(** ** More on reading and storing at a location *)

(** A store is not seen from a location that is neither on the way to the
    place nor below it. *)
Lemma value_at_store_apart (loc : list step) (f : value -> value) :
  forall root loc',
    ~ prefix_of loc' loc ->
    ~ prefix_of loc loc' ->
    value_at (store root loc f) loc' = value_at root loc'.
Proof.
  induction loc as [| [k | i] loc IH]; intros root loc' Hpre Hpre'.
  - exfalso. apply Hpre'. now exists loc'.
  - destruct loc' as [| [k' | i'] loc'].
    + exfalso. apply Hpre. now eexists.
    + simpl. destruct root; auto.
      destruct (Py.dict_get k pairs) as [v0 |] eqn:E; auto.
      destruct (string_dec k k') as [<- | Hne].
      * simpl. rewrite dict_get_set_same, E.
        apply IH.
        -- intros [r Hr]. apply Hpre. exists r. now rewrite Hr.
        -- intros [r Hr]. apply Hpre'. exists r. now rewrite Hr.
      * simpl. now rewrite dict_get_set_other.
    + simpl. destruct root; auto.
      destruct (Py.dict_get k pairs); auto.
  - destruct loc' as [| [k' | i'] loc'].
    + exfalso. apply Hpre. now eexists.
    + simpl. destruct root; auto.
    + simpl. destruct root; auto.
      destruct (Nat.eq_dec i i') as [<- | Hne].
      * simpl. rewrite nth_error_update_nth_same.
        destruct (nth_error items i) as [v0 |] eqn:E; simpl; auto.
        apply IH.
        -- intros [r Hr]. apply Hpre. exists r. now rewrite Hr.
        -- intros [r Hr]. apply Hpre'. exists r. now rewrite Hr.
      * simpl. now rewrite nth_error_update_nth_other.
Qed.

Lemma dict_set_same_value (k : string) (v : value) (pairs : list (string * value)) :
  Py.dict_get k pairs = Some v -> Py.dict_set k v pairs = pairs.
Proof.
  induction pairs as [| [k' v'] rest IH]; simpl; [discriminate |].
  destruct (String.eqb k k') eqn:E.
  - apply String.eqb_eq in E. intros H. injection H as ->. now subst.
  - intros H. now rewrite IH.
Qed.

Lemma update_nth_same_value {A : Type} (f : A -> A) (l : list A) (i : nat) :
  (forall a, nth_error l i = Some a -> f a = a) -> update_nth i f l = l.
Proof.
  revert i; induction l as [| b l IH]; intros [| i] H; simpl; auto.
  - now rewrite (H b).
  - now rewrite IH.
Qed.

(** Storing the value that is there gives the document back. *)
Lemma store_same_value (loc : list step) (f : value -> value) :
  forall root v,
    value_at root loc = Some v -> f v = v -> store root loc f = root.
Proof.
  induction loc as [| [k | i] loc IH]; intros root v Hat Hf; simpl in *.
  - congruence.
  - destruct root; auto.
    destruct (Py.dict_get k pairs) as [v0 |] eqn:E; try discriminate.
    rewrite (IH v0 v Hat Hf). now rewrite dict_set_same_value.
  - destruct root; auto.
    destruct (nth_error items i) as [v0 |] eqn:E; try discriminate.
    f_equal. apply update_nth_same_value.
    intros a Ha. rewrite E in Ha. injection Ha as <-. eauto.
Qed.

Lemma dict_set_set (k : string) (v v' : value) (pairs : list (string * value)) :
  Py.dict_set k v' (Py.dict_set k v pairs) = Py.dict_set k v' pairs.
Proof.
  induction pairs as [| [k0 v0] rest IH]; simpl.
  - now rewrite String.eqb_refl.
  - destruct (String.eqb k k0) eqn:E; simpl; rewrite ?String.eqb_refl, ?E; congruence.
Qed.

Lemma update_nth_twice {A : Type} (f g : A -> A) (l : list A) (i : nat) :
  update_nth i g (update_nth i f l) = update_nth i (fun a => g (f a)) l.
Proof.
  revert i; induction l as [| b l IH]; intros [| i]; simpl; auto.
  now rewrite IH.
Qed.

(** Two stores at one place are one store of the composed change. *)
Lemma store_store (loc : list step) (f g : value -> value) :
  forall root,
    store (store root loc f) loc g = store root loc (fun v => g (f v)).
Proof.
  induction loc as [| [k | i] loc IH]; intros root; simpl; auto.
  - destruct root; auto.
    destruct (Py.dict_get k pairs) as [v0 |] eqn:E; simpl; [| now rewrite E].
    rewrite dict_get_set_same, dict_set_set. now rewrite IH.
  - destruct root; auto. simpl. rewrite update_nth_twice. f_equal.
    revert i. induction items as [| a items IHi]; intros [| i]; simpl; auto.
    + now rewrite IH.
    + now rewrite IHi.
Qed.

(** ** The loop on a document after a store *)

(** The steps the loop adds do not depend on the steps it starts with, and
    the loop takes the same steps after a store below the container it
    ends at. *)
Lemma traverse_after_store (keys : list string) :
  forall model steps c steps',
    traverse model keys steps = Reached c steps' ->
    not_str c ->
    exists rel,
      steps' = (steps ++ rel)%list
      /\ forall tail f steps0,
          traverse (store model (rel ++ tail) f) keys steps0
          = Reached (store c tail f) (steps0 ++ rel)%list.
Proof.
  induction keys as [| key keys IH]; intros model steps c steps' H Hc; simpl in H.
  - injection H as <- <-. exists []. split; [now rewrite app_nil_r |].
    intros tail f steps0. simpl. now rewrite app_nil_r.
  - destruct model.
    + destruct (Py.isdigit key); [destruct (Py.int_of_str key) |]; discriminate.
    + destruct (Py.isdigit key); [destruct (Py.int_of_str key) |]; discriminate.
    + destruct (Py.isdigit key); [destruct (Py.int_of_str key) |]; discriminate.
    + change (traverse (VStr s) (key :: keys) steps = Reached c steps') in H.
      apply traverse_from_str in H. destruct H as [s' ->]. contradiction.
    + destruct (Py.isdigit key) eqn:Ed.
      * destruct (Py.int_of_str key) as [n |] eqn:En; try discriminate.
        simpl in H.
        destruct (nth_error items (Z.to_nat n)) as [v |] eqn:E; try discriminate.
        destruct (IH _ _ _ _ H Hc) as [rel [-> Hrel]].
        exists (SIdx (Z.to_nat n) :: rel). split; [now rewrite <- app_assoc |].
        intros tail f steps0. simpl. rewrite Ed, En. simpl.
        rewrite nth_error_update_nth_same, E. simpl.
        rewrite Hrel. now rewrite <- app_assoc.
      * simpl in H. destruct (existsb (Py.is_str key) items); discriminate.
    + destruct (Py.isdigit key) eqn:Ed.
      * destruct (Py.int_of_str key); discriminate.
      * simpl in H.
        destruct (Py.dict_get key pairs) as [v |] eqn:E; try discriminate.
        destruct (IH _ _ _ _ H Hc) as [rel [-> Hrel]].
        exists (SKey key :: rel). split; [now rewrite <- app_assoc |].
        intros tail f steps0. simpl. rewrite Ed, E. simpl.
        rewrite dict_get_set_same. rewrite Hrel. now rewrite <- app_assoc.
Qed.

(** After a store at the place a path resolves to, the path resolves to
    the stored value, at the same place. *)
Lemma get_after_store (bim : value) (path : list string) (old new : value)
  (loc : list step) :
  get bim path = Some (old, loc) ->
  get (store bim loc (fun _ => new)) path = Some (new, loc).
Proof.
  unfold get. intros H.
  destruct (Py.getitem bim "model") as [model |] eqn:Em; try discriminate.
  destruct (traverse model (removelast path) [SKey "model"])
    as [c steps | |] eqn:Et; try discriminate.
  destruct (last_key_of path) as [last_key |]; try discriminate.
  destruct (Py.contains last_key c) as [[|] |]; try discriminate.
  destruct (Py.getitem c last_key) as [v' |] eqn:Eg; try discriminate.
  injection H as -> <-.
  apply getitem_ok in Em. destruct Em as [pairs [-> Em]].
  apply getitem_ok in Eg. destruct Eg as [cpairs [-> Eg]].
  destruct (traverse_after_store _ _ _ _ _ Et I) as [rel [-> Hrel]].
  simpl. rewrite Em. simpl. rewrite dict_get_set_same.
  rewrite Hrel. simpl. rewrite Eg. simpl.
  now rewrite dict_get_set_same.
Qed.

(** ** The text of an integer is read by int *)

Lemma int_digits_all (ds : string) :
  forall acc prev,
    Py.all_chars Py.is_ascii_digit ds = true ->
    Py.int_digits ds acc prev
    = match ds with
      | EmptyString => if prev then Some acc else None
      | _ => Some (Json.digits_value ds acc)
      end.
Proof.
  induction ds as [| c ds IH]; intros acc prev H; simpl in *; auto.
  apply andb_prop in H. destruct H as [Hc Hds].
  rewrite Hc, (IH _ true Hds). now destruct ds.
Qed.

Lemma lskip_none (p : ascii -> bool) (s : string) :
  Py.all_chars (fun c => negb (p c)) s = true -> Py.lskip p s = s.
Proof.
  destruct s as [| c s]; simpl; auto.
  intros H. apply andb_prop in H. destruct H as [Hc _].
  apply negb_true_iff in Hc. now rewrite Hc.
Qed.

Lemma rskip_none (p : ascii -> bool) (s : string) :
  Py.all_chars (fun c => negb (p c)) s = true -> Py.rskip p s = s.
Proof.
  induction s as [| c s IH]; simpl; auto.
  intros H. apply andb_prop in H. destruct H as [Hc Hs].
  rewrite (IH Hs). apply negb_true_iff in Hc. rewrite Hc. now destruct s.
Qed.

Lemma digit_no_int_space (c : ascii) :
  Py.is_ascii_digit c = true -> negb (Py.is_int_space c) = true.
Proof.
  destruct c as [b0 b1 b2 b3 b4 b5 b6 b7].
  destruct b0, b1, b2, b3, b4, b5, b6, b7; try discriminate; reflexivity.
Qed.

Lemma int_of_digits (u : Decimal.uint) (c : ascii) (t : string) :
  DecimalString.NilEmpty.string_of_uint u = String c t ->
  (c =? "0")%char = false ->
  Py.int_of_str (String c t) = Some (Z.of_N (Pos.of_uint u))
  /\ Py.int_of_str (String "-" (String c t)) = Some (- Z.of_N (Pos.of_uint u))%Z.
Proof.
  intros E Hz.
  pose proof (digits_of_uint u) as Hall. rewrite E in Hall.
  pose proof (digits_value_of u) as Hv. rewrite E in Hv.
  assert (Hns : Py.all_chars (fun c => negb (Py.is_int_space c)) (String c t) = true).
  { eapply all_chars_weaken; [| exact Hall]. exact digit_no_int_space. }
  assert (Hd : Py.is_ascii_digit c = true).
  { simpl in Hall. now apply andb_prop in Hall. }
  pose proof (int_digits_all (String c t) 0%Z false Hall) as Hi.
  cbv beta iota in Hi. rewrite Hv in Hi.
  split.
  - unfold Py.int_of_str. rewrite lskip_none, rskip_none by exact Hns.
    rewrite <- Hi.
    revert Hd Hz. clear. destruct c as [b0 b1 b2 b3 b4 b5 b6 b7].
    destruct b0, b1, b2, b3, b4, b5, b6, b7; try discriminate; reflexivity.
  - unfold Py.int_of_str.
    assert (Hns' : Py.all_chars (fun c => negb (Py.is_int_space c))
                     (String "-" (String c t)) = true).
    { change (Py.all_chars (fun c => negb (Py.is_int_space c)) (String c t) = true).
      exact Hns. }
    rewrite lskip_none, rskip_none by exact Hns'.
    cbv iota. rewrite Hi. reflexivity.
Qed.

(** [int(str(n)) == n] *)
Lemma int_of_str_of_int (n : Z) : Py.int_of_str (Py.str_of_int n) = Some n.
Proof.
  destruct n as [| p | p]; [reflexivity | |].
  - rewrite str_of_int_pos.
    destruct (to_uint_head p) as [c [t [E [Hc Hz]]]].
    destruct (int_of_digits _ _ _ E Hz) as [H _].
    rewrite E, H, DecimalPos.Unsigned.of_to. reflexivity.
  - rewrite str_of_int_neg.
    destruct (to_uint_head p) as [c [t [E [Hc Hz]]]].
    destruct (int_of_digits _ _ _ E Hz) as [_ H].
    rewrite E, H, DecimalPos.Unsigned.of_to. reflexivity.
Qed.

(** ** What a commit stores *)

Lemma coerce_scalar (old : value) (text : string) :
  is_scalar (coerce old text) = true.
Proof.
  unfold coerce. destruct (Py.isinstance_int old); [| reflexivity].
  destruct (Py.int_of_str text); reflexivity.
Qed.

Lemma coerce_twice (old : value) (text : string) :
  coerce (coerce old text) text = coerce old text.
Proof.
  unfold coerce. destruct (Py.isinstance_int old); [| reflexivity].
  destruct (Py.int_of_str text); reflexivity.
Qed.

(** ** Labels after a commit *)

Lemma update_nth_ext {A : Type} (f g : A -> A) (l : list A) (i : nat) :
  (forall a, f a = g a) -> update_nth i f l = update_nth i g l.
Proof.
  intros H. revert i; induction l as [| b l IH]; intros [| i]; simpl; auto.
  - now rewrite H.
  - now rewrite IH.
Qed.

Lemma setText_down_twice (down : list nat) (text : string) :
  forall tops,
    setText_down (setText_down tops down text) down text
    = setText_down tops down text.
Proof.
  induction down as [| i down IH]; intros tops; [reflexivity |].
  cbn [setText_down]. rewrite update_nth_twice.
  apply update_nth_ext. intros [t0 ch].
  destruct down as [| j down]; [reflexivity |].
  cbn [item_children item_text]. now rewrite IH.
Qed.

(** The text of an item other than the one whose text is set stays. *)
Lemma item_down_setText_other (down : list nat) (text : string) :
  forall tops down',
    down' <> down ->
    option_map item_text (item_down (setText_down tops down text) down')
    = option_map item_text (item_down tops down').
Proof.
  induction down as [| i down IH]; intros tops down' Hne; [reflexivity |].
  destruct down' as [| j down']; [reflexivity |].
  cbn [setText_down item_down].
  destruct (Nat.eq_dec i j) as [<- | Hij].
  - rewrite nth_error_update_nth_same.
    destruct (nth_error tops i) as [[t0 ch] |]; [| reflexivity].
    cbn [option_map item_children item_text].
    destruct down as [| k down]; destruct down' as [| k' down'].
    + congruence.
    + reflexivity.
    + reflexivity.
    + cbn [item_children]. apply IH. congruence.
  - now rewrite nth_error_update_nth_other.
Qed.

Lemma item_at_setText_other (tops : list item) (h h' : handle) (text : string) :
  h' <> h ->
  option_map item_text (item_at (setText tops h text) h')
  = option_map item_text (item_at tops h').
Proof.
  intros Hne. apply item_down_setText_other.
  intros E. apply Hne. apply (f_equal (@rev nat)) in E.
  now rewrite !rev_involutive in E.
Qed.

Example columns_window_selected :
  select columns_doc [1; 0; 3; 0] = Some columns_window
  /\ current_path (the_selection columns_window) = ["tables"; "0"; "columns"]
  /\ form_layout columns_window = Some ("columns", "['Id', 'Amount']").
Proof. repeat split. Qed.

(** ** Commits on a path that resolves *)

Lemma commit_returned (w : window) (text : string) (w' : window) :
  update_model_value w text = Returned w' ->
  exists sel,
    current w = Some sel
    /\ tree w' = setText (tree w) (current_item sel) (current_key sel ++ ": " ++ text)
    /\ current w' = current w
    /\ file_path w' = file_path w
    /\ form_layout w' = form_layout w.
Proof.
  unfold update_model_value. intros H.
  destruct (current w) as [sel |] eqn:Hc; try discriminate.
  destruct (Py.getitem (bim_data w) "model") as [model |]; try discriminate.
  destruct (traverse model (removelast (current_path sel)) [SKey "model"])
    as [c steps | |]; try discriminate.
  destruct (last_key_of (current_path sel)) as [last_key |]; try discriminate.
  destruct (Py.contains last_key c) as [[|] |]; try discriminate;
    [destruct (Py.getitem c last_key); try discriminate |];
    injection H as <-; exists sel; repeat split; exact Hc.
Qed.

(** X1.  Whatever value the path of the selected leaf resolves to, a list or a
    mapping included, the commit returns and puts a scalar in its place: the
    text, unless the old value is an [int] or a [bool].  The document keeps
    its value at every location that is neither on the way to the place nor
    below it. *)
Theorem commit_replaces_value (w : window) (sel : selection) (old : value)
  (loc : list step) (text : string) :
  current w = Some sel ->
  get (bim_data w) (current_path sel) = Some (old, loc) ->
  exists w',
    update_model_value w text = Returned w'
    /\ value_at (bim_data w') loc = Some (coerce old text)
    /\ is_scalar (coerce old text) = true
    /\ (Py.isinstance_int old = false -> coerce old text = VStr text)
    /\ forall loc',
        ~ prefix_of loc' loc -> ~ prefix_of loc loc' ->
        value_at (bim_data w') loc' = value_at (bim_data w) loc'.
Proof.
  intros Hsel Hget.
  pose proof (get_value_at _ _ _ _ Hget) as Hat.
  eexists. split; [exact (commit_resolved w sel old loc text Hsel Hget) |].
  simpl. repeat split.
  - now rewrite (value_at_store_same _ _ _ _ Hat).
  - apply coerce_scalar.
  - intros Hi. unfold coerce. now rewrite Hi.
  - intros loc' H1 H2. now apply value_at_store_apart.
Qed.

Lemma commit_replaces_value_witness :
  exists w',
    update_model_value columns_window "Id, Amount" = Returned w'
    /\ value_at (bim_data w') [SKey "model"; SKey "tables"; SIdx 0; SKey "columns"]
       = Some (coerce (VList [VStr "Id"; VStr "Amount"]) "Id, Amount")
    /\ is_scalar (coerce (VList [VStr "Id"; VStr "Amount"]) "Id, Amount") = true
    /\ (Py.isinstance_int (VList [VStr "Id"; VStr "Amount"]) = false ->
        coerce (VList [VStr "Id"; VStr "Amount"]) "Id, Amount" = VStr "Id, Amount")
    /\ forall loc',
        ~ prefix_of loc' [SKey "model"; SKey "tables"; SIdx 0; SKey "columns"] ->
        ~ prefix_of [SKey "model"; SKey "tables"; SIdx 0; SKey "columns"] loc' ->
        value_at (bim_data w') loc' = value_at (bim_data columns_window) loc'.
Proof.
  apply (commit_replaces_value columns_window (the_selection columns_window)
           (VList [VStr "Id"; VStr "Amount"])
           [SKey "model"; SKey "tables"; SIdx 0; SKey "columns"] "Id, Amount");
    reflexivity.
Defined.

(** X2.  After a commit on a path that resolves, the same path resolves, by
    the lookup of the commit itself, to the value the commit stored, at the
    same place; the selection is kept. *)
Theorem commit_reads_back (w : window) (sel : selection) (old : value)
  (loc : list step) (text : string) :
  current w = Some sel ->
  get (bim_data w) (current_path sel) = Some (old, loc) ->
  exists w',
    update_model_value w text = Returned w'
    /\ current w' = Some sel
    /\ get (bim_data w') (current_path sel) = Some (coerce old text, loc).
Proof.
  intros Hsel Hget.
  eexists. split; [exact (commit_resolved w sel old loc text Hsel Hget) |].
  simpl. split; [exact Hsel |]. now apply get_after_store with (old := old).
Qed.

Lemma commit_reads_back_witness :
  exists w',
    update_model_value rows_window "7" = Returned w'
    /\ current w' = Some (the_selection rows_window)
    /\ get (bim_data w') ["tables"; "0"; "rows"]
       = Some (coerce (VInt 42) "7",
               [SKey "model"; SKey "tables"; SIdx 0; SKey "rows"]).
Proof.
  apply (commit_reads_back rows_window (the_selection rows_window) (VInt 42)
           [SKey "model"; SKey "tables"; SIdx 0; SKey "rows"] "7");
    reflexivity.
Defined.

(** X3.  Committing the same text a second time changes nothing: the second
    commit returns the window the first one left. *)
Theorem commit_twice_is_once (w : window) (sel : selection) (old : value)
  (loc : list step) (text : string) :
  current w = Some sel ->
  get (bim_data w) (current_path sel) = Some (old, loc) ->
  exists w',
    update_model_value w text = Returned w'
    /\ update_model_value w' text = Returned w'.
Proof.
  intros Hsel Hget.
  eexists. split; [exact (commit_resolved w sel old loc text Hsel Hget) |].
  set (w1 := with_data_and_text w _ _ _).
  assert (Hsel1 : current w1 = Some sel) by exact Hsel.
  assert (Hget1 : get (bim_data w1) (current_path sel) = Some (coerce old text, loc))
    by (apply get_after_store with (old := old); exact Hget).
  rewrite (commit_resolved w1 sel _ loc text Hsel1 Hget1).
  f_equal. unfold w1, with_data_and_text. simpl.
  rewrite store_store, coerce_twice.
  unfold setText. now rewrite setText_down_twice.
Qed.

Lemma commit_twice_is_once_witness :
  exists w',
    update_model_value rows_window "abc" = Returned w'
    /\ update_model_value w' "abc" = Returned w'.
Proof.
  apply (commit_twice_is_once rows_window (the_selection rows_window) (VInt 42)
           [SKey "model"; SKey "tables"; SIdx 0; SKey "rows"] "abc");
    reflexivity.
Defined.

(** X4.  Once a commit on an [int] or [bool] field has stored a text that
    [int] does not read, the field holds a string, and every later commit on
    it stores its text as a string, digits included. *)
Theorem string_sticks (w : window) (sel : selection) (old : value)
  (loc : list step) (text later : string) :
  current w = Some sel ->
  get (bim_data w) (current_path sel) = Some (old, loc) ->
  Py.isinstance_int old = true ->
  Py.int_of_str text = None ->
  exists w1 w2,
    update_model_value w text = Returned w1
    /\ value_at (bim_data w1) loc = Some (VStr text)
    /\ update_model_value w1 later = Returned w2
    /\ value_at (bim_data w2) loc = Some (VStr later).
Proof.
  intros Hsel Hget Hint Hparse.
  assert (Hc : coerce old text = VStr text).
  { unfold coerce. now rewrite Hint, Hparse. }
  pose proof (get_value_at _ _ _ _ Hget) as Hat.
  set (w1 := with_data_and_text w (store (bim_data w) loc (fun _ => coerce old text))
               (current_item sel) (current_key sel ++ ": " ++ text)).
  assert (Hsel1 : current w1 = Some sel) by exact Hsel.
  assert (Hget1 : get (bim_data w1) (current_path sel) = Some (VStr text, loc)).
  { rewrite <- Hc. apply get_after_store with (old := old). exact Hget. }
  pose proof (get_value_at _ _ _ _ Hget1) as Hat1.
  exists w1. eexists. split; [exact (commit_resolved w sel old loc text Hsel Hget) |].
  split; [unfold w1; simpl; now rewrite (value_at_store_same _ _ _ _ Hat), Hc |].
  split; [exact (commit_resolved w1 sel (VStr text) loc later Hsel1 Hget1) |].
  simpl. now rewrite (value_at_store_same _ _ _ _ Hat1).
Qed.

Lemma string_sticks_witness :
  exists w1 w2,
    update_model_value rows_window "abc" = Returned w1
    /\ value_at (bim_data w1) [SKey "model"; SKey "tables"; SIdx 0; SKey "rows"]
       = Some (VStr "abc")
    /\ update_model_value w1 "7" = Returned w2
    /\ value_at (bim_data w2) [SKey "model"; SKey "tables"; SIdx 0; SKey "rows"]
       = Some (VStr "7").
Proof.
  apply (string_sticks rows_window (the_selection rows_window) (VInt 42)
           [SKey "model"; SKey "tables"; SIdx 0; SKey "rows"] "abc" "7");
    reflexivity.
Defined.

(** X5.  Committing the text [str] gives for an integer or a string that the
    path resolves to leaves the document as it is. *)
Theorem unchanged_text_keeps_int_and_str (w : window) (sel : selection)
  (old : value) (loc : list step) :
  current w = Some sel ->
  get (bim_data w) (current_path sel) = Some (old, loc) ->
  int_or_str old = true ->
  exists w',
    update_model_value w (Py.str old) = Returned w'
    /\ bim_data w' = bim_data w.
Proof.
  intros Hsel Hget Hold.
  pose proof (get_value_at _ _ _ _ Hget) as Hat.
  eexists. split; [exact (commit_resolved w sel old loc _ Hsel Hget) |].
  simpl. apply store_same_value with (v := old); auto.
  destruct old; try discriminate; unfold coerce; simpl; auto.
  change (DecimalString.NilZero.string_of_int (Z.to_int n)) with (Py.str_of_int n).
  now rewrite int_of_str_of_int.
Qed.

Lemma unchanged_text_keeps_int_and_str_witness :
  exists w',
    update_model_value rows_window (Py.str (VInt 42)) = Returned w'
    /\ bim_data w' = bim_data rows_window.
Proof.
  apply (unchanged_text_keeps_int_and_str rows_window (the_selection rows_window)
           (VInt 42) [SKey "model"; SKey "tables"; SIdx 0; SKey "rows"]);
    reflexivity.
Defined.

(** X6.  Committing the text [str] gives for a null, a boolean, a list or a
    mapping that the path resolves to puts that text, as a string, in the
    place of the value. *)
Theorem unchanged_text_turns_into_string (w : window) (sel : selection)
  (old : value) (loc : list step) :
  current w = Some sel ->
  get (bim_data w) (current_path sel) = Some (old, loc) ->
  int_or_str old = false ->
  exists w',
    update_model_value w (Py.str old) = Returned w'
    /\ value_at (bim_data w') loc = Some (VStr (Py.str old))
    /\ VStr (Py.str old) <> old.
Proof.
  intros Hsel Hget Hold.
  pose proof (get_value_at _ _ _ _ Hget) as Hat.
  eexists. split; [exact (commit_resolved w sel old loc _ Hsel Hget) |].
  simpl. rewrite (value_at_store_same _ _ _ _ Hat).
  split.
  - f_equal. destruct old as [| [|] | | | |]; try discriminate; reflexivity.
  - destruct old; try discriminate.
Qed.

Lemma unchanged_text_turns_into_string_witness :
  exists w',
    update_model_value description_window (Py.str VNone) = Returned w'
    /\ value_at (bim_data w') [SKey "model"; SKey "tables"; SIdx 0; SKey "description"]
       = Some (VStr (Py.str VNone))
    /\ VStr (Py.str VNone) <> VNone.
Proof.
  apply (unchanged_text_turns_into_string description_window
           (the_selection description_window) VNone
           [SKey "model"; SKey "tables"; SIdx 0; SKey "description"]);
    reflexivity.
Defined.

(** X7.  A commit that returns sets the text of the selected item to the key,
    [": "] and the text, keeps the children of that item, and keeps the text
    of every other item; the selection and the form stay. *)
Theorem commit_rewrites_one_label (w : window) (text : string) (w' : window)
  (sel : selection) :
  update_model_value w text = Returned w' ->
  current w = Some sel ->
  (forall it,
      item_at (tree w) (current_item sel) = Some it ->
      item_at (tree w') (current_item sel)
      = Some (Item (current_key sel ++ ": " ++ text) (item_children it)))
  /\ (forall h,
         h <> current_item sel ->
         option_map item_text (item_at (tree w') h)
         = option_map item_text (item_at (tree w) h))
  /\ current w' = Some sel
  /\ form_layout w' = form_layout w.
Proof.
  intros H Hsel.
  destruct (commit_returned _ _ _ H) as [sel' [Hsel' [Ht [Hc [_ Hf]]]]].
  assert (sel' = sel) by congruence. subst sel'.
  rewrite Ht. repeat split.
  - intros it Hit. now apply item_at_setText.
  - intros h Hne. now apply item_at_setText_other.
  - congruence.
  - exact Hf.
Qed.

Lemma commit_rewrites_one_label_witness :
  (forall it,
      item_at (tree rows_window) [1; 0; 3; 0] = Some it ->
      item_at (tree rows7_window) [1; 0; 3; 0]
      = Some (Item "rows: 7" (item_children it)))
  /\ (forall h,
         h <> [1; 0; 3; 0] ->
         option_map item_text (item_at (tree rows7_window) h)
         = option_map item_text (item_at (tree rows_window) h))
  /\ current rows7_window = Some (the_selection rows_window)
  /\ form_layout rows7_window = form_layout rows_window.
Proof.
  apply (commit_rewrites_one_label rows_window "7" rows7_window
           (the_selection rows_window)); reflexivity.
Defined.

(** ** The path of an item *)

Lemma item_down_snoc (tops : list item) (down : list nat) (i : nat) :
  down <> [] ->
  item_down tops (down ++ [i])
  = match item_down tops down with
    | Some parent => nth_error (item_children parent) i
    | None => None
    end.
Proof.
  revert tops. induction down as [| j down IH]; intros tops Hne; [congruence |].
  cbn [app item_down].
  destruct (nth_error tops j) as [it |]; [| now destruct (down ++ [i])%list].
  destruct down as [| k down].
  - cbn [app item_down].
    destruct (nth_error (item_children it) i); reflexivity.
  - rewrite <- IH by discriminate. reflexivity.
Qed.

(** An item that exists and is not at the top level has a parent. *)
Lemma item_at_parent (tops : list item) (i j : nat) (up : handle) (it : item) :
  item_at tops (i :: j :: up) = Some it ->
  exists parent, item_at tops (j :: up) = Some parent.
Proof.
  unfold item_at. cbn [rev]. intros H.
  rewrite item_down_snoc in H by (now destruct (rev up)).
  destruct (item_down tops (rev up ++ [j])) as [p |]; [eauto | discriminate].
Qed.

Lemma get_json_path_loop_cons (tops : list item) (i j : nat) (up : handle)
  (acc : list string) :
  get_json_path_loop tops (i :: j :: up) acc
  = match item_at tops (i :: j :: up) with
    | Some it =>
        get_json_path_loop tops (j :: up) (Py.split_head ": " (item_text it) :: acc)
    | None => None
    end.
Proof. reflexivity. Qed.

Lemma get_json_path_loop_acc (tops : list item) (h : handle) :
  forall acc,
    get_json_path_loop tops h acc
    = option_map (fun path => (path ++ acc)%list) (get_json_path tops h).
Proof.
  unfold get_json_path.
  induction h as [| i up IH]; intros acc; [reflexivity |].
  destruct up as [| j up]; [reflexivity |].
  rewrite !get_json_path_loop_cons.
  destruct (item_at tops (i :: j :: up)) as [it |]; [| reflexivity].
  rewrite (IH (_ :: acc)), (IH [_]).
  destruct (get_json_path_loop tops (j :: up) []) as [p |]; [| reflexivity].
  simpl. now rewrite <- app_assoc.
Qed.

Lemma get_json_path_cons (tops : list item) (i j : nat) (up : handle) :
  get_json_path tops (i :: j :: up)
  = match item_at tops (i :: j :: up) with
    | Some it =>
        option_map
          (fun path => (path ++ [Py.split_head ": " (item_text it)])%list)
          (get_json_path tops (j :: up))
    | None => None
    end.
Proof.
  unfold get_json_path at 1. rewrite get_json_path_loop_cons.
  destruct (item_at tops (i :: j :: up)) as [it |]; [| reflexivity].
  apply get_json_path_loop_acc.
Qed.

(** X8.  The path of a top-level item is empty; the path of any other item is
    the path of its parent followed by the text before the first [": "] of its
    own label. *)
Theorem get_json_path_by_parent (tops : list item) (i j : nat) (up : handle) :
  get_json_path tops [i] = Some []
  /\ get_json_path tops (i :: j :: up)
     = match item_at tops (i :: j :: up) with
       | Some it =>
           option_map
             (fun path => (path ++ [Py.split_head ": " (item_text it)])%list)
             (get_json_path tops (j :: up))
       | None => None
       end.
Proof. split; [reflexivity | apply get_json_path_cons]. Qed.

Lemma item_has_path (tops : list item) (h : handle) (it : item) :
  item_at tops h = Some it ->
  exists path,
    get_json_path tops h = Some path
    /\ List.length path = List.length h - 1
    /\ (2 <= List.length h ->
        last path EmptyString = Py.split_head ": " (item_text it)).
Proof.
  revert it. induction h as [| i up IH]; intros it Hit.
  - exists []. repeat split. simpl. lia.
  - destruct up as [| j up].
    + exists []. repeat split. simpl. lia.
    + destruct (item_at_parent _ _ _ _ _ Hit) as [parent Hp].
      destruct (IH parent Hp) as [pup [Hpup [Hlen _]]].
      pose proof (get_json_path_cons tops i j up) as Heq.
      exists (pup ++ [Py.split_head ": " (item_text it)])%list.
      rewrite Heq, Hit, Hpup. repeat split.
      * rewrite length_app. simpl in *. lia.
      * intros _. now rewrite last_last.
Qed.

(** X9.  Every item of the tree has a path, with one segment for the item and
    one for each of its ancestors but the top-level one; the last segment is
    the text before the first [": "] of the label of the item. *)
Theorem get_json_path_of_item (tops : list item) (h : handle) (it : item) :
  item_at tops h = Some it ->
  exists path,
    get_json_path tops h = Some path
    /\ List.length path = List.length h - 1
    /\ (2 <= List.length h ->
        last path EmptyString = Py.split_head ": " (item_text it)).
Proof. apply item_has_path. Qed.

Lemma get_json_path_of_item_witness :
  exists path,
    get_json_path (tree rows_window) [1; 0; 3; 0] = Some path
    /\ List.length path = List.length [1; 0; 3; 0] - 1
    /\ (2 <= List.length [1; 0; 3; 0] ->
        last path EmptyString = Py.split_head ": " (item_text (Item "rows: 42" []))).
Proof.
  apply (get_json_path_of_item (tree rows_window) [1; 0; 3; 0] (Item "rows: 42" [])).
  reflexivity.
Defined.

(** ** Labels are read back *)

Lemma prefix_nil (s : string) : prefix EmptyString s = true.
Proof. now destruct s. Qed.

Lemma prefix_cons (a b : ascii) (s1 s2 : string) :
  prefix (String a s1) (String b s2)
  = if ascii_dec a b then prefix s1 s2 else false.
Proof. reflexivity. Qed.

Lemma prefix_append (a b : string) : prefix a (a ++ b) = true.
Proof.
  induction a as [| c a IH]; [apply prefix_nil |].
  change (String c a ++ b) with (String c (a ++ b)).
  rewrite prefix_cons.
  destruct (ascii_dec c c); [exact IH | congruence].
Qed.

(** A text that holds the separator is split. *)
Lemma split_once_some (sep a b : string) :
  exists x y, Py.split_once sep (a ++ sep ++ b) = Some (x, y).
Proof.
  induction a as [| c a [x [y IH]]].
  - destruct sep as [| s sep].
    + destruct b; simpl; eauto.
    + change (EmptyString ++ String s sep ++ b) with (String s (sep ++ b)).
      cbn [Py.split_once].
      change (String s (sep ++ b)) with (String s sep ++ b).
      rewrite prefix_append. eauto.
  - change (String c a ++ sep ++ b) with (String c (a ++ sep ++ b)).
    destruct sep as [| s sep].
    + simpl. eauto.
    + cbn [Py.split_once]. rewrite IH.
      destruct (prefix (String s sep) (String c (a ++ String s sep ++ b))); eauto.
Qed.

Lemma no_separator_at_head (c : ascii) (k v : string) :
  prefix ": " (String c k) = false ->
  prefix ": " (String c (k ++ ": " ++ v)) = false.
Proof.
  rewrite !prefix_cons.
  destruct (ascii_dec ":" c) as [<- | Hc]; [| reflexivity].
  destruct k as [| d k].
  - intros _. change (EmptyString ++ ": " ++ v) with (String ":" (String " " v)).
    rewrite prefix_cons. now destruct (ascii_dec " " ":").
  - change (String d k ++ ": " ++ v) with (String d (k ++ ": " ++ v)).
    rewrite !prefix_cons.
    destruct (ascii_dec " " d); [| reflexivity].
    now rewrite prefix_nil.
Qed.

Lemma separator_at_head (v : string) :
  prefix ": " (String ":" (String " " v)) = true.
Proof.
  rewrite !prefix_cons.
  destruct (ascii_dec ":" ":"); [| congruence].
  destruct (ascii_dec " " " "); [| congruence].
  apply prefix_nil.
Qed.

(** The label of a leaf is split into the key and the text of the value,
    when the key does not hold the separator itself. *)
Lemma split_once_label (k v : string) :
  Py.str_contains ": " k = false ->
  Py.split_once ": " (k ++ ": " ++ v) = Some (k, v).
Proof.
  induction k as [| c k IH]; intros H.
  - change (EmptyString ++ ": " ++ v) with (String ":" (String " " v)).
    cbn [Py.split_once]. rewrite separator_at_head. reflexivity.
  - change (String c k ++ ": " ++ v) with (String c (k ++ ": " ++ v)).
    cbn [Py.str_contains] in H. apply orb_false_iff in H. destruct H as [Hp Hk].
    cbn [Py.split_once].
    rewrite (no_separator_at_head c k v Hp), (IH Hk). reflexivity.
Qed.

(** X10.  A click on an item whose label is a key without [": "], then [": "],
    then a text, makes the item the current one: the key and the text, both
    without the whitespace around them, go to the form, and the path is the
    one [get_json_path] gives.  The document and the tree stay. *)
Theorem click_reads_label (w : window) (h : handle) (k v : string)
  (children : list item) :
  item_at (tree w) h = Some (Item (k ++ ": " ++ v) children) ->
  Py.str_contains ": " k = false ->
  exists path,
    get_json_path (tree w) h = Some path
    /\ on_tree_item_click w h
       = Some {| bim_data := bim_data w;
                 file_path := file_path w;
                 tree := tree w;
                 current := Some {| current_key := Py.strip k;
                                    current_item := h;
                                    current_path := path |};
                 form_layout := Some (Py.strip k, Py.strip v) |}.
Proof.
  intros Hit Hk.
  destruct (item_has_path _ _ _ Hit) as [path [Hpath _]].
  exists path. split; [exact Hpath |].
  unfold on_tree_item_click. rewrite Hit. cbn [item_text].
  now rewrite (split_once_label k v Hk), Hpath.
Qed.

Lemma click_reads_label_witness :
  exists path,
    get_json_path (tree rows_window) [1; 0; 3; 0] = Some path
    /\ on_tree_item_click rows_window [1; 0; 3; 0]
       = Some {| bim_data := bim_data rows_window;
                 file_path := file_path rows_window;
                 tree := tree rows_window;
                 current := Some {| current_key := Py.strip "rows";
                                    current_item := [1; 0; 3; 0];
                                    current_path := path |};
                 form_layout := Some (Py.strip "rows", Py.strip "42") |}.
Proof.
  apply (click_reads_label rows_window [1; 0; 3; 0] "rows" "42" []); reflexivity.
Defined.

(** ** Loops that may raise *)

Lemma mapM_Forall2 {A B : Type} (f : A -> result B) (l : list A) :
  forall l', mapM f l = Ok l' -> Forall2 (fun a b => f a = Ok b) l l'.
Proof.
  induction l as [| a l IH]; intros l' H; simpl in H.
  - injection H as <-. constructor.
  - destruct (f a) as [b |] eqn:E; try discriminate. simpl in H.
    destruct (mapM f l) as [bs |]; try discriminate. simpl in H.
    injection H as <-. constructor; auto.
Qed.

Lemma mapM_ok {A B : Type} (f : A -> result B) (l : list A) :
  (exists l', mapM f l = Ok l') <-> Forall (fun a => exists b, f a = Ok b) l.
Proof.
  split.
  - intros [l' H]. apply mapM_Forall2 in H.
    induction H; constructor; eauto.
  - induction 1 as [| a l [b Hb] Hl [bs IH]]; simpl; [eauto |].
    rewrite Hb. simpl. rewrite IH. simpl. eauto.
Qed.

(** ** load_tree and add_sublevel *)

Lemma item_node_ok (it : value) (nd : item) :
  item_node it = Ok nd ->
  exists pairs label,
    it = VDict pairs
    /\ label_of pairs = VStr label
    /\ nd = Item label (map (fun kv => leaf (fst kv) (snd kv)) pairs).
Proof.
  unfold item_node, label_of, or_default. destruct it; try discriminate. simpl.
  destruct (Py.dict_get "name" pairs) as [[| | | s | |] |] eqn:E; try discriminate;
    intros H; injection H as <-; do 2 eexists; repeat split; now rewrite E.
Qed.

Lemma item_node_named (it : value) :
  (exists nd, item_node it = Ok nd) <-> named_dict it = true.
Proof.
  unfold item_node, named_dict. destruct it; simpl;
    try (split; [intros [nd H] |]; discriminate).
  destruct (Py.dict_get "name" pairs) as [[| | | s | |] |]; simpl;
    split; try discriminate; try (intros [nd H]; discriminate); eauto.
Qed.

Lemma add_sublevel_ok (key : string) (items : value) :
  (exists nd, add_sublevel key items = Ok nd) <-> shown_ok items = true.
Proof.
  unfold add_sublevel, shown_ok.
  destruct (Py.iter items) as [elems |]; simpl;
    [| split; [intros [nd H] |]; discriminate].
  rewrite forallb_forall.
  split.
  - intros [nd H]. destruct (mapM item_node elems) as [nodes |] eqn:E; try discriminate.
    assert (Hall : exists l', mapM item_node elems = Ok l') by eauto.
    apply mapM_ok in Hall. rewrite Forall_forall in Hall.
    intros x Hx. apply item_node_named. auto.
  - intros H.
    assert (Hall : Forall (fun a => exists b, item_node a = Ok b) elems).
    { apply Forall_forall. intros x Hx. apply item_node_named. auto. }
    apply mapM_ok in Hall. destruct Hall as [nodes Hn].
    rewrite Hn. simpl. eauto.
Qed.

Lemma sublevel_of_ok (pairs : list (string * value)) (coll : string) :
  (exists nd, sublevel_of (VDict pairs) coll = Ok nd)
  <-> match or_default (Py.dict_get "model" pairs) (VDict []) with
      | VDict mpairs => shown_ok (or_default (Py.dict_get coll mpairs) (VList [])) = true
      | _ => False
      end.
Proof.
  unfold sublevel_of, or_default. simpl.
  destruct (Py.dict_get "model" pairs) as [m |]; simpl.
  - destruct m; simpl; try (split; [intros [nd H]; discriminate | contradiction]).
    apply add_sublevel_ok.
  - apply add_sublevel_ok.
Qed.

Lemma load_tree_dict (pairs : list (string * value)) :
  load_tree (VDict pairs)
  = match mapM (sublevel_of (VDict pairs)) sublevels with
    | Ok groups =>
        Ok [Item "Model"
              (leaf "name" (or_default (Py.dict_get "name" pairs) (VStr EmptyString))
                 :: leaf "compatibilityLevel"
                      (or_default (Py.dict_get "compatibilityLevel" pairs)
                         (VStr EmptyString))
                 :: groups)]
    | Raise e => Raise e
    end.
Proof. reflexivity. Qed.

Lemma load_tree_ok (bim : value) :
  (exists tops, load_tree bim = Ok tops) <-> loadable bim = true.
Proof.
  destruct bim; try (split; [intros [tops H] |]; discriminate).
  rewrite load_tree_dict. unfold loadable.
  split.
  - intros [tops H].
    destruct (mapM (sublevel_of (VDict pairs)) sublevels) as [subs |] eqn:E;
      try discriminate.
    assert (Hall : exists l', mapM (sublevel_of (VDict pairs)) sublevels = Ok l') by eauto.
    apply mapM_ok in Hall. rewrite Forall_forall in Hall.
    assert (Ht : In "tables" sublevels) by (unfold sublevels; simpl; tauto).
    pose proof (proj1 (sublevel_of_ok pairs "tables") (Hall _ Ht)) as Hm.
    destruct (or_default (Py.dict_get "model" pairs) (VDict [])) eqn:Em;
      try contradiction.
    apply forallb_forall. intros coll Hin.
    specialize (Hall coll Hin). apply sublevel_of_ok in Hall. now rewrite Em in Hall.
  - intros H.
    assert (Hall : Forall (fun a => exists b, sublevel_of (VDict pairs) a = Ok b) sublevels).
    { apply Forall_forall. intros coll Hin. apply sublevel_of_ok.
      destruct (or_default (Py.dict_get "model" pairs) (VDict [])); try discriminate.
      rewrite forallb_forall in H. auto. }
    apply mapM_ok in Hall. destruct Hall as [subs Hs].
    rewrite Hs. eauto.
Qed.


Lemma add_sublevel_text (key : string) (items : value) (nd : item) :
  add_sublevel key items = Ok nd -> item_text nd = key.
Proof.
  unfold add_sublevel. destruct (Py.iter items); try discriminate. simpl.
  destruct (mapM item_node a); try discriminate. simpl.
  intros H. now injection H as <-.
Qed.

Lemma sublevel_of_text (bim : value) (key : string) (nd : item) :
  sublevel_of bim key = Ok nd -> item_text nd = key.
Proof.
  unfold sublevel_of.
  destruct (Py.get_default bim "model" (VDict [])) as [m |]; try discriminate. simpl.
  destruct (Py.get_default m key (VList [])) as [items |]; try discriminate. simpl.
  apply add_sublevel_text.
Qed.

Lemma load_tree_groups (bim : value) (tops : list item) :
  load_tree bim = Ok tops ->
  exists pairs groups,
    bim = VDict pairs
    /\ mapM (sublevel_of bim) sublevels = Ok groups
    /\ tops = [Item "Model"
                 (leaf "name" (or_default (Py.dict_get "name" pairs) (VStr EmptyString))
                    :: leaf "compatibilityLevel"
                         (or_default (Py.dict_get "compatibilityLevel" pairs)
                            (VStr EmptyString))
                    :: groups)].
Proof.
  destruct bim; try discriminate. rewrite load_tree_dict.
  destruct (mapM (sublevel_of (VDict pairs)) sublevels) as [subs |] eqn:E;
    try discriminate.
  intros H. injection H as <-.
  exists pairs, subs. repeat split.
Qed.

(** X12.  The tree [load_tree] builds has one top-level item, [Model].  Its
    children are the leaf of [name], the leaf of [compatibilityLevel], each
    showing the root-level value or nothing when the key is missing, and then
    one node for each of the six collections, labelled with the key of the
    collection, in the order of the code. *)
Theorem load_tree_shape (bim : value) (tops : list item) :
  load_tree bim = Ok tops ->
  exists pairs groups,
    bim = VDict pairs
    /\ tops = [Item "Model"
                 (Item ("name: "
                          ++ Py.str (or_default (Py.dict_get "name" pairs)
                                       (VStr EmptyString))) []
                    :: Item ("compatibilityLevel: "
                               ++ Py.str (or_default
                                            (Py.dict_get "compatibilityLevel" pairs)
                                            (VStr EmptyString))) []
                    :: groups)]
    /\ map item_text groups
       = ["dataSources"; "tables"; "relationships"; "perspectives"; "annotations";
          "translations"].
Proof.
  intros H. destruct (load_tree_groups _ _ H) as [pairs [groups [-> [Hg ->]]]].
  exists pairs, groups. repeat split.
  apply mapM_Forall2 in Hg. clear H.
  change ["dataSources"; "tables"; "relationships"; "perspectives"; "annotations";
          "translations"] with sublevels.
  induction Hg as [| coll nd l l' Hnd Hl IH]; simpl; [reflexivity |].
  now rewrite (sublevel_of_text _ _ _ Hnd), IH.
Qed.

Lemma load_tree_shape_witness :
  exists pairs groups,
    sales_doc = VDict pairs
    /\ tree root_name_window
       = [Item "Model"
            (Item ("name: "
                     ++ Py.str (or_default (Py.dict_get "name" pairs)
                                  (VStr EmptyString))) []
               :: Item ("compatibilityLevel: "
                          ++ Py.str (or_default
                                       (Py.dict_get "compatibilityLevel" pairs)
                                       (VStr EmptyString))) []
               :: groups)]
    /\ map item_text groups
       = ["dataSources"; "tables"; "relationships"; "perspectives"; "annotations";
          "translations"].
Proof.
  apply (load_tree_shape sales_doc (tree root_name_window)). reflexivity.
Defined.

(** X13.  For a document without [model], [load_tree] shows the two root-level
    leaves and six empty collections. *)
Theorem load_tree_without_model (pairs : list (string * value)) :
  Py.dict_get "model" pairs = None ->
  load_tree (VDict pairs)
  = Ok [Item "Model"
          [Item ("name: "
                   ++ Py.str (or_default (Py.dict_get "name" pairs)
                                (VStr EmptyString))) [];
           Item ("compatibilityLevel: "
                   ++ Py.str (or_default (Py.dict_get "compatibilityLevel" pairs)
                                (VStr EmptyString))) [];
           Item "dataSources" []; Item "tables" []; Item "relationships" [];
           Item "perspectives" []; Item "annotations" []; Item "translations" []]].
Proof.
  intros Hm. rewrite load_tree_dict.
  unfold sublevel_of, sublevels. cbn [mapM Py.get_default bind]. rewrite Hm.
  reflexivity.
Qed.

Lemma load_tree_without_model_witness :
  load_tree (VDict [("compatibilityLevel", VInt 1200)])
  = Ok [Item "Model"
          [Item ("name: "
                   ++ Py.str (or_default
                                (Py.dict_get "name" [("compatibilityLevel", VInt 1200)])
                                (VStr EmptyString))) [];
           Item ("compatibilityLevel: "
                   ++ Py.str (or_default
                                (Py.dict_get "compatibilityLevel"
                                   [("compatibilityLevel", VInt 1200)])
                                (VStr EmptyString))) [];
           Item "dataSources" []; Item "tables" []; Item "relationships" [];
           Item "perspectives" []; Item "annotations" []; Item "translations" []]].
Proof.
  apply (load_tree_without_model [("compatibilityLevel", VInt 1200)]). reflexivity.
Defined.



(** ** Keys stay unique *)

Lemma existsb_dict_set (k k' : string) (v : value) (pairs : list (string * value)) :
  String.eqb k' k = false ->
  existsb (String.eqb k') (map fst (Py.dict_set k v pairs))
  = existsb (String.eqb k') (map fst pairs).
Proof.
  intros Hne. induction pairs as [| [k0 v0] pairs IH]; simpl.
  - now rewrite Hne.
  - destruct (String.eqb k k0) eqn:E; simpl.
    + apply String.eqb_eq in E. subst k0. reflexivity.
    + now rewrite IH.
Qed.

Lemma distinct_dict_set (k : string) (v : value) (pairs : list (string * value)) :
  distinct (map fst pairs) = true ->
  distinct (map fst (Py.dict_set k v pairs)) = true.
Proof.
  induction pairs as [| [k0 v0] pairs IH]; simpl; auto.
  intros H. apply andb_prop in H. destruct H as [Hf Hd].
  destruct (String.eqb k k0) eqn:E; simpl.
  - apply String.eqb_eq in E. subst k0. now rewrite Hf, Hd.
  - rewrite IH by assumption.
    rewrite existsb_dict_set; [now rewrite Hf |].
    rewrite String.eqb_sym. exact E.
Qed.

Lemma forallb_dict_set (p : value -> bool) (k : string) (v : value)
  (pairs : list (string * value)) :
  p v = true ->
  forallb (fun kv => p (snd kv)) pairs = true ->
  forallb (fun kv => p (snd kv)) (Py.dict_set k v pairs) = true.
Proof.
  intros Hv. induction pairs as [| [k0 v0] pairs IH]; simpl.
  - now rewrite Hv.
  - intros H. apply andb_prop in H. destruct H as [H0 Hr].
    destruct (String.eqb k k0); simpl.
    + now rewrite Hv, Hr.
    + now rewrite H0, IH.
Qed.

Lemma forallb_update_nth {A : Type} (p : A -> bool) (f : A -> A) (l : list A) :
  (forall a, p a = true -> p (f a) = true) ->
  forall i, forallb p l = true -> forallb p (update_nth i f l) = true.
Proof.
  intros Hf. induction l as [| a l IH]; intros i H; [now destruct i |].
  simpl in H. apply andb_prop in H. destruct H as [Ha Hl].
  destruct i as [| i]; simpl.
  - now rewrite (Hf a Ha), Hl.
  - now rewrite Ha, IH.
Qed.

Lemma unique_keys_dict_set (k : string) (v : value) (pairs : list (string * value)) :
  unique_keys v = true ->
  unique_keys (VDict pairs) = true ->
  unique_keys (VDict (Py.dict_set k v pairs)) = true.
Proof.
  intros Hv H. cbn [unique_keys] in *.
  apply andb_prop in H. destruct H as [Hd Hf].
  rewrite distinct_dict_set by assumption.
  now rewrite (forallb_dict_set unique_keys).
Qed.

Lemma forallb_dict_get (p : value -> bool) (k : string) (v : value)
  (pairs : list (string * value)) :
  forallb (fun kv => p (snd kv)) pairs = true ->
  Py.dict_get k pairs = Some v -> p v = true.
Proof.
  induction pairs as [| [k0 v0] pairs IH]; simpl; [discriminate |].
  intros H. apply andb_prop in H. destruct H as [H0 Hr].
  destruct (String.eqb k k0); [intros E; injection E as <-; exact H0 | auto].
Qed.

(** A store keeps the keys of every mapping unique when the stored value
    does. *)
Lemma unique_keys_store (loc : list step) (f : value -> value) :
  (forall v, unique_keys v = true -> unique_keys (f v) = true) ->
  forall root, unique_keys root = true -> unique_keys (store root loc f) = true.
Proof.
  intros Hf. induction loc as [| [k | i] loc IH]; intros root Hu; cbn [store]; auto.
  - destruct root; auto.
    destruct (Py.dict_get k pairs) as [v |] eqn:E; auto.
    apply unique_keys_dict_set; auto.
    apply IH. cbn [unique_keys] in Hu. apply andb_prop in Hu.
    eapply (forallb_dict_get unique_keys); [apply Hu | exact E].
  - destruct root; auto. cbn [unique_keys] in *.
    apply forallb_update_nth; auto.
Qed.

Lemma unique_keys_coerce (old : value) (text : string) :
  unique_keys (coerce old text) = true.
Proof.
  unfold coerce. destruct (Py.isinstance_int old); [| reflexivity].
  now destruct (Py.int_of_str text).
Qed.

(** ** What the parser returns *)

Lemma unique_keys_fold (pairs : list (string * value)) :
  forall acc,
    forallb (fun kv => unique_keys (snd kv)) pairs = true ->
    unique_keys (VDict acc) = true ->
    unique_keys
      (VDict (fold_left (fun dict kv => Py.dict_set (fst kv) (snd kv) dict) pairs acc))
    = true.
Proof.
  induction pairs as [| [k v] pairs IH]; intros acc Hp Ha; [exact Ha |].
  simpl in Hp. apply andb_prop in Hp. destruct Hp as [Hv Hp].
  cbn [fold_left fst snd]. apply IH; [exact Hp |].
  now apply unique_keys_dict_set.
Qed.

Lemma scan_unique_keys (fuel : nat) :
  (forall s v rest, Json.scan_once fuel s = Some (v, rest) -> unique_keys v = true)
  /\ (forall s values rest,
         Json.array_loop fuel s = Some (values, rest) ->
         forallb unique_keys values = true)
  /\ (forall s pairs rest,
         Json.object_loop fuel s = Some (pairs, rest) ->
         forallb (fun kv => unique_keys (snd kv)) pairs = true).
Proof.
  induction fuel as [| fuel [IHs [IHa IHo]]]; [repeat split; discriminate |].
  repeat split.
  - intros s v rest H. cbn [Json.scan_once] in H.
    destruct s as [| c s']; [discriminate |].
    destruct (c =? Py.dquote)%char.
    { destruct (Json.scanstring s') as [[str r] |]; [| discriminate].
      now injection H as <- _. }
    destruct (c =? "{")%char.
    { destruct (Json.skip_ws s') as [| d r]; [discriminate |].
      destruct (d =? "}")%char; [now injection H as <- _ |].
      destruct (d =? Py.dquote)%char; [| discriminate].
      destruct (Json.object_loop fuel r) as [[pairs rest'] |] eqn:E; [| discriminate].
      injection H as <- _. apply unique_keys_fold; [eapply IHo; eauto | reflexivity]. }
    destruct (c =? "[")%char.
    { destruct (Json.skip_ws s') as [| d r]; [discriminate |].
      destruct (d =? "]")%char; [now injection H as <- _ |].
      destruct (Json.array_loop fuel (String d r)) as [[values rest'] |] eqn:E;
        [| discriminate].
      injection H as <- _. cbn [unique_keys]. eapply IHa; eauto. }
    destruct (prefix "null" (String c s')); [now injection H as <- _ |].
    destruct (prefix "true" (String c s')); [now injection H as <- _ |].
    destruct (prefix "false" (String c s')); [now injection H as <- _ |].
    destruct (Json.match_number (String c s')) as [[n r] |]; [| discriminate].
    now injection H as <- _.
  - intros s values rest H. cbn [Json.array_loop] in H.
    destruct (Json.scan_once fuel s) as [[v r] |] eqn:E; [| discriminate].
    apply IHs in E.
    destruct (Json.skip_ws r) as [| d r']; [discriminate |].
    destruct (d =? "]")%char; [injection H as <- _; simpl; now rewrite E |].
    destruct (d =? ",")%char; [| discriminate].
    destruct (Json.array_loop fuel (Json.skip_ws r')) as [[vs rest'] |] eqn:Ea;
      [| discriminate].
    injection H as <- _. simpl. rewrite E. eapply IHa; eauto.
  - intros s pairs rest H. cbn [Json.object_loop] in H.
    destruct (Json.scanstring s) as [[key r] |]; [| discriminate].
    destruct (Json.skip_ws r) as [| c1 r1]; [discriminate |].
    destruct c1 as [[|] [|] [|] [|] [|] [|] [|] [|]]; try discriminate.
    destruct (Json.scan_once fuel (Json.skip_ws r1)) as [[v r2] |] eqn:E;
      [| discriminate].
    apply IHs in E.
    destruct (Json.skip_ws r2) as [| d r3]; [discriminate |].
    destruct (d =? "}")%char; [injection H as <- _; simpl; now rewrite E |].
    destruct (d =? ",")%char; [| discriminate].
    destruct (Json.skip_ws r3) as [| q r4]; [discriminate |].
    destruct (q =? Py.dquote)%char; [| discriminate].
    destruct (Json.object_loop fuel r4) as [[ps rest'] |] eqn:Eo; [| discriminate].
    injection H as <- _. simpl. rewrite E. eapply IHo; eauto.
Qed.

Lemma loads_unique (s : string) (v : value) :
  Json.loads s = Some v -> unique_keys v = true.
Proof.
  unfold Json.loads.
  destruct (Json.scan_once (S (String.length s)) (Json.skip_ws s)) as [[v' rest] |] eqn:E;
    [| discriminate].
  destruct (Json.skip_ws rest); [| discriminate].
  intros H. injection H as <-.
  eapply (proj1 (scan_unique_keys _)); eauto.
Qed.

(** ** A commit keeps the document loadable *)

Lemma named_dict_store (e : value) (r : list step) (last : string) (old : value)
  (text : string) :
  named_dict e = true ->
  value_at e (r ++ [SKey last]) = Some old ->
  named_dict (store e (r ++ [SKey last]) (fun _ => coerce old text)) = true.
Proof.
  intros Hn Hat. destruct e; try discriminate.
  destruct r as [| [k | i] r]; cbn [app store value_at] in *.
  - destruct (Py.dict_get last pairs) as [v |] eqn:E; [| exact Hn].
    injection Hat as ->. cbn [named_dict] in *.
    destruct (String.eqb_spec "name" last) as [<- | Hne].
    + rewrite dict_get_set_same. rewrite E in Hn.
      destruct old; try discriminate. reflexivity.
    + rewrite dict_get_set_other by congruence. exact Hn.
  - destruct (Py.dict_get k pairs) as [v |] eqn:E; [| exact Hn].
    cbn [named_dict] in *.
    destruct (String.eqb_spec "name" k) as [<- | Hne].
    + rewrite dict_get_set_same. rewrite E in Hn.
      destruct v; try discriminate.
      now destruct r as [| [k' | i'] r].
    + rewrite dict_get_set_other by congruence. exact Hn.
  - exact Hn.
Qed.

Lemma shown_ok_dict (pairs : list (string * value)) :
  shown_ok (VDict pairs) = true -> pairs = [].
Proof.
  unfold shown_ok. cbn [Py.iter]. destruct pairs as [| [k v] pairs]; [reflexivity |].
  discriminate.
Qed.

Lemma shown_ok_store (c : value) (r : list step) (last : string) (old : value)
  (text : string) :
  shown_ok c = true ->
  value_at c (r ++ [SKey last]) = Some old ->
  shown_ok (store c (r ++ [SKey last]) (fun _ => coerce old text)) = true.
Proof.
  intros Hs Hat. destruct c; try discriminate.
  - now destruct r as [| [k | i] r].
  - destruct r as [| [k | i] r]; cbn [app store value_at] in *; try exact Hs.
    destruct (nth_error items i) as [e |] eqn:E; [| discriminate].
    unfold shown_ok in *. cbn [Py.iter] in *.
    rewrite forallb_forall in *. intros x Hx.
    apply In_nth_error in Hx. destruct Hx as [j Hj].
    destruct (Nat.eq_dec i j) as [<- | Hne].
    + rewrite nth_error_update_nth_same, E in Hj. injection Hj as <-.
      destruct r as [| s r].
      * cbn [app] in *. apply (named_dict_store e [] last old text); auto.
        apply Hs. eapply nth_error_In; eauto.
      * apply (named_dict_store e (s :: r) last old text); auto.
        apply Hs. eapply nth_error_In; eauto.
    + rewrite nth_error_update_nth_other in Hj by assumption.
      apply Hs. eapply nth_error_In; eauto.
  - apply shown_ok_dict in Hs. subst pairs.
    now destruct r as [| [k | i] r].
Qed.

Lemma in_sublevels (k : string) :
  existsb (String.eqb k) sublevels = false -> forall coll, In coll sublevels -> k <> coll.
Proof.
  intros H coll Hin <-.
  assert (existsb (String.eqb k) sublevels = true); [| congruence].
  apply existsb_exists. exists k. split; [exact Hin | apply String.eqb_refl].
Qed.

Lemma loadable_store (bim : value) (r : list step) (last : string) (old : value)
  (text : string) :
  loadable bim = true ->
  value_at bim (SKey "model" :: r ++ [SKey last]) = Some old ->
  (r = [] -> existsb (String.eqb last) sublevels = false) ->
  loadable (store bim (SKey "model" :: r ++ [SKey last]) (fun _ => coerce old text))
  = true.
Proof.
  intros Hl Hat Hr. destruct bim; try discriminate.
  cbn [store value_at] in *.
  destruct (Py.dict_get "model" pairs) as [m |] eqn:Em; [| discriminate].
  unfold loadable in *. rewrite dict_get_set_same. rewrite Em in Hl.
  cbn [or_default] in *.
  destruct m; try discriminate. rename pairs0 into mpairs.
  rewrite forallb_forall in Hl.
  destruct r as [| [coll | i] r]; cbn [app store value_at] in *; [| | discriminate].
  - destruct (Py.dict_get last mpairs) as [v |] eqn:E; [| discriminate].
    apply forallb_forall. intros coll Hin.
    rewrite dict_get_set_other by (apply in_sublevels; auto).
    now apply Hl.
  - destruct (Py.dict_get coll mpairs) as [c |] eqn:E; [| discriminate].
    apply forallb_forall. intros coll' Hin.
    destruct (String.eqb_spec coll coll') as [<- | Hne].
    + rewrite dict_get_set_same. cbn [or_default].
      apply shown_ok_store; [| exact Hat].
      specialize (Hl coll Hin). now rewrite E in Hl.
    + rewrite dict_get_set_other by assumption. now apply Hl.
Qed.

(** The loop takes one step for each key. *)
Lemma traverse_length (keys : list string) :
  forall model steps m steps',
    traverse model keys steps = Reached m steps' ->
    List.length steps' = List.length steps + List.length keys.
Proof.
  induction keys as [| key keys IH]; intros model steps m steps' H; simpl in H.
  - injection H as _ <-. simpl. lia.
  - destruct (Py.isdigit key).
    + destruct (Py.int_of_str key) as [n |]; try discriminate.
      destruct (Py.getindex model (Z.to_nat n)); try discriminate.
      apply IH in H. rewrite length_app in H. simpl in *. lia.
    + destruct (Py.contains key model) as [[|] |]; try discriminate.
      destruct (Py.getitem model key); try discriminate.
      apply IH in H. rewrite length_app in H. simpl in *. lia.
Qed.

Lemma length_removelast_one {A : Type} (l : list A) :
  List.length (removelast l) = List.length l - 1.
Proof.
  induction l as [| a [| b l] IH]; [reflexivity | reflexivity |].
  change (removelast (a :: b :: l)) with (a :: removelast (b :: l)).
  cbn [List.length] in *. lia.
Qed.

(** The place a lookup ends at: under [model], through one step for each
    segment but the last, at the key that is the last segment. *)
Lemma get_location (bim : value) (path : list string) (old : value) (loc : list step) :
  get bim path = Some (old, loc) ->
  exists r last,
    loc = SKey "model" :: (r ++ [SKey last])%list
    /\ List.length r = List.length path - 1
    /\ last_key_of path = Ok last.
Proof.
  unfold get.
  destruct (Py.getitem bim "model") as [model |]; [| discriminate].
  destruct (traverse model (removelast path) [SKey "model"]) as [m steps | |] eqn:Et;
    try discriminate.
  destruct (last_key_of path) as [last |] eqn:El; [| discriminate].
  destruct (Py.contains last m) as [[|] |]; try discriminate.
  destruct (Py.getitem m last) as [v |]; [| discriminate].
  intros H. injection H as _ <-.
  destruct (traverse_steps _ _ _ _ _ Et) as [more ->].
  apply traverse_length in Et. rewrite length_app in Et.
  exists more, last. repeat split.
  rewrite length_removelast_one in Et. simpl in Et. lia.
Qed.

Lemma loadable_commit (bim : value) (path : list string) (old : value)
  (loc : list step) (text : string) :
  loadable bim = true ->
  single_collection path = false ->
  get bim path = Some (old, loc) ->
  loadable (store bim loc (fun _ => coerce old text)) = true.
Proof.
  intros Hl Hp Hget.
  pose proof (get_value_at _ _ _ _ Hget) as Hat.
  destruct (get_location _ _ _ _ Hget) as [r [last [-> [Hlen Hlast]]]].
  apply loadable_store; auto.
  intros ->. destruct path as [| k [| k' path]]; simpl in *; try discriminate; try lia.
  now injection Hlast as <-.
Qed.

(** ** The window after the load *)

Lemma groups_text (bim : value) (colls : list string) (groups : list item) :
  mapM (sublevel_of bim) colls = Ok groups -> map item_text groups = colls.
Proof.
  intros H. apply mapM_Forall2 in H.
  induction H as [| coll nd l l' Hnd Hl IH]; simpl; [reflexivity |].
  now rewrite (sublevel_of_text _ _ _ Hnd), IH.
Qed.

Lemma tree_ok_loaded (bim : value) (tops : list item) :
  load_tree bim = Ok tops -> tree_ok tops.
Proof.
  intros H. destruct (load_tree_groups _ _ H) as [pairs [groups [-> [Hg ->]]]].
  unfold tree_ok, leaf. do 6 eexists. split; [reflexivity |].
  eapply groups_text; eauto.
Qed.

Lemma window_of_ok (bim : value) (path : string) (w : window) :
  window_of bim path = Ok w ->
  load_tree bim = Ok (tree w)
  /\ bim_data w = bim /\ file_path w = path
  /\ current w = None /\ form_layout w = None.
Proof.
  unfold window_of. destruct (load_tree bim) as [tops |]; [| discriminate].
  simpl. intros H. injection H as <-. repeat split.
Qed.

Lemma window_ok_loaded (bim : value) (path : string) (w : window) :
  unique_keys bim = true -> window_of bim path = Ok w -> window_ok w.
Proof.
  intros Hu H. destruct (window_of_ok _ _ _ H) as [Ht [Hb [_ [Hc _]]]].
  unfold window_ok. rewrite Hb, Hc. repeat split; auto.
  - apply load_tree_ok. eauto.
  - eapply tree_ok_loaded; eauto.
Qed.

(** ** Clicks *)

Lemma click_cases (w w' : window) (h : handle) :
  on_tree_item_click w h = Some w' ->
  bim_data w' = bim_data w /\ tree w' = tree w /\ file_path w' = file_path w
  /\ (current w' = current w
      \/ exists it key text path,
          item_at (tree w) h = Some it
          /\ Py.split_once ": " (item_text it) = Some (key, text)
          /\ get_json_path (tree w) h = Some path
          /\ current w' = Some {| current_key := Py.strip key;
                                  current_item := h;
                                  current_path := path |}).
Proof.
  unfold on_tree_item_click.
  destruct (item_at (tree w) h) as [it |] eqn:Hit; [| discriminate].
  destruct (Py.split_once ": " (item_text it)) as [[key text] |] eqn:Hs.
  - destruct (get_json_path (tree w) h) as [path |] eqn:Hp; [| discriminate].
    intros H. injection H as <-. repeat split. right.
    exists it, key, text, path. repeat split; assumption.
  - intros H. injection H as <-. repeat split. now left.
Qed.

Lemma split_name (v : string) :
  Py.split_once ": " ("name: " ++ v) = Some ("name", v).
Proof. now apply (split_once_label "name" v). Qed.

Lemma split_level (v : string) :
  Py.split_once ": " ("compatibilityLevel: " ++ v) = Some ("compatibilityLevel", v).
Proof. now apply (split_once_label "compatibilityLevel" v). Qed.

Lemma split_sublevel (coll : string) :
  In coll sublevels -> Py.split_once ": " coll = None.
Proof.
  unfold sublevels. simpl.
  intros [<- | [<- | [<- | [<- | [<- | [<- | []]]]]]]; reflexivity.
Qed.

Lemma nth_error_map_text (groups : list item) (i : nat) (it : item) :
  nth_error groups i = Some it -> In (item_text it) (map item_text groups).
Proof.
  intros H. apply in_map. eapply nth_error_In; eauto.
Qed.

Lemma sel_ok_click (tops : list item) (h : handle) (it : item) (key text : string)
  (path : list string) :
  tree_ok tops ->
  item_at tops h = Some it ->
  Py.split_once ": " (item_text it) = Some (key, text) ->
  get_json_path tops h = Some path ->
  sel_ok {| current_key := Py.strip key; current_item := h; current_path := path |}.
Proof.
  intros [m [v1 [c1 [v2 [c2 [groups [-> Hg]]]]]]] Hit Hs Hp.
  unfold sel_ok, top_key. cbn [current_key current_item current_path].
  destruct h as [| i [| t [| j up]]].
  - discriminate.
  - injection Hp as <-. split; [reflexivity | discriminate].
  - rewrite get_json_path_cons, Hit in Hp. injection Hp as <-. cbn [app].
    unfold item_at in Hit. cbn [rev app item_down] in Hit.
    destruct t as [| t]; [| now destruct t].
    cbn [nth_error item_children] in Hit.
    destruct i as [| [| i]]; cbn [nth_error] in Hit.
    + assert (Hi : Item ("name: " ++ v1) c1 = it) by congruence.
      subst it. cbv beta iota delta [item_text] in Hs |- *.
      rewrite split_name in Hs. injection Hs as <- <-.
      unfold Py.split_head. rewrite split_name.
      split; [reflexivity |]. intros i t E. injection E as <- <-. now left.
    + assert (Hi : Item ("compatibilityLevel: " ++ v2) c2 = it) by congruence.
      subst it. cbv beta iota delta [item_text] in Hs |- *.
      rewrite split_level in Hs. injection Hs as <- <-.
      unfold Py.split_head. rewrite split_level.
      split; [reflexivity |]. intros i t E. injection E as <- <-. now right.
    + destruct (nth_error groups i) as [it' |] eqn:Ei; [| discriminate].
      assert (it' = it) by congruence. subst it'.
      apply nth_error_map_text in Ei. rewrite Hg in Ei.
      apply split_sublevel in Ei. congruence.
  - destruct (item_has_path _ _ _ Hit) as [path' [Hp' [Hlen _]]].
    assert (path' = path) by congruence. subst path'.
    split; [| discriminate].
    destruct path as [| a [| b path]]; simpl in Hlen; try lia. reflexivity.
Qed.

Lemma window_ok_click (w w' : window) (h : handle) :
  window_ok w -> on_tree_item_click w h = Some w' -> window_ok w'.
Proof.
  intros [Hl [Hu [Ht Hsel]]] H.
  destruct (click_cases _ _ _ H) as [Hb [Htree [_ Hc]]].
  unfold window_ok. rewrite Hb, Htree. repeat split; auto.
  destruct Hc as [-> | [it [key [text [path [Hit [Hs [Hp ->]]]]]]]]; [exact Hsel |].
  eapply sel_ok_click; eauto.
Qed.

(** ** Commits *)

Lemma commit_data (w : window) (text : string) (w' : window) :
  update_model_value w text = Returned w' ->
  exists sel,
    current w = Some sel
    /\ (bim_data w' = bim_data w
        \/ exists old loc,
            get (bim_data w) (current_path sel) = Some (old, loc)
            /\ bim_data w' = store (bim_data w) loc (fun _ => coerce old text)).
Proof.
  intros H.
  destruct (current w) as [sel |] eqn:Hc;
    [| unfold update_model_value in H; rewrite Hc in H; discriminate].
  exists sel. split; [reflexivity |].
  destruct (get (bim_data w) (current_path sel)) as [[old loc] |] eqn:Hg.
  - right. exists old, loc. split; [reflexivity |].
    rewrite (commit_resolved w sel old loc text Hc Hg) in H.
    now injection H as <-.
  - left. unfold update_model_value in H. unfold get in Hg. rewrite Hc in H.
    destruct (Py.getitem (bim_data w) "model") as [model |]; [| discriminate].
    destruct (traverse model (removelast (current_path sel)) [SKey "model"])
      as [c steps | |]; try discriminate.
    destruct (last_key_of (current_path sel)) as [last_key |]; [| discriminate].
    destruct (Py.contains last_key c) as [[|] |]; try discriminate.
    + destruct (Py.getitem c last_key); discriminate.
    + now injection H as <-.
Qed.

Lemma map_update_nth {A B : Type} (g : A -> B) (f : A -> A) (l : list A) :
  (forall a, g (f a) = g a) ->
  forall i, map g (update_nth i f l) = map g l.
Proof.
  intros Hf. induction l as [| a l IH]; intros [| i]; simpl; auto.
  - now rewrite Hf.
  - now rewrite IH.
Qed.

Lemma tree_ok_setText (tops : list item) (h : handle) (key text : string) :
  tree_ok tops -> top_key h key -> tree_ok (setText tops h (key ++ ": " ++ text)).
Proof.
  intros [m [v1 [c1 [v2 [c2 [groups [-> Hg]]]]]]] Hk.
  unfold setText, tree_ok.
  destruct (rev h) as [| t [| i down]] eqn:E.
  - do 6 eexists. split; [reflexivity | exact Hg].
  - destruct t as [| t]; [| destruct t]; cbn [setText_down update_nth item_children];
      do 6 eexists; (split; [reflexivity | exact Hg]).
  - destruct t as [| t];
      [| destruct t; cbn [setText_down update_nth]; do 6 eexists;
         (split; [reflexivity | exact Hg])].
    destruct down as [| j down].
    + assert (Hh : h = [i; 0]).
      { rewrite <- (rev_involutive h), E. reflexivity. }
      destruct (Hk i 0 Hh) as [[-> ->] | [-> ->]];
        cbn [setText_down update_nth item_children item_text];
        do 6 eexists; (split; [reflexivity | exact Hg]).
    + cbn [setText_down update_nth item_children item_text].
      destruct i as [| [| i]]; cbn [update_nth item_text item_children].
      * do 6 eexists. split; [reflexivity | exact Hg].
      * do 6 eexists. split; [reflexivity | exact Hg].
      * do 6 eexists. split; [reflexivity |].
        rewrite map_update_nth; [exact Hg | reflexivity].
Qed.

Lemma window_ok_commit (w w' : window) (text : string) :
  window_ok w -> update_model_value w text = Returned w' -> window_ok w'.
Proof.
  intros [Hl [Hu [Ht Hsel]]] H.
  destruct (commit_returned _ _ _ H) as [sel [Hc [Htree [Hcur _]]]].
  destruct (commit_data _ _ _ H) as [sel' [Hc' Hd]].
  assert (sel' = sel) by congruence. subst sel'.
  rewrite Hc in Hsel. destruct Hsel as [Hp Hk].
  unfold window_ok. rewrite Htree, Hcur, Hc.
  assert (Hdoc : loadable (bim_data w') = true /\ unique_keys (bim_data w') = true).
  { destruct Hd as [-> | [old [loc [Hg ->]]]]; [now split |].
    split.
    - now apply loadable_commit with (path := current_path sel).
    - apply unique_keys_store; [| exact Hu]. intros v _. apply unique_keys_coerce. }
  destruct Hdoc as [Hl' Hu'].
  repeat split; auto.
  now apply tree_ok_setText.
Qed.

(** ** Sessions *)

Lemma window_ok_event (w w' : window) (d d' : disk) (e : event) :
  window_ok w -> handle_event (w, d) e = Some (w', d') -> window_ok w'.
Proof.
  intros Hw H. destruct e as [item | text | answer]; simpl in H.
  - destruct (on_tree_item_click w item) as [w1 |] eqn:E; [| discriminate].
    simpl in H. injection H as <- _. eapply window_ok_click; eauto.
  - pose proof (commit_file_path w text) as Hc.
    destruct (update_model_value w text) as [w1 | msg w1 |] eqn:E; try discriminate;
      injection H as <- _.
    + eapply window_ok_commit; eauto.
    + now subst w1.
  - pose proof (save_window w answer d) as Hs.
    destruct (save_bim_file w answer d) as [r d1]. simpl in *.
    injection H as <- _. now rewrite Hs.
Qed.

Lemma window_ok_run (events : list event) :
  forall w d w' d',
    window_ok w -> run (w, d) events = Some (w', d') -> window_ok w'.
Proof.
  induction events as [| e events IH]; intros w d w' d' Hw H; cbn [run] in H.
  - now injection H as <- _.
  - destruct (handle_event (w, d) e) as [[w1 d1] |] eqn:E; [| discriminate].
    eapply IH; [| exact H]. eapply window_ok_event; eauto.
Qed.

Lemma opened_cases (selected_file : string) (d : disk) (message : string)
  (w : window) :
  load_bim_file selected_file d = Opened message w ->
  selected_file <> EmptyString
  /\ message = basename selected_file ++ " loaded successfully."
  /\ exists bytes text,
      read_file d selected_file = Some bytes
      /\ read_text bytes = Some text
      /\ Json.loads text = Some (bim_data w)
      /\ window_of (bim_data w) selected_file = Ok w.
Proof.
  unfold load_bim_file.
  destruct selected_file as [| c s]; [discriminate |].
  destruct (read_file d (String c s)) as [bytes |] eqn:Er; [| discriminate].
  destruct (read_text bytes) as [text |] eqn:Et; [| discriminate].
  destruct (Json.loads text) as [bim |] eqn:El; [| discriminate].
  destruct (window_of bim (String c s)) as [w0 |] eqn:Ew; [| discriminate].
  intros H. injection H as <- <-.
  destruct (window_of_ok _ _ _ Ew) as [_ [Hb _]].
  split; [discriminate |]. split; [reflexivity |].
  exists bytes, text. rewrite Hb. repeat split; auto.
Qed.

Lemma window_ok_opened (selected_file : string) (d : disk) (message : string)
  (w : window) :
  load_bim_file selected_file d = Opened message w -> window_ok w.
Proof.
  intros H. destruct (opened_cases _ _ _ _ H) as [_ [_ [bytes [text [_ [_ [Hl Hw]]]]]]].
  eapply window_ok_loaded; [| exact Hw]. eapply loads_unique; eauto.
Qed.

(** ** Files other than the one of the window *)

Lemma read_write_file_other (d : disk) (path path' bytes : string) :
  path' <> path -> read_file (write_file d path bytes) path' = read_file d path'.
Proof.
  intros Hne.
  assert (Hf : String.eqb path' path = false) by (now apply String.eqb_neq).
  induction d as [| [p old] d IH]; simpl.
  - now rewrite Hf.
  - destruct (String.eqb path p) eqn:E; simpl.
    + apply String.eqb_eq in E. subst p. now rewrite Hf.
    + now rewrite IH.
Qed.

(** X15.  [save_bim_file] leaves the window as it is and touches no file but
    the one the document was loaded from, whatever the operating system
    answers. *)
Theorem save_touches_one_file (w : window) (answer : io) (d : disk) (path : string) :
  path <> file_path w ->
  window_after (fst (save_bim_file w answer d)) = w
  /\ read_file (snd (save_bim_file w answer d)) path = read_file d path.
Proof.
  intros Hne. split; [apply save_window |].
  unfold save_bim_file.
  destruct (file_path w) as [| c p] eqn:E; [reflexivity |].
  destruct answer; cbn [snd]; try reflexivity;
    now apply read_write_file_other.
Qed.

Lemma save_touches_one_file_witness :
  window_after
    (fst (save_bim_file rows7_window Written
            [("other.bim", "{}"); ("model.bim", "{}")])) = rows7_window
  /\ read_file
       (snd (save_bim_file rows7_window Written
               [("other.bim", "{}"); ("model.bim", "{}")])) "other.bim"
     = read_file [("other.bim", "{}"); ("model.bim", "{}")] "other.bim".
Proof.
  apply (save_touches_one_file rows7_window Written
           [("other.bim", "{}"); ("model.bim", "{}")] "other.bim").
  discriminate.
Defined.

(** ** What a load leaves *)

(** X16.  When [load_bim_file] opens the window, a file was chosen and could
    be read and decoded, its text is JSON for the document of the window,
    whose mappings have unique keys, the tree is the one [load_tree] builds
    for that document, the path of the file is kept, and nothing is selected. *)
Theorem opened_window_holds_the_file (selected_file : string) (d : disk)
  (message : string) (w : window) :
  load_bim_file selected_file d = Opened message w ->
  selected_file <> EmptyString
  /\ message = basename selected_file ++ " loaded successfully."
  /\ (exists bytes, read_file d selected_file = Some bytes
                    /\ json_load bytes = Some (bim_data w))
  /\ unique_keys (bim_data w) = true
  /\ load_tree (bim_data w) = Ok (tree w)
  /\ file_path w = selected_file
  /\ current w = None
  /\ form_layout w = None.
Proof.
  intros H.
  destruct (opened_cases _ _ _ _ H) as [Hf [Hm [bytes [text [Hr [Ht [Hl Hw]]]]]]].
  destruct (window_of_ok _ _ _ Hw) as [Htree [_ [Hp [Hc Hform]]]].
  repeat split; auto.
  - exists bytes. split; [exact Hr |]. unfold json_load. now rewrite Ht.
  - eapply loads_unique; eauto.
Qed.

Lemma opened_window_holds_the_file_witness :
  "model.bim" <> EmptyString
  /\ "model.bim loaded successfully." = basename "model.bim" ++ " loaded successfully."
  /\ (exists bytes, read_file indexed_disk "model.bim" = Some bytes
                    /\ json_load bytes = Some (bim_data opened_window))
  /\ unique_keys (bim_data opened_window) = true
  /\ load_tree (bim_data opened_window) = Ok (tree opened_window)
  /\ file_path opened_window = "model.bim"
  /\ current opened_window = None
  /\ form_layout opened_window = None.
Proof.
  apply (opened_window_holds_the_file "model.bim" indexed_disk
           "model.bim loaded successfully." opened_window).
  vm_compute. reflexivity.
Defined.

(** ** A commit keeps the document loadable *)

(** X17.  A commit on a path that resolves leaves a document [load_tree] still
    builds a tree for, and whose mappings still have unique keys, unless the
    path is the key of one of the six collections alone. *)
Theorem commit_keeps_loadable (w : window) (sel : selection) (old : value)
  (loc : list step) (text : string) :
  current w = Some sel ->
  get (bim_data w) (current_path sel) = Some (old, loc) ->
  single_collection (current_path sel) = false ->
  loadable (bim_data w) = true ->
  unique_keys (bim_data w) = true ->
  exists w' tops,
    update_model_value w text = Returned w'
    /\ load_tree (bim_data w') = Ok tops
    /\ unique_keys (bim_data w') = true.
Proof.
  intros Hsel Hget Hp Hl Hu.
  assert (Hl' : loadable (store (bim_data w) loc (fun _ => coerce old text)) = true)
    by (now apply loadable_commit with (path := current_path sel)).
  apply load_tree_ok in Hl'. destruct Hl' as [tops Ht].
  eexists. exists tops.
  split; [exact (commit_resolved w sel old loc text Hsel Hget) |].
  split; [exact Ht |].
  apply unique_keys_store; [| exact Hu]. intros v _. apply unique_keys_coerce.
Qed.

Lemma commit_keeps_loadable_witness :
  exists w' tops,
    update_model_value rows_window "abc" = Returned w'
    /\ load_tree (bim_data w') = Ok tops
    /\ unique_keys (bim_data w') = true.
Proof.
  apply (commit_keeps_loadable rows_window (the_selection rows_window) (VInt 42)
           [SKey "model"; SKey "tables"; SIdx 0; SKey "rows"] "abc");
    reflexivity.
Defined.

(** ** Sessions *)

(** X18.  From the load on, whatever the user clicks, commits and saves, as
    long as no exception leaves a slot: the document is one [load_tree] builds
    a tree for, its mappings have unique keys, and the window keeps the path
    of the file it was loaded from. *)
Theorem session_keeps_document_loadable (selected_file : string) (d : disk)
  (message : string) (w : window) (events : list event) (w' : window) (d' : disk) :
  load_bim_file selected_file d = Opened message w ->
  run (w, d) events = Some (w', d') ->
  (exists tops, load_tree (bim_data w') = Ok tops)
  /\ unique_keys (bim_data w') = true
  /\ file_path w' = selected_file.
Proof.
  intros Hload Hrun.
  pose proof (window_ok_opened _ _ _ _ Hload) as Hw.
  destruct (window_ok_run _ _ _ _ _ Hw Hrun) as [Hl [Hu _]].
  destruct (opened_cases _ _ _ _ Hload) as [_ [_ [bytes [text [_ [_ [_ Hof]]]]]]].
  destruct (window_of_ok _ _ _ Hof) as [_ [_ [Hp _]]].
  repeat split; auto.
  - now apply load_tree_ok.
  - apply run_file_path in Hrun. congruence.
Qed.

Lemma session_keeps_document_loadable_witness :
  (exists tops, load_tree (bim_data rows7_window) = Ok tops)
  /\ unique_keys (bim_data rows7_window) = true
  /\ file_path rows7_window = "model.bim".
Proof.
  apply (session_keeps_document_loadable "model.bim" indexed_disk
           "model.bim loaded successfully." opened_window
           [Click [1; 0; 3; 0]; Commit "7"] rows7_window indexed_disk);
    vm_compute; reflexivity.
Defined.

(** X19.  After any such session, a save that goes through writes a file that
    [load_bim_file] opens again with the document the window held, the tree
    [load_tree] builds for it and the same message. *)
Theorem saved_session_reopens (selected_file : string) (d : disk)
  (message : string) (w : window) (events : list event) (w' : window) (d' : disk) :
  load_bim_file selected_file d = Opened message w ->
  run (w, d) events = Some (w', d') ->
  exists tops,
    load_tree (bim_data w') = Ok tops
    /\ load_bim_file selected_file (snd (save_bim_file w' Written d'))
       = Opened message
           {| bim_data := bim_data w'; file_path := selected_file; tree := tops;
              current := None; form_layout := None |}.
Proof.
  intros Hload Hrun.
  pose proof (window_ok_opened _ _ _ _ Hload) as Hw.
  destruct (window_ok_run _ _ _ _ _ Hw Hrun) as [Hl [Hu _]].
  destruct (opened_cases _ _ _ _ Hload) as [Hf [Hm [bytes [text [_ [_ [_ Hof]]]]]]].
  destruct (window_of_ok _ _ _ Hof) as [_ [_ [Hp _]]].
  assert (Hpath : file_path w' = selected_file).
  { apply run_file_path in Hrun. congruence. }
  apply load_tree_ok in Hl. destruct Hl as [tops Ht].
  exists tops. split; [exact Ht |].
  rewrite Hm, <- Hpath.
  apply load_after_save; auto. congruence.
Qed.

Lemma saved_session_reopens_witness :
  exists tops,
    load_tree (bim_data rows7_window) = Ok tops
    /\ load_bim_file "model.bim" (snd (save_bim_file rows7_window Written indexed_disk))
       = Opened "model.bim loaded successfully."
           {| bim_data := bim_data rows7_window; file_path := "model.bim";
              tree := tops; current := None; form_layout := None |}.
Proof.
  apply (saved_session_reopens "model.bim" indexed_disk
           "model.bim loaded successfully." opened_window
           [Click [1; 0; 3; 0]; Commit "7"] rows7_window indexed_disk);
    vm_compute; reflexivity.
Defined.

(** ** The items of a loaded tree *)

Lemma Forall2_nth_error {A B : Type} (R : A -> B -> Prop) (l : list A) (l' : list B) :
  Forall2 R l l' ->
  forall i b, nth_error l' i = Some b -> exists a, nth_error l i = Some a /\ R a b.
Proof.
  induction 1 as [| a b l l' Hab Hl IH]; intros [| i] b' H; simpl in *;
    try discriminate.
  - injection H as <-. eauto.
  - eauto.
Qed.

Lemma item_node_dicts (elems : list value) (nodes : list item) :
  mapM item_node elems = Ok nodes -> forallb is_dict elems = true.
Proof.
  intros H. apply mapM_Forall2 in H.
  induction H as [| e nd l l' He Hl IH]; simpl; [reflexivity |].
  destruct (item_node_ok _ _ He) as [pairs [label [-> _]]]. exact IH.
Qed.

Lemma item_node_str (s : string) : item_node (VStr s) = Raise AttributeError.
Proof. reflexivity. Qed.

(** The node of a collection that has a child: the collection is a list of
    mappings, held by the mapping under [model]. *)
Lemma sublevel_with_child (pairs : list (string * value)) (coll : string)
  (grp it : item) (i : nat) :
  sublevel_of (VDict pairs) coll = Ok grp ->
  nth_error (item_children grp) i = Some it ->
  exists mpairs elems epairs label,
    Py.dict_get "model" pairs = Some (VDict mpairs)
    /\ Py.dict_get coll mpairs = Some (VList elems)
    /\ forallb is_dict elems = true
    /\ List.length (item_children grp) = List.length elems
    /\ item_text grp = coll
    /\ nth_error elems i = Some (VDict epairs)
    /\ label_of epairs = VStr label
    /\ it = Item label (map (fun kv => leaf (fst kv) (snd kv)) epairs).
Proof.
  unfold sublevel_of. cbn [Py.get_default bind].
  intros H Hi.
  assert (Hcase :
    forall mpairs,
      (items <- Py.get_default (VDict mpairs) coll (VList []) ;; add_sublevel coll items)
      = Ok grp ->
      exists elems epairs label,
        Py.dict_get coll mpairs = Some (VList elems)
        /\ forallb is_dict elems = true
        /\ List.length (item_children grp) = List.length elems
        /\ item_text grp = coll
        /\ nth_error elems i = Some (VDict epairs)
        /\ label_of epairs = VStr label
        /\ it = Item label (map (fun kv => leaf (fst kv) (snd kv)) epairs)).
  { intros mpairs Hm. cbn [Py.get_default bind] in Hm.
    unfold add_sublevel in Hm.
    destruct (Py.dict_get coll mpairs) as [items |] eqn:Ec.
    - destruct (Py.iter items) as [elems |] eqn:Eiter; [| discriminate].
      cbn [bind] in Hm.
      destruct (mapM item_node elems) as [nodes |] eqn:En; [| discriminate].
      cbn [bind] in Hm. injection Hm as <-. cbn [item_children item_text] in *.
      pose proof (mapM_Forall2 _ _ _ En) as HF.
      destruct (Forall2_nth_error _ _ _ HF _ _ Hi) as [e [He Hnode]].
      destruct (item_node_ok _ _ Hnode) as [epairs [label [-> [Hlab ->]]]].
      assert (Hitems : items = VList elems).
      { destruct items; try discriminate; cbn [Py.iter] in Eiter.
        - injection Eiter as <-.
          apply nth_error_In in He. apply in_map_iff in He.
          destruct He as [c [Hc _]]. discriminate.
        - now injection Eiter as <-.
        - injection Eiter as <-.
          apply nth_error_In in He. apply in_map_iff in He.
          destruct He as [c [Hc _]]. discriminate. }
      subst items.
      exists elems, epairs, label. repeat split; auto.
      + eapply item_node_dicts; eauto.
      + symmetry. eapply Forall2_length; eauto.
    - cbn [Py.iter bind mapM] in Hm. injection Hm as <-.
      destruct i; discriminate. }
  destruct (Py.dict_get "model" pairs) as [m |] eqn:Em.
  - destruct m; try discriminate.
    destruct (Hcase _ H) as [elems [epairs [label Hall]]].
    exists pairs0, elems, epairs, label. split; [reflexivity | exact Hall].
  - destruct (Hcase _ H) as [elems [epairs [label [Hc _]]]]. discriminate.
Qed.

(** What stands behind an item of a collection in a loaded tree. *)
Lemma loaded_item (bim : value) (tops : list item) (i g : nat) (it : item) :
  load_tree bim = Ok tops ->
  item_at tops [i; g; 0] = Some it ->
  exists pairs mpairs coll grp elems epairs label,
    bim = VDict pairs
    /\ Py.dict_get "model" pairs = Some (VDict mpairs)
    /\ In coll sublevels
    /\ item_at tops [g; 0] = Some grp
    /\ item_text grp = coll
    /\ List.length (item_children grp) = List.length elems
    /\ Py.dict_get coll mpairs = Some (VList elems)
    /\ forallb is_dict elems = true
    /\ nth_error elems i = Some (VDict epairs)
    /\ label_of epairs = VStr label
    /\ it = Item label (map (fun kv => leaf (fst kv) (snd kv)) epairs).
Proof.
  intros H Hit.
  destruct (load_tree_groups _ _ H) as [pairs [groups [-> [Hg ->]]]].
  unfold item_at in *. cbn [rev app item_down nth_error item_children] in *.
  destruct g as [| [| g]]; cbn [nth_error] in Hit.
  - unfold leaf in Hit. cbn [item_children] in Hit. now destruct i.
  - unfold leaf in Hit. cbn [item_children] in Hit. now destruct i.
  - destruct (nth_error groups g) as [grp |] eqn:Eg; [| discriminate].
    destruct (nth_error (item_children grp) i) as [it' |] eqn:Ei; [| discriminate].
    assert (it' = it) by congruence. subst it'.
    pose proof (mapM_Forall2 _ _ _ Hg) as HF.
    destruct (Forall2_nth_error _ _ _ HF _ _ Eg) as [coll [Hcoll Hsub]].
    destruct (sublevel_with_child _ _ _ _ _ Hsub Ei)
      as [mpairs [elems [epairs [label [Hm [Hc [Hd [Hlen [Htext [He [Hlab ->]]]]]]]]]]].
    exists pairs, mpairs, coll, grp, elems, epairs, label.
    repeat split; auto.
    + eapply nth_error_In; eauto.
    + cbn [nth_error]. now rewrite Eg.
Qed.

Lemma isdigit_sublevel (coll : string) : In coll sublevels -> Py.isdigit coll = false.
Proof.
  unfold sublevels. simpl.
  intros [<- | [<- | [<- | [<- | [<- | [<- | []]]]]]]; reflexivity.
Qed.

Lemma split_head_sublevel (coll : string) :
  In coll sublevels -> Py.split_head ": " coll = coll.
Proof.
  intros H. unfold Py.split_head. now rewrite (split_sublevel coll H).
Qed.

(** The selection a click on a leaf of an item makes in a loaded tree. *)
Lemma loaded_leaf_click (bim : value) (path : string) (w w1 : window)
  (j i g : nat) (it : item) :
  window_of bim path = Ok w ->
  item_at (tree w) [i; g; 0] = Some it ->
  on_tree_item_click w [j; i; g; 0] = Some w1 ->
  exists pairs mpairs coll grp elems lf sel,
    bim_data w1 = VDict pairs
    /\ Py.dict_get "model" pairs = Some (VDict mpairs)
    /\ In coll sublevels
    /\ item_at (tree w) [g; 0] = Some grp
    /\ item_text grp = coll
    /\ List.length (item_children grp) = List.length elems
    /\ Py.dict_get coll mpairs = Some (VList elems)
    /\ forallb is_dict elems = true
    /\ item_at (tree w) [j; i; g; 0] = Some lf
    /\ current w1 = Some sel
    /\ current_path sel
       = [coll; Py.split_head ": " (item_text it); Py.split_head ": " (item_text lf)].
Proof.
  intros Hw Hit Hclick.
  destruct (window_of_ok _ _ _ Hw) as [Htree [Hb [_ [Hc _]]]].
  destruct (loaded_item _ _ _ _ _ Htree Hit)
    as [pairs [mpairs [coll [grp [elems [epairs [label
         [Hbim [Hm [Hin [Hgrp [Htext [Hlen [Hcoll [Hd [He [Hlab Hitem]]]]]]]]]]]]]]]]].
  destruct (click_cases _ _ _ Hclick) as [Hb1 [_ [_ Hcur]]].
  unfold on_tree_item_click in Hclick.
  destruct (item_at (tree w) [j; i; g; 0]) as [lf |] eqn:Hlf; [| discriminate].
  exists pairs, mpairs, coll, grp, elems, lf.
  assert (Hpath : get_json_path (tree w) [j; i; g; 0]
                  = Some [coll; Py.split_head ": " (item_text it);
                          Py.split_head ": " (item_text lf)]).
  { rewrite get_json_path_cons, Hlf, get_json_path_cons, Hit, get_json_path_cons, Hgrp.
    cbn [get_json_path get_json_path_loop option_map app].
    now rewrite Htext, split_head_sublevel. }
  assert (Hsplit : exists x y, Py.split_once ": " (item_text lf) = Some (x, y)).
  { assert (Hchild : nth_error (item_children it) j = Some lf).
    { unfold item_at in Hlf, Hit. cbn [rev app] in Hlf, Hit.
      change [0; g; i; j] with ([0; g; i] ++ [j])%list in Hlf.
      rewrite item_down_snoc in Hlf by discriminate.
      now rewrite Hit in Hlf. }
    rewrite Hitem in Hchild. cbn [item_children] in Hchild.
    apply nth_error_In in Hchild. apply in_map_iff in Hchild.
    destruct Hchild as [[k v] [<- _]]. unfold leaf. cbn [item_text fst snd].
    apply split_once_some. }
  destruct Hsplit as [x [y Hxy]]. rewrite Hxy, Hpath in Hclick.
  injection Hclick as <-. cbn [bim_data current].
  eexists. rewrite Hb. repeat split; eauto.
Qed.

(** ** Commits on the leaves of a loaded tree *)

(** X20.  In the window of any loaded document, the commit on a leaf of an
    item whose label, up to its first [": "], is not a digit string ends in
    the error box and changes nothing: the loop of [update_model_value] looks
    for the label in a list of mappings. *)
Theorem leaf_of_named_item_is_refused (bim : value) (path : string) (w w1 : window)
  (j i g : nat) (it : item) (text : string) :
  window_of bim path = Ok w ->
  item_at (tree w) [i; g; 0] = Some it ->
  Py.isdigit (Py.split_head ": " (item_text it)) = false ->
  on_tree_item_click w [j; i; g; 0] = Some w1 ->
  exists message, update_model_value w1 text = Reported message w1.
Proof.
  intros Hw Hit Hlabel Hclick.
  destruct (loaded_leaf_click _ _ _ _ _ _ _ _ Hw Hit Hclick)
    as [pairs [mpairs [coll [grp [elems [lf [sel
         [Hb [Hm [Hin [_ [_ [_ [Hc [Hd [_ [Hsel Hpath]]]]]]]]]]]]]]]]].
  eexists.
  eapply named_item_commit_is_refused; eauto.
  now apply isdigit_sublevel.
Qed.

Lemma leaf_of_named_item_is_refused_witness :
  exists message,
    update_model_value (the_window (select sales_doc [1; 0; 3; 0])) "7"
    = Reported message (the_window (select sales_doc [1; 0; 3; 0])).
Proof.
  apply (leaf_of_named_item_is_refused sales_doc "model.bim" sales_window
           (the_window (select sales_doc [1; 0; 3; 0])) 1 0 3
           (Item "Sales" [Item "name: Sales" []; Item "rows: 42" []]) "7");
    reflexivity.
Defined.

(** X21.  In the window of any loaded document, the commit on a leaf of an
    item whose label is a digit string that reads as a number not below the
    number of items of its collection is left by an [IndexError]. *)
Theorem leaf_of_numbered_item_raises (bim : value) (path : string) (w w1 : window)
  (j i g : nat) (grp it : item) (n : Z) (text : string) :
  window_of bim path = Ok w ->
  item_at (tree w) [g; 0] = Some grp ->
  item_at (tree w) [i; g; 0] = Some it ->
  Py.isdigit (Py.split_head ": " (item_text it)) = true ->
  Py.int_of_str (Py.split_head ": " (item_text it)) = Some n ->
  List.length (item_children grp) <= Z.to_nat n ->
  on_tree_item_click w [j; i; g; 0] = Some w1 ->
  update_model_value w1 text = Raised IndexError.
Proof.
  intros Hw Hgrp Hit Hlabel Hint Hlen Hclick.
  destruct (loaded_leaf_click _ _ _ _ _ _ _ _ Hw Hit Hclick)
    as [pairs [mpairs [coll [grp' [elems [lf [sel
         [Hb [Hm [Hin [Hgrp' [_ [Hlen' [Hc [Hd [_ [Hsel Hpath]]]]]]]]]]]]]]]]].
  assert (grp' = grp) by congruence. subst grp'.
  eapply numbered_item_commit_raises; eauto.
  - now apply isdigit_sublevel.
  - lia.
Qed.

Lemma leaf_of_numbered_item_raises_witness :
  update_model_value (the_window (select source_doc [1; 0; 2; 0])) "sql"
  = Raised IndexError.
Proof.
  apply (leaf_of_numbered_item_raises source_doc "model.bim" source_window
           (the_window (select source_doc [1; 0; 2; 0])) 1 0 2
           (Item "dataSources" [Item "1" [Item "name: 1" []; Item "type: structured" []]])
           (Item "1" [Item "name: 1" []; Item "type: structured" []]) 1 "sql");
    reflexivity.
Defined.

Lemma unread_item_commit_raises (w : window) (sel : selection)
  (coll label key text : string) (pairs mpairs : list (string * value))
  (items : list value) :
  current w = Some sel ->
  current_path sel = [coll; label; key] ->
  Py.isdigit coll = false ->
  Py.isdigit label = true ->
  Py.int_of_str label = None ->
  bim_data w = VDict pairs ->
  Py.dict_get "model" pairs = Some (VDict mpairs) ->
  Py.dict_get coll mpairs = Some (VList items) ->
  update_model_value w text = Raised ValueError.
Proof.
  intros Hsel Hpath Hcoll Hlabel Hint Hb Hm Hc.
  unfold update_model_value. rewrite Hsel, Hpath, Hb.
  cbn [Py.getitem removelast traverse map]. rewrite Hm.
  cbn [traverse]. rewrite Hcoll. cbn [Py.contains Py.getitem]. rewrite Hc.
  now rewrite Hlabel, Hint.
Qed.

(** X22.  In the window of any loaded document, the commit on a leaf of an
    item whose label [isdigit] accepts and [int] does not read, as a
    superscript digit, is left by a [ValueError]. *)
Theorem leaf_of_unread_item_raises (bim : value) (path : string) (w w1 : window)
  (j i g : nat) (it : item) (text : string) :
  window_of bim path = Ok w ->
  item_at (tree w) [i; g; 0] = Some it ->
  Py.isdigit (Py.split_head ": " (item_text it)) = true ->
  Py.int_of_str (Py.split_head ": " (item_text it)) = None ->
  on_tree_item_click w [j; i; g; 0] = Some w1 ->
  update_model_value w1 text = Raised ValueError.
Proof.
  intros Hw Hit Hlabel Hint Hclick.
  destruct (loaded_leaf_click _ _ _ _ _ _ _ _ Hw Hit Hclick)
    as [pairs [mpairs [coll [grp [elems [lf [sel
         [Hb [Hm [Hin [_ [_ [_ [Hc [Hd [_ [Hsel Hpath]]]]]]]]]]]]]]]]].
  eapply unread_item_commit_raises; eauto.
  now apply isdigit_sublevel.
Qed.

Lemma leaf_of_unread_item_raises_witness :
  update_model_value (the_window (select squared_doc [1; 0; 3; 0])) "7"
  = Raised ValueError.
Proof.
  apply (leaf_of_unread_item_raises squared_doc "model.bim" squared_window
           (the_window (select squared_doc [1; 0; 3; 0])) 1 0 3
           (Item (String (ascii_of_nat 178) EmptyString)
              [Item ("name: " ++ String (ascii_of_nat 178) EmptyString) [];
               Item "rows: 42" []]) "7");
    reflexivity.
Defined.

(** ** Items named by a number *)

(** The lookup along [coll], a digit string and a key ends in the element
    of the collection the digit string counts to. *)
Lemma get_by_number (pairs mpairs : list (string * value)) (coll label key : string)
  (elems : list value) (n : Z) (old : value) :
  Py.dict_get "model" pairs = Some (VDict mpairs) ->
  Py.dict_get coll mpairs = Some (VList elems) ->
  Py.isdigit coll = false ->
  Py.isdigit label = true ->
  Py.int_of_str label = Some n ->
  value_at (VDict pairs) [SKey "model"; SKey coll; SIdx (Z.to_nat n); SKey key]
  = Some old ->
  get (VDict pairs) [coll; label; key]
  = Some (old, [SKey "model"; SKey coll; SIdx (Z.to_nat n); SKey key]).
Proof.
  intros Hm Hc Hcoll Hlabel Hint Hat.
  cbn [value_at] in Hat. rewrite Hm, Hc in Hat.
  destruct (nth_error elems (Z.to_nat n)) as [e |] eqn:He; [| discriminate].
  destruct e; try discriminate.
  destruct (Py.dict_get key pairs0) as [v |] eqn:Ek; [| discriminate].
  injection Hat as ->.
  unfold get. cbn [Py.getitem removelast traverse last_key_of last]. rewrite Hm.
  cbn [traverse]. rewrite Hcoll. cbn [Py.contains Py.getitem]. rewrite Hc.
  rewrite Hlabel, Hint. cbn [Py.getindex]. rewrite He.
  cbn [traverse Py.contains Py.getitem app]. now rewrite Ek.
Qed.

(** X23.  In the window of any loaded document, the commit on a leaf of an
    item whose label is a digit string goes to the element of the collection
    that the label counts to, not to the element the item shows: when that
    element holds the key of the leaf, its value is replaced, and the element
    of the clicked item is left as it is unless it is that one. *)
Theorem leaf_of_numbered_item_edits_by_number (bim : value) (path : string)
  (w w1 : window) (j i g : nat) (grp it lf : item) (n : Z) (old : value)
  (text : string) :
  window_of bim path = Ok w ->
  item_at (tree w) [g; 0] = Some grp ->
  item_at (tree w) [i; g; 0] = Some it ->
  item_at (tree w) [j; i; g; 0] = Some lf ->
  Py.isdigit (Py.split_head ": " (item_text it)) = true ->
  Py.int_of_str (Py.split_head ": " (item_text it)) = Some n ->
  value_at bim [SKey "model"; SKey (item_text grp); SIdx (Z.to_nat n);
                SKey (Py.split_head ": " (item_text lf))] = Some old ->
  on_tree_item_click w [j; i; g; 0] = Some w1 ->
  exists w2,
    update_model_value w1 text = Returned w2
    /\ value_at (bim_data w2)
         [SKey "model"; SKey (item_text grp); SIdx (Z.to_nat n);
          SKey (Py.split_head ": " (item_text lf))]
       = Some (coerce old text)
    /\ (i <> Z.to_nat n ->
        value_at (bim_data w2) [SKey "model"; SKey (item_text grp); SIdx i]
        = value_at bim [SKey "model"; SKey (item_text grp); SIdx i]).
Proof.
  intros Hw Hgrp Hit Hlf Hlabel Hint Hat Hclick.
  destruct (loaded_leaf_click _ _ _ _ _ _ _ _ Hw Hit Hclick)
    as [pairs [mpairs [coll [grp' [elems [lf' [sel
         [Hb [Hm [Hin [Hgrp' [Htext [_ [Hc [Hd [Hlf' [Hsel Hpath]]]]]]]]]]]]]]]]].
  assert (grp' = grp) by congruence. subst grp'.
  assert (lf' = lf) by congruence. subst lf'.
  destruct (click_cases _ _ _ Hclick) as [Hb1 _].
  destruct (window_of_ok _ _ _ Hw) as [_ [Hbw _]].
  assert (Hbim : bim = VDict pairs) by congruence.
  rewrite Hbim in Hat |- *. subst coll.
  assert (Hget : get (bim_data w1) (current_path sel)
                 = Some (old, [SKey "model"; SKey (item_text grp); SIdx (Z.to_nat n);
                               SKey (Py.split_head ": " (item_text lf))])).
  { rewrite Hb, Hpath. apply get_by_number with (mpairs := mpairs) (elems := elems);
      auto. now apply isdigit_sublevel. }
  eexists. split; [exact (commit_resolved w1 sel old _ text Hsel Hget) |].
  cbn [bim_data with_data_and_text]. rewrite Hb. split.
  - now rewrite (value_at_store_same _ _ _ _ Hat).
  - intros Hne. apply value_at_store_apart.
    + intros [r Hr]. injection Hr as Hr. congruence.
    + intros [r Hr]. discriminate.
Qed.

Lemma leaf_of_numbered_item_edits_by_number_witness :
  exists w2,
    update_model_value (the_window (select swapped_doc [1; 0; 3; 0])) "99"
    = Returned w2
    /\ value_at (bim_data w2)
         [SKey "model"; SKey (item_text (Item "tables" []));
          SIdx (Z.to_nat 1);
          SKey (Py.split_head ": " (item_text (Item "rows: 42" [])))]
       = Some (coerce (VInt 7) "99")
    /\ (0 <> Z.to_nat 1 ->
        value_at (bim_data w2)
          [SKey "model"; SKey (item_text (Item "tables" [])); SIdx 0]
        = value_at swapped_doc
            [SKey "model"; SKey (item_text (Item "tables" [])); SIdx 0]).
Proof.
  pose (grp := Item "tables"
                 [Item "1" [Item "name: 1" []; Item "rows: 42" []];
                  Item "Sales" [Item "name: Sales" []; Item "rows: 7" []]]).
  apply (leaf_of_numbered_item_edits_by_number swapped_doc "model.bim" swapped_window
           (the_window (select swapped_doc [1; 0; 3; 0])) 1 0 3 grp
           (Item "1" [Item "name: 1" []; Item "rows: 42" []])
           (Item "rows: 42" []) 1 (VInt 7) "99");
    reflexivity.
Defined.

(** ** Files that are not opened *)

Lemma load_tree_not_dict (bim : value) :
  is_dict bim = false -> load_tree bim = Raise AttributeError.
Proof. destruct bim; try discriminate; reflexivity. Qed.

(** X24.  A file that holds JSON whose top level is not an object is not
    opened: [load_tree] raises on the first [.get], and [load_bim_file] ends
    in the box for unexpected errors and closes the window. *)
Theorem non_object_file_is_closed (selected_file : string) (d : disk)
  (bytes : string) (bim : value) :
  selected_file <> EmptyString ->
  read_file d selected_file = Some bytes ->
  json_load bytes = Some bim ->
  is_dict bim = false ->
  load_bim_file selected_file d = Closed Unexpected.
Proof.
  intros Hf Hr Hl Hd. unfold load_bim_file.
  destruct selected_file as [| c s]; [congruence |].
  rewrite Hr. unfold json_load in Hl.
  destruct (read_text bytes) as [text |]; [| discriminate].
  rewrite Hl. unfold window_of. now rewrite load_tree_not_dict.
Qed.

Lemma non_object_file_is_closed_witness :
  load_bim_file "model.bim" array_disk = Closed Unexpected.
Proof.
  apply (non_object_file_is_closed "model.bim" array_disk "[1, 2]"
           (VList [VInt 1; VInt 2]));
    [discriminate | reflexivity | reflexivity | reflexivity].
Defined.

(** ** The byte-order mark *)

Lemma dump_plain (v : value) : Py.all_chars plain (json_dump v) = true.
Proof.
  pose proof (plain_iterencode v 0) as H.
  unfold json_dump, Json.dumps. now rewrite utf8_encode_plain.
Qed.

Lemma bom_dropped (bytes : string) :
  prefix bom bytes = false ->
  utf8_sig_decode (bom ++ bytes) = utf8_sig_decode bytes.
Proof.
  intros H. unfold utf8_sig_decode. rewrite H, prefix_append. reflexivity.
Qed.

(** X25.  The program reads a byte-order mark and never writes one: the bytes
    [save_bim_file] sends to the file do not start with the mark, and the same
    bytes behind a mark are loaded as the same document. *)
Theorem bom_is_read_and_not_written (v : value) :
  prefix bom (json_dump v) = false
  /\ json_load (bom ++ json_dump v) = json_load (json_dump v).
Proof.
  assert (H : prefix bom (json_dump v) = false) by (apply no_bom_plain, dump_plain).
  split; [exact H |].
  unfold json_load, read_text. now rewrite bom_dropped.
Qed.
